(** * IRIS slit-jaw imager cubes: a shallow embedding of [new_sji.py]

    The module reads level 2 SJI FITS files into [IRISMapCube] objects,
    groups several of them in an [IRISMapCubeSequence], and offers the
    exposure time correction of a cube.  The embedding follows the Python
    text statement by statement:

    - sample values are IEEE 754 numbers ([spec_float] of the standard
      library, with the operations of the format [prec], [emax]);
    - numpy arrays, cubes and open FITS files live in an explicit [world]:
      a heap of objects addressed by location, so that two names for one
      array are one location, and a table of open file handles;
    - Python code is written in a state and exception monad [M]; a raised
      exception keeps the state reached so far.

    What the module imports from other packages (time parsing, WCS, the
    check of arguments in the constructor of [NDCube], the unit table and
    readout noise of [iris_tools]) is a parameter of the development,
    gathered in the class [Collaborators]. *)

From Stdlib Require Import ZArith String Bool Lia.
From Stdlib Require Import Floats.SpecFloat.
From stdpp Require Import base option list gmap strings pretty.

Local Open Scope string_scope.

(** ** Values *)

Abbreviation float := spec_float.

Definition nan : float := S754_nan.

Definition isnan (x : float) : bool :=
  match x with S754_nan => true | _ => false end.

(** A numpy array: its shape and its elements in row-major order.  The
    elements are written as floating-point numbers; the counts of an
    array of an integer dtype are integers that the floating-point formats
    represent exactly, and a file says which dtype its primary array
    has. *)
Record ndarray (A : Type) : Type := NDArray { shape : list nat; flat : list A }.
Arguments NDArray {A} shape flat.
Arguments shape {A} n.
Arguments flat {A} n.

Definition ndim {A} (a : ndarray A) : nat := length (shape a).

(** Python exceptions met in the module. *)
Inductive exn : Type :=
  | ValueError (msg : string)
  | KeyError (key : string)
  | IndexError
  | TypeError
  | AttributeError
  | UnboundLocalError (var : string)
  | FileNotFoundError (path : string)
  | OverflowError
  | UnitConversionError.

Inductive result (A : Type) : Type :=
  | Ok (a : A)
  | Raise (e : exn).
Arguments Ok {A} a.
Arguments Raise {A} e.

(** A FITS header card value. *)
Inductive hval : Type :=
  | HStr (s : string)
  | HInt (z : Z)
  | HReal (x : float).

Abbreviation header := (gmap string hval).

(** A point in time, a [datetime.datetime]: the microseconds since the
    first instant of its calendar, the start of the year 1. *)
Definition datetime : Type := Z.

(** The microseconds of the calendar, the years 1 to 9999. *)
Definition datetime_end : Z := 3652059 * 86400 * 1000000.

(** A value kept in a [meta] dictionary. *)
Inductive pyval : Type :=
  | PNone
  | PVal (v : hval)
  | PTime (t : datetime).

Abbreviation dict := (gmap string pyval).

(** [x == z] for a float and an integer: Python compares them exactly. *)
Definition float_eq_int (x : float) (z : Z) : bool :=
  match x with
  | S754_zero _ => (z =? 0)%Z
  | S754_finite s m e =>
      let sm := if s then Z.neg m else Z.pos m in
      if (0 <=? e)%Z then (z =? sm * 2 ^ e)%Z else (z * 2 ^ (- e) =? sm)%Z
  | _ => false
  end.

Definition hval_eq (a b : hval) : bool :=
  match a, b with
  | HStr s, HStr t => String.eqb s t
  | HInt x, HInt y => (x =? y)%Z
  | HReal x, HReal y => SFeqb x y
  | HReal x, HInt z | HInt z, HReal x => float_eq_int x z
  | _, _ => false
  end.

(** Python's [a != b] on metadata values. *)
Definition py_ne (a b : pyval) : bool :=
  match a, b with
  | PNone, PNone => false
  | PVal x, PVal y => negb (hval_eq x y)
  | PTime s, PTime t => negb (s =? t)%Z
  | _, _ => true
  end.

(** Truth value of a header card in a condition. *)
Definition truthy (v : hval) : bool :=
  match v with
  | HStr s => negb (String.eqb s EmptyString)
  | HInt z => negb (z =? 0)%Z
  | HReal x => negb (SFeqb x (S754_zero false))
  end.

(** A physical unit: the part that is not time, and the power of the
    second.  [DN/s] has power [-1]. *)
Record Unit : Type := mkUnit { unit_name : string; time_power : Z }.

Global Instance Unit_eq_dec : EqDecision Unit.
Proof. solve_decision. Defined.

Definition second : Unit := mkUnit EmptyString 1.
Definition arcsec : Unit := mkUnit "arcsec" 0.
Definition m_per_s : Unit := mkUnit "m" (-1).

(** The value of an extra coordinate. *)
Inductive coord_value : Type :=
  | CScalar (x : float)
  | CArray (xs : list float)
  | CQuantity (xs : list float) (u : Unit)
  | CTimes (ts : list datetime).

(** One extra coordinate as the constructor takes it: name, data axis,
    values. *)
Definition coord_input : Type := string * option nat * coord_value.

(** The world coordinate system built from a primary header; the core
    never looks inside. *)
Record wcs_t : Type := mkWCS { wcs_header : header }.

Definition loc : Type := nat.

(** ** Cubes and sequences *)

(** The attributes of a cube.  [extra_coords] is the dictionary behind
    the property of that name: the property gives [None] when the
    dictionary is empty, so the empty dictionary stands for [None]. *)
Module IRISMapCube.
Record t : Type := new {
  data : loc;
  wcs : wcs_t;
  uncertainty : option loc;
  unit : option Unit;
  meta : dict;
  mask : option loc;
  extra_coords : gmap string (option nat * coord_value);
  missing_axis : option (list bool);
  scaled : option bool
}.
End IRISMapCube.

Module IRISMapCubeSequence.
Record t : Type := new {
  data : list loc;
  meta : option dict;
  common_axis : nat
}.
End IRISMapCubeSequence.

(** ** Files *)

(** The auxiliary extension: one row per frame. *)
Record table : Type := mkTable { ncols : nat; rows : list (list float) }.

(** A FITS file with an image in its primary HDU, as [fits.open] presents
    it with the options of the call: the primary header, the primary array
    and whether the dtype of that array is an integer one (raw counts, or
    an image that has no [BSCALE] and [BZERO] to scale it), then the
    extensions. *)
Record fits_file : Type := mkFits {
  primary_header : header;
  primary_data : ndarray float;
  primary_integer : bool;
  extensions : list (header * table)
}.

(** ** The world *)

Inductive obj : Type :=
  | OArray (a : ndarray float)
  | OMask (m : ndarray bool)
  | OCube (c : IRISMapCube.t).

Record world : Type := mkWorld {
  files : gmap string fits_file;
  open_files : gmap nat string;
  heap : gmap loc obj
}.

(** An opened file: its handle, whether it was opened memory mapped, the
    primary header, the location of the primary array (one object however
    often [.data] is read), whether that array has an integer dtype, and
    the extensions. *)
Record HDUList : Type := mkHDUList {
  handle : nat;
  mapped : bool;
  hdu0_header : header;
  hdu0_data : loc;
  hdu0_integer : bool;
  hdus : list (header * table)
}.

(** ** The monad of Python code *)

Definition M (A : Type) : Type := world → result A * world.

Global Instance M_ret : MRet M := λ A a w, (Ok a, w).

Global Instance M_bind : MBind M := λ A B f m w,
  match m w with
  | (Ok a, w') => f a w'
  | (Raise e, w') => (Raise e, w')
  end.

Definition raise {A} (e : exn) : M A := λ w, (Raise e, w).

Definition lift {A} (r : result A) : M A := λ w, (r, w).

Global Instance result_ret : MRet result := λ A a, Ok a.

Global Instance result_bind : MBind result := λ A B f r,
  match r with Ok a => f a | Raise e => Raise e end.

(** A list comprehension whose element expression may raise. *)
Fixpoint mapR {A B} (f : A → result B) (l : list A) : result (list B) :=
  match l with
  | [] => Ok []
  | x :: l' => y ← f x; ys ← mapR f l'; Ok (y :: ys)
  end.

Fixpoint mapM_M {A B} (f : A → M B) (l : list A) : M (list B) :=
  match l with
  | [] => mret []
  | x :: l' => y ← f x; ys ← mapM_M f l'; mret (y :: ys)
  end.

Definition alloc (o : obj) : M loc := λ w,
  let l := fresh (dom (heap w)) in
  (Ok l, mkWorld (files w) (open_files w) (<[l := o]> (heap w))).

Definition get_array (l : loc) : M (ndarray float) := λ w,
  match heap w !! l with
  | Some (OArray a) => (Ok a, w)
  | _ => (Raise AttributeError, w)
  end.

Definition set_array (l : loc) (a : ndarray float) : M () := λ w,
  (Ok (), mkWorld (files w) (open_files w) (<[l := OArray a]> (heap w))).

Definition get_cube (l : loc) : M IRISMapCube.t := λ w,
  match heap w !! l with
  | Some (OCube c) => (Ok c, w)
  | _ => (Raise AttributeError, w)
  end.

(** [fits.open(filename, memmap=memmap, ...)]: a missing file raises
    before any handle exists. *)
Definition fits_open (filename : string) (memmap : bool) : M HDUList := λ w,
  match files w !! filename with
  | None => (Raise (FileNotFoundError filename), w)
  | Some f =>
      let h := fresh (dom (open_files w)) in
      let l := fresh (dom (heap w)) in
      (Ok (mkHDUList h memmap (primary_header f) l (primary_integer f)
             (extensions f)),
       mkWorld (files w) (<[h := filename]> (open_files w))
               (<[l := OArray (primary_data f)]> (heap w)))
  end.

(** [hdulist.close()], called while the primary array is still referred
    to, as it is in the loop body, where the cube just built holds it.  A
    file that was read into memory is closed and its handle released.  A
    memory mapped file keeps its memory map, and the descriptor under it,
    for as long as an array maps it: its handle stays in the table. *)
Definition fits_close (hdulist : HDUList) : M () := λ w,
  if mapped hdulist then (Ok (), w)
  else (Ok (), mkWorld (files w) (delete (handle hdulist) (open_files w)) (heap w)).

(** [header[key]] and [header.get(key, None)]. *)
Definition getitem (h : header) (key : string) : result hval :=
  match h !! key with Some v => Ok v | None => Raise (KeyError key) end.

Definition header_get (h : header) (key : string) : pyval :=
  match h !! key with Some v => PVal v | None => PNone end.

(** [hdulist[1]]. *)
Definition hdu1 (hdulist : HDUList) : result (header * table) :=
  match hdus hdulist with
  | x :: _ => Ok x
  | [] => Raise IndexError
  end.

(** [t[:, k]]: column [k], counted from the end when [k] is negative. *)
Definition column (t : table) (k : hval) : result (list float) :=
  match k with
  | HInt z =>
      let n := Z.of_nat (ncols t) in
      if ((0 <=? z) && (z <? n))%Z%bool then
        Ok (map (λ r, nth (Z.to_nat z) r nan) (rows t))
      else if ((- n <=? z) && (z <? 0))%Z%bool then
        Ok (map (λ r, nth (Z.to_nat (z + n)) r nan) (rows t))
      else Raise IndexError
  | _ => Raise IndexError
  end.

(** ** Array operations *)

(** [a == x], elementwise. *)
Definition array_eq (a : ndarray float) (x : float) : ndarray bool :=
  NDArray (shape a) (map (λ v, SFeqb v x) (flat a)).

(** The array [a] after [a[idx] = x] for a boolean index. *)
Definition setitem (a : ndarray float) (idx : ndarray bool) (x : float)
  : ndarray float :=
  NDArray (shape a) (zip_with (λ v (b : bool), if b then x else v) (flat a) (flat idx)).

(** The exposure time as the corrector passes it on: a bare number or an
    array. *)
Inductive exposure : Type :=
  | ExpScalar (x : float)
  | ExpArray (a : ndarray float).

(** [np.isscalar]. *)
Definition isscalar (value : coord_value) : bool :=
  match value with CScalar _ => true | _ => false end.

(** [u.Quantity(value, unit='s').value].  A quantity is taken when its
    unit is the second; units that differ from the second by a factor are
    not modelled. *)
Definition Quantity_s (value : coord_value) : result exposure :=
  match value with
  | CScalar x => Ok (ExpScalar x)
  | CArray xs => Ok (ExpArray (NDArray [length xs] xs))
  | CQuantity xs u =>
      if decide (u = second) then Ok (ExpArray (NDArray [length xs] xs))
      else Raise UnitConversionError
  | CTimes _ => Raise TypeError
  end.

(** [e[:, np.newaxis]] for [k = 1] and [e[:, np.newaxis, np.newaxis]] for
    [k = 2]. *)
Definition newaxis (k : nat) (e : exposure) : result exposure :=
  match e with
  | ExpArray a =>
      match shape a with
      | n :: rest => Ok (ExpArray (NDArray (n :: repeat 1 k ++ rest) (flat a)))
      | [] => Raise IndexError
      end
  | ExpScalar _ => Raise IndexError
  end.

Definition list_prod (l : list nat) : nat := foldr Nat.mul 1 l.

(** numpy's [op(a, e)] where [e] is a bare number, or an array that varies
    along axis 0 only (shape [n, 1, ..., 1] of the rank of [a]). *)
Definition broadcast (op : float → float → float) (a : ndarray float)
    (e : exposure) : result (ndarray float) :=
  match e with
  | ExpScalar x => Ok (NDArray (shape a) (map (λ v, op v x) (flat a)))
  | ExpArray t =>
      match shape a, shape t with
      | d0 :: rest, n :: ones =>
          if bool_decide (ones = repeat 1 (length rest)) then
            let frame := list_prod rest in
            if (d0 =? n)%nat then
              Ok (NDArray (d0 :: rest)
                    (imap (λ k v, op v (nth (k / frame) (flat t) nan)) (flat a)))
            else if (n =? 1)%nat then
              Ok (NDArray (d0 :: rest) (map (λ v, op v (nth 0 (flat t) nan)) (flat a)))
            else if (d0 =? 1)%nat then
              Ok (NDArray (n :: rest)
                    (flat_map (λ x, map (λ v, op v x) (flat a)) (flat t)))
            else Raise (ValueError "operands could not be broadcast together")
          else Raise (ValueError "operands could not be broadcast together")
      | _, _ => Raise (ValueError "operands could not be broadcast together")
      end
  end.

(** ** Python floats and array elements *)

(** A number rounded to the format [(prec, emax)], to nearest, ties to
    even: what numpy does to a Python float that enters an operation with
    an array of that format. *)
Definition round_to (prec emax : Z) (x : float) : float :=
  match x with
  | S754_finite s m e =>
      binary_normalize prec emax (if s then Z.neg m else Z.pos m) e s
  | _ => x
  end.

Definition is_finite (x : float) : bool :=
  match x with S754_zero _ | S754_finite _ _ _ => true | _ => false end.

(** A finite number whose rounding to [(prec, emax)] is finite: numpy
    then keeps the format of the array for the result. *)
Definition in_range (prec emax : Z) (x : float) : bool :=
  implb (is_finite x) (is_finite (round_to prec emax x)).

(** [(k * r) ** 2] on Python floats, which are binary64 numbers; the
    square is the correctly rounded product. *)
Definition squared_in_photon (k r : float) : float :=
  let r_photon := SFmul 53 1024 k r in
  SFmul 53 1024 r_photon r_photon.

(** ** What the module imports *)

Class Collaborators : Type := {
  (** the floating-point format of the sample arrays: binary32 or
      binary64, as the files at hand are decoded *)
  prec : Z;
  emax : Z;
  (** [sunpy.time.parse_time] *)
  parse_time : hval → result datetime;
  (** [datetime.timedelta(seconds=s)], in microseconds *)
  timedelta : float → result Z;
  (** [astropy.wcs.WCS] *)
  WCS : header → result wcs_t;
  (** [NDCube.__init__], which [IRISMapCube.__init__] calls: the check of
      the arguments.  It sees the shape of the data, the WCS, the
      [missing_axis] given and the extra coordinates given; it raises, or
      yields the [missing_axis] that the cube keeps. *)
  NDCube_missing_axis :
    list nat → wcs_t → option (list bool) → list coord_input → result (list bool);
  (** [iris_tools.DN_UNIT["SJI"]] and [iris_tools.DN_UNIT["SJI_UNSCALED"]] *)
  DN_UNIT_SJI : Unit;
  DN_UNIT_SJI_UNSCALED : Unit;
  (** [iris_tools.READOUT_NOISE["SJI"]], a number of [DN_UNIT["SJI"]]: a
      Python float *)
  READOUT_NOISE_SJI : float;
  (** the factors of the unit conversions [DN_UNIT["SJI"]] to photon and
      back: Python floats *)
  photon_per_DN : float;
  DN_per_photon : float;
  (** the three scalars that meet the samples are in the range of the
      format of the arrays (numpy would otherwise compute in binary64) *)
  scalars_in_range :
    forallb (in_range prec emax)
      [photon_per_DN; squared_in_photon photon_per_DN READOUT_NOISE_SJI;
       DN_per_photon] = true
}.

Section Model.
Context `{E : Collaborators}.

Definition float_of_Z (z : Z) : float := binary_normalize prec emax z 0 false.

(** The bad pixel value of byte scaled images, and of unscaled images. *)
Definition BAD_PIXEL_VALUE_SCALED : float := float_of_Z (-200).
Definition BAD_PIXEL_VALUE_UNSCALED : float := float_of_Z (-32768).

(** ** [IRISMapCube] *)

(** The constructor hands its arguments to [NDCube.__init__], which
    checks them against the shape of the data and may raise.  The cube
    keeps every argument by reference ([copy=False]) and the
    [missing_axis] that the check yields; the list of extra coordinates
    becomes a dictionary by name, a later entry replacing an earlier one
    of the same name, and no list or an empty list gives the empty
    dictionary. *)
Definition IRISMapCube__init__ (data : loc) (wcs : wcs_t)
    (uncertainty : option loc) (unit : option Unit) (meta : option dict)
    (mask : option loc) (extra_coords : option (list coord_input))
    (missing_axis : option (list bool)) (scaled : option bool) : M loc :=
  a ← get_array data;
  missing ← lift (NDCube_missing_axis (shape a) wcs missing_axis
                    (default [] extra_coords));
  alloc (OCube (IRISMapCube.new data wcs uncertainty unit (default ∅ meta) mask
    (foldl (λ d (c : coord_input), <[c.1.1 := (c.1.2, c.2)]> d) ∅
           (default [] extra_coords))
    (Some missing) scaled)).

(** [convert_extra_coords_dict_to_input_format]. *)
Definition convert_extra_coords_dict_to_input_format
    (extra_coords : gmap string (option nat * coord_value)) : list coord_input :=
  map (λ kv : string * (option nat * coord_value), (kv.1, kv.2.1, kv.2.2))
      (map_to_list extra_coords).

(** Does the unit carry an inverse time factor? *)
Definition has_inverse_time (u : Unit) : bool := (time_power u <? 0)%Z.

(** Modelled from the spec: [iris_tools.calculate_exposure_time_correction]
    is not among the sources.  The spec: apply divides samples and
    uncertainty by the broadcast exposure time and multiplies the unit by
    inverse time; it is a no-op on data whose unit already carries an
    inverse time factor, unless forced. *)
Definition calculate_exposure_time_correction (old_data_arrays : loc * loc)
    (old_unit : option Unit) (exposure_time : exposure) (force : bool)
    : M ((loc * loc) * Unit) :=
  match old_unit with
  | None => raise AttributeError
  | Some u =>
      if has_inverse_time u && negb force then mret (old_data_arrays, u)
      else
        d ← get_array old_data_arrays.1;
        d' ← lift (broadcast (SFdiv prec emax) d exposure_time);
        new_data ← alloc (OArray d');
        s ← get_array old_data_arrays.2;
        s' ← lift (broadcast (SFdiv prec emax) s exposure_time);
        new_uncertainty ← alloc (OArray s');
        mret ((new_data, new_uncertainty),
              mkUnit (unit_name u) (time_power u - 1))
  end.

(** Modelled from the spec: [iris_tools.uncalculate_exposure_time_correction]
    is not among the sources.  The spec: undo multiplies by the broadcast
    exposure time and divides the unit by inverse time; it is a no-op on
    data not yet corrected, unless forced. *)
Definition uncalculate_exposure_time_correction (old_data_arrays : loc * loc)
    (old_unit : option Unit) (exposure_time : exposure) (force : bool)
    : M ((loc * loc) * Unit) :=
  match old_unit with
  | None => raise AttributeError
  | Some u =>
      if negb (has_inverse_time u) && negb force then mret (old_data_arrays, u)
      else
        d ← get_array old_data_arrays.1;
        d' ← lift (broadcast (SFmul prec emax) d exposure_time);
        new_data ← alloc (OArray d');
        s ← get_array old_data_arrays.2;
        s' ← lift (broadcast (SFmul prec emax) s exposure_time);
        new_uncertainty ← alloc (OArray s');
        mret ((new_data, new_uncertainty),
              mkUnit (unit_name u) (time_power u + 1))
  end.

(** Lines 186 to 196: the exposure time reshaped for broadcasting against
    data of [n] dimensions. *)
Definition reshape_exposure_time (value : coord_value) (exposure_time_s : exposure)
    (n : nat) : result exposure :=
  if negb (isscalar value) then
    match n with
    | 1 => Ok exposure_time_s
    | 2 => newaxis 1 exposure_time_s
    | 3 => newaxis 2 exposure_time_s
    | _ => Raise (ValueError
             ("IRISMapCube dimensions must be 2 or 3. Dimensions=" +:+ pretty n))
    end
  else Ok exposure_time_s.

(** Lines 185 to 196: the exposure time in seconds, shaped for the data
    of the cube.  A cube without any extra coordinate has [None] for
    [extra_coords], and subscripting it is a type error. *)
Definition exposure_time_of (cube : IRISMapCube.t) : M exposure :=
  coord ← lift (match IRISMapCube.extra_coords cube !! "EXPOSURE TIME" with
                | Some c => Ok c
                | None =>
                    if decide (IRISMapCube.extra_coords cube = ∅)
                    then Raise TypeError
                    else Raise (KeyError "EXPOSURE TIME")
                end);
  exposure_time_s ← lift (Quantity_s coord.2);
  data ← get_array (IRISMapCube.data cube);
  lift (reshape_exposure_time coord.2 exposure_time_s (ndim data)).

Definition apply_exposure_time_correction (self : loc) (undo force : bool)
    : M loc :=
  cube ← get_cube self;
  if negb (default false (IRISMapCube.scaled cube)) then
    raise (ValueError "This method is not available as you are using memmap")
  else
    exposure_time_s ← exposure_time_of cube;
    uncertainty_array ← lift (match IRISMapCube.uncertainty cube with
                              | Some l => Ok l
                              | None => Raise AttributeError
                              end);
    '(new_data_arrays, new_unit) ←
      (if undo then
         uncalculate_exposure_time_correction
           (IRISMapCube.data cube, uncertainty_array) (IRISMapCube.unit cube)
           exposure_time_s force
       else
         calculate_exposure_time_correction
           (IRISMapCube.data cube, uncertainty_array) (IRISMapCube.unit cube)
           exposure_time_s force);
    IRISMapCube__init__ new_data_arrays.1 (IRISMapCube.wcs cube)
      (Some new_data_arrays.2) (Some new_unit) (Some (IRISMapCube.meta cube))
      (IRISMapCube.mask cube)
      (Some (convert_extra_coords_dict_to_input_format (IRISMapCube.extra_coords cube)))
      (IRISMapCube.missing_axis cube) None.

(** ** [IRISMapCubeSequence] *)

Definition meta_getitem (d : dict) (key : string) : result pyval :=
  match d !! key with Some v => Ok v | None => Raise (KeyError key) end.

(** [cube.meta["OBSID"] != data_list[0].meta["OBSID"]]. *)
Definition obsid_differs (data_list : list loc) (cube : loc) : M bool :=
  c ← get_cube cube;
  a ← lift (meta_getitem (IRISMapCube.meta c) "OBSID");
  first ← lift (match data_list with l :: _ => Ok l | [] => Raise IndexError end);
  c0 ← get_cube first;
  b ← lift (meta_getitem (IRISMapCube.meta c0) "OBSID");
  mret (py_ne a b).

Definition IRISMapCubeSequence__init__ (data_list : list loc)
    (meta : option dict) (common_axis : nat) : M IRISMapCubeSequence.t :=
  differs ← mapM_M (obsid_differs data_list) data_list;
  if existsb id differs then
    raise (ValueError
      "Constituent IRISMapCube objects must have same value of 'OBSID' in its meta.")
  else mret (IRISMapCubeSequence.new data_list meta common_axis).

(** ** [read_iris_sji_level2_fits] *)

(** [hdulist[1].data[:, hdulist[1].header[key]]]. *)
Definition aux_column (hdulist : HDUList) (key : string) : result (list float) :=
  ext ← hdu1 hdulist;
  k ← getitem ext.1 key;
  column ext.2 k.

(** [parse_time(header.get(key, None))] when the card is there and true,
    [None] otherwise. *)
Definition optional_time (h : header) (key : string) : result pyval :=
  match h !! key with
  | Some v => if truthy v then t ← parse_time v; Ok (PTime t) else Ok PNone
  | None => Ok PNone
  end.

(** Lines 354 to 365: the metadata of one file, from its primary header
    and the shape of its primary array. *)
Definition extract_meta (h : header) (data_shape : list nat) : result dict :=
  startobs ← optional_time h "STARTOBS";
  endobs ← optional_time h "ENDOBS";
  nbframes ← match data_shape with
             | n :: _ => Ok (PVal (HInt (Z.of_nat n)))
             | [] => Raise IndexError
             end;
  Ok (<["OBS_DESC" := header_get h "OBS_DESC"]>
     (<["OBSID" := header_get h "OBSID"]>
     (<["NBFRAMES" := nbframes]>
     (<["ENDOBS" := endobs]>
     (<["STARTOBS" := startobs]>
     (<["TWAVE1" := header_get h "TWAVE1"]>
     (<["INSTRUME" := header_get h "INSTRUME"]>
     (<["TELESCOP" := header_get h "TELESCOP"]> ∅)))))))).

(** numpy's [x * a] and [a + x] for an array [a] and a Python float [x],
    and [np.sqrt(a)]: a new array of the shape of [a], computed in the
    format of [a], the scalar rounded to that format first (the rules for
    an array and a scalar, before NEP 50). *)
Definition scalar_times (x : float) (a : ndarray float) : ndarray float :=
  NDArray (shape a) (map (SFmul prec emax (round_to prec emax x)) (flat a)).

Definition plus_scalar (a : ndarray float) (x : float) : ndarray float :=
  NDArray (shape a) (map (λ v, SFadd prec emax v (round_to prec emax x)) (flat a)).

Definition sqrt_array (a : ndarray float) : ndarray float :=
  NDArray (shape a) (map (SFsqrt prec emax) (flat a)).

(** Lines 334 to 336: the uncertainty of the samples.  A conversion of
    units is the multiplication by its factor; the readout noise is
    converted and squared as a Python float. *)
Definition uncertainty_array (data_nan_masked : ndarray float) : ndarray float :=
  let in_photon := scalar_times photon_per_DN data_nan_masked in
  let readout_noise_squared :=
    squared_in_photon photon_per_DN READOUT_NOISE_SJI in
  let in_photon_root := sqrt_array (plus_scalar in_photon readout_noise_squared) in
  scalar_times DN_per_photon in_photon_root.

(** The samples of a scaled file once the bad pixels are replaced. *)
Definition cleaned (a : ndarray float) : ndarray float :=
  setitem a (array_eq a BAD_PIXEL_VALUE_SCALED) nan.

(** Lines 320 to 336: the bad pixels of the array are replaced in place,
    and the mask, the [scaled] flag, the unit and the uncertainty are
    derived.  [data] and [data_nan_masked] are the two names of the
    source; the caller passes one array under both.  NaN cannot be stored
    in an array of an integer dtype: numpy converts the value before it
    looks at the index, and raises. *)
Definition mask_and_uncertainty (data data_nan_masked : loc) (integer : bool)
    (memmap : bool) : M (option loc * bool * Unit * option loc) :=
  if memmap then
    d ← get_array data;
    target ← get_array data_nan_masked;
    set_array data_nan_masked
      (setitem target (array_eq d BAD_PIXEL_VALUE_UNSCALED) (float_of_Z 0));;
    mret (None, false, DN_UNIT_SJI_UNSCALED, None)
  else
    d ← get_array data;
    target ← get_array data_nan_masked;
    (if integer then raise (ValueError "cannot convert float NaN to integer")
     else mret ());;
    set_array data_nan_masked
      (setitem target (array_eq d BAD_PIXEL_VALUE_SCALED) nan);;
    current ← get_array data_nan_masked;
    mask ← alloc (OMask (array_eq current BAD_PIXEL_VALUE_SCALED));
    current ← get_array data_nan_masked;
    uncertainty ← alloc (OArray (uncertainty_array current));
    mret (Some mask, true, DN_UNIT_SJI, Some uncertainty).

(** [t + dt] for a [datetime] and a [timedelta]: a date of the calendar,
    or an overflow. *)
Definition datetime_add (t : datetime) (dt : Z) : result datetime :=
  if (0 <=? t + dt)%Z && (t + dt <? datetime_end)%Z then Ok (t + dt)%Z
  else Raise OverflowError.

(** Lines 338 to 352: the extra coordinates, one value per frame. *)
Definition read_extra_coords (hdulist : HDUList) : result (list coord_input) :=
  exposure_times ← aux_column hdulist "EXPTIMES";
  seconds ← aux_column hdulist "TIME";
  times ← mapR (λ s,
             startobs ← getitem (hdu0_header hdulist) "STARTOBS";
             t ← parse_time startobs;
             dt ← timedelta s;
             datetime_add t dt) seconds;
  pztx ← aux_column hdulist "PZTX";
  pzty ← aux_column hdulist "PZTY";
  xcenix ← aux_column hdulist "XCENIX";
  ycenix ← aux_column hdulist "YCENIX";
  obs_vrix ← aux_column hdulist "OBS_VRIX";
  ophaseix ← aux_column hdulist "OPHASEIX";
  Ok [("TIME", Some 0, CTimes times);
      ("PZTX", Some 0, CQuantity pztx arcsec);
      ("PZTY", Some 0, CQuantity pzty arcsec);
      ("XCENIX", Some 0, CQuantity xcenix arcsec);
      ("YCENIX", Some 0, CQuantity ycenix arcsec);
      ("OBS_VRIX", Some 0, CQuantity obs_vrix m_per_s);
      ("OPHASEIX", Some 0, CArray ophaseix);
      ("EXPOSURE TIME", Some 0, CArray exposure_times)].

(** The body of the loop over the file names: the cube of one file and its
    metadata.  The file is closed by the last statement of the body, and
    by nothing else: an exception raised before it leaves the body with
    the handle open.  ([hdulist.verify('fix')] changes nothing in a file
    that astropy can read and is left out.) *)
Definition read_file (filename : string) (memmap : bool) : M (loc * dict) :=
  hdulist ← fits_open filename memmap;
  wcs ← lift (WCS (hdu0_header hdulist));
  let data := hdu0_data hdulist in
  let data_nan_masked := hdu0_data hdulist in
  '(mask, scaled, unit, uncertainty) ←
    mask_and_uncertainty data data_nan_masked (hdu0_integer hdulist) memmap;
  extra_coords ← lift (read_extra_coords hdulist);
  current ← get_array (hdu0_data hdulist);
  meta ← lift (extract_meta (hdu0_header hdulist) (shape current));
  cube ← IRISMapCube__init__ data_nan_masked wcs uncertainty (Some unit)
           (Some meta) mask (Some extra_coords) None (Some scaled);
  fits_close hdulist;;
  mret (cube, meta).

(** The loop: [list_of_cubes] grows by one cube per file, and [meta] is
    the variable assigned in the body, unbound before the first file. *)
Fixpoint read_files (filenames : list string) (memmap : bool)
    (list_of_cubes : list loc) (meta : option dict)
    : M (list loc * option dict) :=
  match filenames with
  | [] => mret (list_of_cubes, meta)
  | filename :: rest =>
      '(cube, meta') ← read_file filename memmap;
      read_files rest memmap (list_of_cubes ++ [cube]) (Some meta')
  end.

(** The argument: one name or a list of names. *)
Inductive filenames_arg : Type :=
  | OneName (s : string)
  | Names (l : list string).

(** The value returned: a cube or a sequence. *)
Inductive ingested : Type :=
  | Cube (c : loc)
  | Sequence (s : IRISMapCubeSequence.t).

Definition read_iris_sji_level2_fits (filenames : filenames_arg) (memmap : bool)
    : M ingested :=
  let filenames := match filenames with OneName s => [s] | Names l => l end in
  '(list_of_cubes, meta) ← read_files filenames memmap [] None;
  if (length filenames =? 1)%nat then
    match list_of_cubes with
    | c :: _ => mret (Cube c)
    | [] => raise IndexError
    end
  else
    match meta with
    | None => raise (UnboundLocalError "meta")
    | Some m =>
        s ← IRISMapCubeSequence__init__ list_of_cubes (Some m) 0;
        mret (Sequence s)
    end.

(** ** Vocabulary of the specifications *)

(** The names a call iterates over. *)
Definition names_of (filenames : filenames_arg) : list string :=
  match filenames with OneName s => [s] | Names l => l end.

(** The conversions of the spec, on a sample of an array: to the photon
    count basis and back to the declared unit. *)
Definition to_photon (v : float) : float :=
  SFmul prec emax (round_to prec emax photon_per_DN) v.

Definition from_photon (p : float) : float :=
  SFmul prec emax (round_to prec emax DN_per_photon) p.

(** The uncertainty of the spec for a sample [v] of an array and a readout
    noise constant [r], both in data numbers: the square root of [v] in
    photons plus the square of [r] in photons, brought back to data
    numbers.  The constant is converted and squared in double precision,
    and the sum, the root and the conversions are those of the format of
    the array. *)
Definition photon_noise (r v : float) : float :=
  let v_photon := to_photon v in
  let r_photon := SFmul 53 1024 photon_per_DN r in
  let r_photon_squared := round_to prec emax (SFmul 53 1024 r_photon r_photon) in
  from_photon (SFsqrt prec emax (SFadd prec emax v_photon r_photon_squared)).

Definition is_ok {A} (r : result A) : bool :=
  match r with Ok _ => true | Raise _ => false end.

(** What the loop body derives from the headers, the primary array and
    the auxiliary table of a file, in the order of the source: the WCS,
    the store of NaN (scaled mode only), the extra coordinates, the
    metadata, the check of the constructor.  The first step that raises
    decides the exception. *)
Definition file_outcome (memmap : bool) (file : fits_file)
    : result (wcs_t * list coord_input * dict * list bool) :=
  wcs ← WCS (primary_header file);
  (if negb memmap && primary_integer file
   then Raise (ValueError "cannot convert float NaN to integer")
   else Ok ());;
  coords ← read_extra_coords
             (mkHDUList 0 memmap (primary_header file) 0 (primary_integer file)
                (extensions file));
  meta ← extract_meta (primary_header file) (shape (primary_data file));
  missing ← NDCube_missing_axis (shape (primary_data file)) wcs None coords;
  Ok (wcs, coords, meta, missing).

(** A file the loop body gets through in the mode given. *)
Definition readable (memmap : bool) (file : fits_file) : bool :=
  is_ok (file_outcome memmap file).

(** The table of open handles once the files named were read in full,
    from the table [t]: in scaled mode it is [t]; in memory mapped mode
    every file has left the descriptor of its memory map. *)
Definition kept_open (memmap : bool) (names : list string)
    (t : gmap nat string) : gmap nat string :=
  if memmap then foldl (λ t name, <[fresh (dom t) := name]> t) t names else t.

(** The observation id in the header of a file. *)
Definition file_obsid (file : fits_file) : pyval :=
  header_get (primary_header file) "OBSID".

(** The cubes of a returned value. *)
Definition cubes_of (v : ingested) : list loc :=
  match v with Cube c => [c] | Sequence s => IRISMapCubeSequence.data s end.

(** [cube_of_file memmap w file c]: in the world [w], location [c] holds
    the cube that the reader builds from [file]: its metadata are those
    of the file; in scaled mode its samples are the cleaned samples of the
    file, and its mask and uncertainty are the arrays computed from
    them. *)
Definition cube_of_file (memmap : bool) (w : world) (file : fits_file) (c : loc)
    : Prop :=
  ∃ cube,
    heap w !! c = Some (OCube cube)
    ∧ extract_meta (primary_header file) (shape (primary_data file))
      = Ok (IRISMapCube.meta cube)
    ∧ IRISMapCube.scaled cube = Some (negb memmap)
    ∧ (memmap = false →
       heap w !! IRISMapCube.data cube = Some (OArray (cleaned (primary_data file)))
       ∧ ∃ lm lu,
           IRISMapCube.mask cube = Some lm
           ∧ heap w !! lm
             = Some (OMask (array_eq (cleaned (primary_data file))
                              BAD_PIXEL_VALUE_SCALED))
           ∧ IRISMapCube.uncertainty cube = Some lu
           ∧ heap w !! lu
             = Some (OArray (NDArray (shape (primary_data file))
                       (map (photon_noise READOUT_NOISE_SJI)
                            (flat (cleaned (primary_data file))))))).

(** ** Vocabulary of the further properties *)

(** The samples of a memory mapped file once the bad pixels are replaced. *)
Definition zeroed (a : ndarray float) : ndarray float :=
  setitem a (array_eq a BAD_PIXEL_VALUE_UNSCALED) (float_of_Z 0).

(** The dictionary the constructor makes of a list of extra coordinates. *)
Definition coords_dict (l : list coord_input)
    : gmap string (option nat * coord_value) :=
  foldl (λ d (c : coord_input), <[c.1.1 := (c.1.2, c.2)]> d) ∅ l.

(** How many values a coordinate holds. *)
Definition coord_size (value : coord_value) : nat :=
  match value with
  | CScalar _ => 1
  | CArray xs => length xs
  | CQuantity xs _ => length xs
  | CTimes ts => length ts
  end.

(** [cube_as_read memmap w file c]: in the world [w], location [c] holds
    the cube of [file], field by field, and the arrays it refers to hold
    what the chosen mode computes. *)
Definition cube_as_read (memmap : bool) (w : world) (file : fits_file) (c : loc)
    : Prop :=
  ∃ wcs coords meta missing ld,
    file_outcome memmap file = Ok (wcs, coords, meta, missing)
    ∧ if memmap then
        heap w !! ld = Some (OArray (zeroed (primary_data file)))
        ∧ heap w !! c
          = Some (OCube (IRISMapCube.new ld wcs None (Some DN_UNIT_SJI_UNSCALED)
                           meta None (coords_dict coords) (Some missing)
                           (Some false)))
      else
        ∃ lm lu,
          heap w !! ld = Some (OArray (cleaned (primary_data file)))
          ∧ heap w !! lm
            = Some (OMask (array_eq (cleaned (primary_data file))
                             BAD_PIXEL_VALUE_SCALED))
          ∧ heap w !! lu
            = Some (OArray (NDArray (shape (primary_data file))
                      (map (photon_noise READOUT_NOISE_SJI)
                            (flat (cleaned (primary_data file))))))
          ∧ heap w !! c
            = Some (OCube (IRISMapCube.new ld wcs (Some lu) (Some DN_UNIT_SJI)
                             meta (Some lm) (coords_dict coords) (Some missing)
                             (Some true)))
          ∧ lu ≠ ld.

(** The eight names of the extra coordinates of a cube read from a
    file. *)
Definition coordinate_names : list string :=
  ["TIME"; "PZTX"; "PZTY"; "XCENIX"; "YCENIX"; "OBS_VRIX"; "OPHASEIX";
   "EXPOSURE TIME"].

(** The eight keys of the metadata of a cube read from a file. *)
Definition meta_keys : list string :=
  ["TELESCOP"; "INSTRUME"; "TWAVE1"; "STARTOBS"; "ENDOBS"; "NBFRAMES";
   "OBSID"; "OBS_DESC"].

End Model.

(** The observation id of a cube, [None] when the metadata has none. *)
Definition OBSID_of (c : IRISMapCube.t) : pyval :=
  default PNone (IRISMapCube.meta c !! "OBSID").

(** ** Specifications of monadic code *)

(** [wp m w Q]: run from the world [w], the code [m] ends with a result
    and in a world that satisfy [Q]. *)
Definition wp {A} (m : M A) (w : world) (Q : result A → world → Prop) : Prop :=
  Q (m w).1 (m w).2.

(** [grows w w']: the files are the same, and every object of [w] is
    still there, unchanged; [w'] may hold new objects. *)
Definition grows (w w' : world) : Prop :=
  files w' = files w ∧ heap w ⊆ heap w'.

(** [framed m]: whatever [m] does, it keeps the files and the open
    handles, and it leaves every object that was there untouched. *)
Definition framed {A} (m : M A) : Prop :=
  ∀ w, grows w (m w).2 ∧ open_files (m w).2 = open_files w.

(** [readonly m]: [m] leaves the world exactly as it found it. *)
Definition readonly {A} (m : M A) : Prop := ∀ w, (m w).2 = w.

(** ** A concrete setting, for the examples *)

Module Demo.

Definition num (z : Z) : float := binary_normalize 53 1024 z 0 false.

(** [m * 2 ^ e] for [e < 0], split as Python's [modf] splits a float:
    the integer part, towards zero, and what is left, in units of
    [2 ^ e]. *)
Definition modf (m e : Z) : Z * Z := (Z.quot m (2 ^ (- e)), Z.rem m (2 ^ (- e)))%Z.

(** The microseconds in [x] seconds, as [datetime.timedelta] counts
    them.  The whole seconds are taken exactly; the fraction is
    multiplied by a million in double precision, and what is left of the
    product under a microsecond is rounded to the nearest microsecond, a
    tie to the even total.  NaN and the infinities are refused. *)
Definition rounded_microseconds (x : float) : result Z :=
  match x with
  | S754_zero _ => Ok 0%Z
  | S754_finite s m e =>
      let sm := if s then Z.neg m else Z.pos m in
      if (0 <=? e)%Z then Ok (sm * 2 ^ e * 1000000)%Z
      else
        let '(whole, fraction) := modf sm e in
        match SFmul 53 1024 (num 1000000)
                (binary_normalize 53 1024 fraction e s) with
        | S754_zero _ => Ok (whole * 1000000)%Z
        | S754_finite s' m' e' =>
            let sm' := if s' then Z.neg m' else Z.pos m' in
            if (0 <=? e')%Z then Ok (whole * 1000000 + sm' * 2 ^ e')%Z
            else
              let '(us, leftover) := modf sm' e' in
              let total := (whole * 1000000 + us)%Z in
              let twice := (2 * Z.abs leftover)%Z in
              if (twice <? 2 ^ (- e'))%Z then Ok total
              else if (2 ^ (- e') <? twice)%Z then Ok (total + Z.sgn leftover)%Z
              else Ok (if Z.even total then total else total + Z.sgn leftover)%Z
        | S754_infinity _ => Raise OverflowError
        | S754_nan => Raise (ValueError "cannot convert float NaN to integer")
        end
  | S754_infinity _ => Raise OverflowError
  | S754_nan => Raise (ValueError "cannot convert float NaN to integer")
  end.

(** [datetime.timedelta(seconds=x)] in microseconds: a [timedelta] holds
    less than a thousand million days, either way. *)
Definition microseconds (x : float) : result Z :=
  us ← rounded_microseconds x;
  if (-999999999 * 86400 * 1000000 <=? us)%Z
     && (us <? 1000000000 * 86400 * 1000000)%Z
  then Ok us else Raise OverflowError.

(** [wcs.naxis]: the card [WCSAXES], and two axes for a header without
    it. *)
Definition naxis (wcs : wcs_t) : nat :=
  match wcs_header wcs !! "WCSAXES" with
  | Some (HInt n) => Z.to_nat n
  | _ => 2
  end.

(** [len(value)] of the value of a coordinate. *)
Definition coord_len (value : coord_value) : result nat :=
  match value with
  | CScalar _ => Raise TypeError
  | CArray xs => Ok (length xs)
  | CQuantity xs _ => Ok (length xs)
  | CTimes ts => Ok (length ts)
  end.

(** The check of one extra coordinate in the constructor of [NDCube]: a
    coordinate of a data axis that is not missing has as many values as
    the axis is long, and the axis is one of the data axes. *)
Definition check_coord (missing : list bool) (data_shape : list nat)
    (c : coord_input) : result () :=
  match c.1.2 with
  | None => Ok ()
  | Some axis =>
      is_missing ← match reverse missing !! axis with
                   | Some b => Ok b
                   | None => Raise IndexError
                   end;
      (if is_missing : bool then Ok ()
       else
         n ← coord_len c.2;
         d ← match data_shape !! axis with
             | Some d => Ok d
             | None => Raise IndexError
             end;
         if (n =? d)%nat then Ok ()
         else Raise (ValueError
                ("extra coord (" +:+ c.1.1
                 +:+ ") must have same length as data axis to which it is assigned: coord length, "
                 +:+ pretty n +:+ " != data axis length, " +:+ pretty d)));;
      if (axis <? length (filter (λ b, b = false) missing))%nat then Ok ()
      else Raise IndexError
  end.

(** The check of the arguments in the constructor of [NDCube]: the axes
    that are not missing are as many as the dimensions of the data, and
    every extra coordinate passes its check, in the order given. *)
Definition ndcube_missing_axis (data_shape : list nat) (wcs : wcs_t)
    (missing_axis : option (list bool)) (extra_coords : list coord_input)
    : result (list bool) :=
  let missing := default (repeat false (naxis wcs)) missing_axis in
  if negb (length data_shape =? naxis wcs)%nat
     && negb (length (filter (λ b, b = false) missing) =? length data_shape)%nat
  then Raise (ValueError
         "The number of data dimensions and number of wcs non-missing axes do not match.")
  else
    mapR (check_coord missing data_shape) extra_coords;;
    Ok missing.

(** Arrays of binary64 numbers, a clock that reads every time string as
    the epoch, the constructor of [NDCube] as above, and twelve photons
    per data number. *)
Definition binary64 : Collaborators := {|
  prec := 53;
  emax := 1024;
  parse_time := λ v, match v with HStr _ => Ok 0%Z | _ => Raise TypeError end;
  timedelta := microseconds;
  WCS := λ h, Ok (mkWCS h);
  NDCube_missing_axis := ndcube_missing_axis;
  DN_UNIT_SJI := mkUnit "DN_IRIS_SJI" 0;
  DN_UNIT_SJI_UNSCALED := mkUnit "DN_IRIS_SJI_UNSCALED" 0;
  READOUT_NOISE_SJI :=
    SFdiv 53 1024 (binary_normalize 53 1024 12 0 false)
                  (binary_normalize 53 1024 10 0 false);
  photon_per_DN := binary_normalize 53 1024 12 0 false;
  DN_per_photon :=
    SFdiv 53 1024 (binary_normalize 53 1024 1 0 false)
                  (binary_normalize 53 1024 12 0 false);
  scalars_in_range := eq_refl
|}.

(** The same with arrays of binary32 numbers, as the scaled images of
    the instrument are decoded. *)
Definition binary32 : Collaborators := {|
  prec := 24;
  emax := 128;
  parse_time := λ v, match v with HStr _ => Ok 0%Z | _ => Raise TypeError end;
  timedelta := microseconds;
  WCS := λ h, Ok (mkWCS h);
  NDCube_missing_axis := ndcube_missing_axis;
  DN_UNIT_SJI := mkUnit "DN_IRIS_SJI" 0;
  DN_UNIT_SJI_UNSCALED := mkUnit "DN_IRIS_SJI_UNSCALED" 0;
  READOUT_NOISE_SJI :=
    SFdiv 53 1024 (binary_normalize 53 1024 12 0 false)
                  (binary_normalize 53 1024 10 0 false);
  photon_per_DN := binary_normalize 53 1024 12 0 false;
  DN_per_photon :=
    SFdiv 53 1024 (binary_normalize 53 1024 1 0 false)
                  (binary_normalize 53 1024 12 0 false);
  scalars_in_range := eq_refl
|}.

Definition num32 (z : Z) : float := binary_normalize 24 128 z 0 false.

Definition primary (obsid : string) : header :=
  <["STARTOBS" := HStr "2014-01-01T00:00:00"]>
  (<["ENDOBS" := HStr "2014-01-01T01:00:00"]>
  (<["TELESCOP" := HStr "IRIS"]>
  (<["INSTRUME" := HStr "SJI"]>
  (<["TWAVE1" := HReal (num 1400)]>
  (<["OBSID" := HStr obsid]>
  (<["OBS_DESC" := HStr "Demo raster"]>
  (<["WCSAXES" := HInt 3]> ∅))))))).

Definition aux_header : header :=
  <["EXPTIMES" := HInt 0]>
  (<["TIME" := HInt 1]>
  (<["PZTX" := HInt 2]>
  (<["PZTY" := HInt 3]>
  (<["XCENIX" := HInt 4]>
  (<["YCENIX" := HInt 5]>
  (<["OBS_VRIX" := HInt 6]>
  (<["OPHASEIX" := HInt 7]> ∅))))))).

(** Two frames: exposure times 2 s and 4 s. *)
Definition aux_table : table :=
  mkTable 8
    [ [num 2; num 0; num 0; num 0; num 0; num 0; num 0; num 0];
      [num 4; num 8; num 0; num 0; num 0; num 0; num 0; num 0] ].

(** Two frames of one row and two pixels; the first pixel holds the bad
    pixel value of scaled images. *)
Definition image : ndarray float :=
  NDArray [2; 1; 2] [num (-200); num 6; num 8; num 12].

Definition file_a : fits_file :=
  mkFits (primary "3820259253") image false [(aux_header, aux_table)].
Definition file_b : fits_file :=
  mkFits (primary "3820259253") image false [(aux_header, aux_table)].
Definition file_other_obs : fits_file :=
  mkFits (primary "4000000000") image false [(aux_header, aux_table)].

(** A file whose auxiliary extension is missing. *)
Definition file_truncated : fits_file :=
  mkFits (primary "3820259253") image false [].

Definition disk : world :=
  mkWorld (<["a.fits" := file_a]>
          (<["b.fits" := file_b]>
          (<["other.fits" := file_other_obs]>
          (<["truncated.fits" := file_truncated]> ∅))))
          ∅ ∅.

(** The world after reading [a.fits] memory mapped, and the cube read. *)
Definition raw_world : world :=
  (read_iris_sji_level2_fits (E := binary64) (OneName "a.fits") true disk).2.

(** The world after reading [a.fits] scaled. *)
Definition scaled_world : world :=
  (read_iris_sji_level2_fits (E := binary64) (OneName "a.fits") false disk).2.

(** A scaled cube of four dimensions whose exposure time is one number
    for the whole cube. *)
Definition cube4 : IRISMapCube.t :=
  IRISMapCube.new 0 (mkWCS (<["WCSAXES" := HInt 4]> ∅)) (Some 1)
    (Some (mkUnit "DN_IRIS_SJI" 0)) ∅ None
    (<["EXPOSURE TIME" := (None, CScalar (num 2))]> ∅) None (Some true).

Definition world4 : world :=
  mkWorld ∅ ∅
    (<[0%nat := OArray (NDArray [1; 1; 1; 2] [num 6; num 8])]>
    (<[1%nat := OArray (NDArray [1; 1; 1; 2] [num 1; num 1])]>
    (<[2%nat := OCube cube4]> ∅))).

(** The cube at a location (an empty cube where there is none). *)
Definition cube_at (w : world) (l : loc) : IRISMapCube.t :=
  match heap w !! l with
  | Some (OCube c) => c
  | _ => IRISMapCube.new 0 (mkWCS ∅) None None ∅ None ∅ None None
  end.

Definition raw_cube : IRISMapCube.t := cube_at raw_world 1.

Definition scaled_cube : IRISMapCube.t := cube_at scaled_world 3.

(** The world after reading [a.fits] and [b.fits] scaled. *)
Definition pair_world : world :=
  (read_iris_sji_level2_fits (E := binary64) (Names ["a.fits"; "b.fits"]) false disk).2.

(** What the calls returned. *)
Definition value_of (r : result ingested) : ingested :=
  match r with Ok v => v | Raise _ => Cube 0 end.

Definition scaled_value : ingested :=
  value_of (read_iris_sji_level2_fits (E := binary64) (OneName "a.fits") false disk).1.

Definition pair_value : ingested :=
  value_of (read_iris_sji_level2_fits (E := binary64)
              (Names ["a.fits"; "b.fits"]) false disk).1.

(** The world after the correction of the cube read from [a.fits]. *)
Definition corrected_world : world :=
  (apply_exposure_time_correction (E := binary64) 3 false false scaled_world).2.

(** A primary header without [STARTOBS], and with an empty [ENDOBS]. *)
Definition primary_undated : header :=
  <["ENDOBS" := HStr EmptyString]> (delete "STARTOBS" (primary "3820259253")).

Definition file_undated : fits_file :=
  mkFits primary_undated image false [(aux_header, aux_table)].

(** The disk with one more file, [undated.fits]. *)
Definition disk_undated : world :=
  mkWorld (<["undated.fits" := file_undated]> (files disk)) ∅ ∅.

(** The value and the world of the memory mapped read of [a.fits]. *)
Definition raw_value : ingested :=
  value_of (read_iris_sji_level2_fits (E := binary64) (OneName "a.fits") true disk).1.

(** Two scaled cubes without uncertainty on the samples of [image]: one
    without any extra coordinate, one with an exposure time of 2 s. *)
Definition cube_no_coords : IRISMapCube.t :=
  IRISMapCube.new 0 (mkWCS ∅) None (Some (mkUnit "DN_IRIS_SJI" 0)) ∅ None ∅ None
    (Some true).

Definition cube_no_noise : IRISMapCube.t :=
  IRISMapCube.new 0 (mkWCS ∅) None (Some (mkUnit "DN_IRIS_SJI" 0)) ∅ None
    (<["EXPOSURE TIME" := (None, CScalar (num 2))]> ∅) None (Some true).

Definition world_no_noise : world :=
  mkWorld ∅ ∅
    (<[0%nat := OArray image]>
    (<[1%nat := OCube cube_no_coords]>
    (<[2%nat := OCube cube_no_noise]> ∅))).

(** A scaled cube that has a coordinate, but not the exposure time. *)
Definition cube_no_exposure : IRISMapCube.t :=
  IRISMapCube.new 0 (mkWCS ∅) None (Some (mkUnit "DN_IRIS_SJI" 0)) ∅ None
    (<["OPHASEIX" := (Some 0%nat, CArray [num 0; num 0])]> ∅) None (Some true).

Definition world_no_exposure : world :=
  mkWorld ∅ ∅
    (<[0%nat := OArray image]>
    (<[1%nat := OCube cube_no_exposure]> ∅)).

(** A file of two frames whose auxiliary table has three rows, and a file
    whose primary array holds integers. *)
Definition aux_table3 : table :=
  mkTable 8 (rows aux_table ++ [[num 6; num 9; num 0; num 0; num 0; num 0; num 0; num 0]]).

Definition file_rows3 : fits_file :=
  mkFits (primary "3820259253") image false [(aux_header, aux_table3)].

Definition file_counts : fits_file :=
  mkFits (primary "3820259253") image true [(aux_header, aux_table)].

(** The disk with these two files more. *)
Definition disk_odd : world :=
  mkWorld (<["rows3.fits" := file_rows3]>
          (<["counts.fits" := file_counts]> (files disk))) ∅ ∅.

(** A disk whose image is decoded as binary32 numbers, and the scaled read
    of it. *)
Definition image32 : ndarray float :=
  NDArray [2; 1; 2] [num32 (-200); num32 6; num32 8; num32 12].

Definition file_single : fits_file :=
  mkFits (primary "3820259253") image32 false [(aux_header, aux_table)].

Definition disk_single : world :=
  mkWorld (<["a.fits" := file_single]> ∅) ∅ ∅.

Definition single_value : ingested :=
  value_of (read_iris_sji_level2_fits (E := binary32) (OneName "a.fits") false
              disk_single).1.

Definition single_world : world :=
  (read_iris_sji_level2_fits (E := binary32) (OneName "a.fits") false
     disk_single).2.

End Demo.

(** * Properties *)

Section Properties.
Context `{E : Collaborators}.

(** ** Rules of [wp] *)

Lemma wp_ret {A} (a : A) w Q : Q (Ok a) w → wp (mret a) w Q.
Proof. done. Qed.

Lemma wp_raise {A} e w (Q : result A → world → Prop) :
  Q (Raise e) w → wp (raise e) w Q.
Proof. done. Qed.

Lemma wp_lift {A} (r : result A) w Q : Q r w → wp (lift r) w Q.
Proof. done. Qed.

Lemma wp_bind {A B} (m : M A) (f : A → M B) w Q :
  wp m w (λ r w1, match r with
                  | Ok a => wp (f a) w1 Q
                  | Raise e => Q (Raise e) w1
                  end) →
  wp (m ≫= f) w Q.
Proof.
  unfold wp, mbind, M_bind. destruct (m w) as [[a|e] w1]; simpl; done.
Qed.

Lemma wp_run {A} (m : M A) w Q r w' : wp m w Q → m w = (r, w') → Q r w'.
Proof. unfold wp. intros H Heq. rewrite Heq in H. exact H. Qed.

Lemma wp_get_cube l w c Q :
  heap w !! l = Some (OCube c) → Q (Ok c) w → wp (get_cube l) w Q.
Proof. unfold wp, get_cube. intros ->. done. Qed.

Lemma wp_get_array l w a Q :
  heap w !! l = Some (OArray a) → Q (Ok a) w → wp (get_array l) w Q.
Proof. unfold wp, get_array. intros ->. done. Qed.

(** A fresh location is free, in the heap and in every part of it. *)
Lemma fresh_free (h h' : gmap loc obj) :
  h ⊆ h' → h !! fresh (dom h') = None.
Proof.
  intros Hsub. eapply lookup_weaken_None; [|exact Hsub].
  apply not_elem_of_dom, is_fresh.
Qed.

Lemma grows_refl w : grows w w.
Proof. split; done. Qed.

(** ** The exposure time correction refuses cubes that are not scaled *)

(** C3: on a cube whose [scaled] flag is false, the correction raises the
    usage error whatever [undo] and [force] are, and the world (the cube
    with it) is as before. *)
Theorem C3_unscaled_cube_is_refused (w : world) (self : loc)
    (cube : IRISMapCube.t) (undo force : bool) :
  heap w !! self = Some (OCube cube) →
  IRISMapCube.scaled cube = Some false →
  apply_exposure_time_correction self undo force w
  = (Raise (ValueError "This method is not available as you are using memmap"), w).
Proof.
  intros Hself Hscaled. unfold apply_exposure_time_correction.
  unfold mbind, M_bind, get_cube. rewrite Hself, Hscaled. reflexivity.
Qed.

(** ** The sequence holds cubes of one observation *)

Lemma existsb_id_map {A} (f : A → bool) (l : list A) :
  existsb id (map f l) = true ↔ Exists (λ x, f x = true) l.
Proof.
  induction l as [|x l IH]; simpl.
  - split; [discriminate | intros H; inversion H].
  - rewrite orb_true_iff, IH, Exists_cons. reflexivity.
Qed.

Lemma existsb_id_map_false {A} (f : A → bool) (l : list A) :
  existsb id (map f l) = false ↔ Forall (λ x, f x = false) l.
Proof.
  induction l as [|x l IH]; simpl.
  - split; [constructor | reflexivity].
  - rewrite orb_false_iff, IH, Forall_cons. reflexivity.
Qed.

(** The comparison of one member with the first member reads the world
    and leaves it as it is. *)
Lemma obsid_differs_run w data_list l0 first l c :
  data_list !! 0 = Some l0 →
  heap w !! l0 = Some (OCube first) →
  is_Some (IRISMapCube.meta first !! "OBSID") →
  heap w !! l = Some (OCube c) →
  is_Some (IRISMapCube.meta c !! "OBSID") →
  obsid_differs data_list l w = (Ok (py_ne (OBSID_of c) (OBSID_of first)), w).
Proof.
  intros Hhead Hfirst [b Hb] Hl [a Ha].
  destruct data_list as [|l0' rest]; [discriminate|].
  simpl in Hhead. injection Hhead as ->.
  unfold obsid_differs, mbind, M_bind, get_cube, lift, meta_getitem, OBSID_of.
  rewrite Hl, Ha, Hfirst, Hb. reflexivity.
Qed.

Lemma obsid_checks_run w data_list l0 first ls cs :
  data_list !! 0 = Some l0 →
  heap w !! l0 = Some (OCube first) →
  is_Some (IRISMapCube.meta first !! "OBSID") →
  Forall2 (λ l c, heap w !! l = Some (OCube c)) ls cs →
  Forall (λ c, is_Some (IRISMapCube.meta c !! "OBSID")) cs →
  mapM_M (obsid_differs data_list) ls w
  = (Ok (map (λ c, py_ne (OBSID_of c) (OBSID_of first)) cs), w).
Proof.
  intros Hhead Hfirst Hid Hall. induction Hall as [|l c ls cs Hl Hall IH];
    intros Hids; [reflexivity|].
  apply Forall_cons in Hids as [Hc Hids].
  simpl. unfold mbind at 1, M_bind at 1.
  rewrite (obsid_differs_run w data_list l0 first l c) by assumption.
  unfold mbind at 1, M_bind at 1. rewrite (IH Hids). reflexivity.
Qed.

(** C7: for a non-empty list of cubes that all carry an observation id,
    the constructor raises the inconsistency error exactly when the id of
    some member differs from the id of the first member; when none
    differs it returns a sequence that holds the given cubes in the given
    order. *)
Theorem C7_sequence_needs_one_obsid (w : world) (data_list : list loc)
    (cubes : list IRISMapCube.t) (first : IRISMapCube.t)
    (meta : option dict) (common_axis : nat) :
  Forall2 (λ l c, heap w !! l = Some (OCube c)) data_list cubes →
  cubes !! 0 = Some first →
  Forall (λ c, is_Some (IRISMapCube.meta c !! "OBSID")) cubes →
  (Exists (λ c, py_ne (OBSID_of c) (OBSID_of first) = true) cubes ↔
   IRISMapCubeSequence__init__ data_list meta common_axis w
   = (Raise (ValueError
       "Constituent IRISMapCube objects must have same value of 'OBSID' in its meta."),
      w))
  ∧ (Forall (λ c, py_ne (OBSID_of c) (OBSID_of first) = false) cubes ↔
     IRISMapCubeSequence__init__ data_list meta common_axis w
     = (Ok (IRISMapCubeSequence.new data_list meta common_axis), w)).
Proof.
  intros Hall Hfirst Hids.
  destruct Hall as [|l0 c0 ls cs Hl0 Hall]; [discriminate|].
  simpl in Hfirst. injection Hfirst as ->.
  assert (Hrun : mapM_M (obsid_differs (l0 :: ls)) (l0 :: ls) w
          = (Ok (map (λ c, py_ne (OBSID_of c) (OBSID_of first)) (first :: cs)), w)).
  { apply (obsid_checks_run w (l0 :: ls) l0 first); try done.
    - by apply Forall_cons in Hids as [? _].
    - by constructor. }
  unfold IRISMapCubeSequence__init__, mbind, M_bind. rewrite Hrun.
  destruct (existsb id (map (λ c, py_ne (OBSID_of c) (OBSID_of first)) (first :: cs)))
    eqn:Hany.
  - apply existsb_id_map in Hany as Hex. split; split; try done.
    intros Hnone. apply existsb_id_map_false in Hnone. congruence.
  - apply existsb_id_map_false in Hany as Hnone. split; split; try done.
    intros Hex. apply existsb_id_map in Hex. congruence.
Qed.

(** On metadata values that are absent, strings or integers, [!=] is
    plain difference. *)
Lemma py_ne_plain (a b : pyval) :
  (∀ x, a ≠ PVal (HReal x)) → (∀ x, b ≠ PVal (HReal x)) →
  py_ne a b = false ↔ a = b.
Proof.
  intros Ha Hb.
  destruct a as [|[s|x|x]|s], b as [|[t|y|y]|t]; simpl;
    try (exfalso; by eapply Ha); try (exfalso; by eapply Hb);
    try (split; [discriminate|intros [=]]); try done;
    rewrite negb_false_iff.
  - rewrite String.eqb_eq. split; [by intros ->|by intros [=]].
  - rewrite Z.eqb_eq. split; [by intros ->|by intros [=]].
  - unfold datetime in *. rewrite Z.eqb_eq. split; [by intros ->|by intros [=]].
Qed.

(** ** The shape of the exposure time *)

(** The exposure time of a cube whose coordinate is not a bare number,
    when the data has [n] dimensions. *)
Lemma exposure_time_of_vector w cube axis value xs a :
  IRISMapCube.extra_coords cube !! "EXPOSURE TIME" = Some (axis, value) →
  isscalar value = false →
  Quantity_s value = Ok (ExpArray (NDArray [length xs] xs)) →
  heap w !! IRISMapCube.data cube = Some (OArray a) →
  exposure_time_of cube w
  = (match ndim a with
     | 1 => Ok (ExpArray (NDArray [length xs] xs))
     | 2 => Ok (ExpArray (NDArray [length xs; 1] xs))
     | 3 => Ok (ExpArray (NDArray [length xs; 1; 1] xs))
     | n => Raise (ValueError
              ("IRISMapCube dimensions must be 2 or 3. Dimensions=" +:+ pretty n))
     end, w).
Proof.
  intros Hcoord Hvec Hq Hdata.
  unfold exposure_time_of, mbind, M_bind, lift, get_array. rewrite Hcoord. simpl.
  rewrite Hq, Hdata. unfold reshape_exposure_time. rewrite Hvec. simpl.
  destruct (ndim a) as [|[|[|[|n]]]]; reflexivity.
Qed.

(** C4, amended: for a scaled cube whose exposure time coordinate is a
    vector (not a bare number), data of 1, 2 or 3 dimensions gets the
    exposure times with a singleton axis in every place but the first, and
    data of more than 3 dimensions makes the correction raise the usage
    error, the world unchanged. *)
Theorem C4_exposure_vector_reshaped_by_rank (w : world) (self : loc)
    (cube : IRISMapCube.t) (axis : option nat) (value : coord_value)
    (xs : list float) (a : ndarray float) (undo force : bool) :
  heap w !! self = Some (OCube cube) →
  IRISMapCube.scaled cube = Some true →
  IRISMapCube.extra_coords cube !! "EXPOSURE TIME" = Some (axis, value) →
  isscalar value = false →
  Quantity_s value = Ok (ExpArray (NDArray [length xs] xs)) →
  heap w !! IRISMapCube.data cube = Some (OArray a) →
  ((1 ≤ ndim a ≤ 3)%nat →
   exposure_time_of cube w
   = (Ok (ExpArray (NDArray (length xs :: repeat 1 (ndim a - 1)) xs)), w))
  ∧ ((3 < ndim a)%nat →
     apply_exposure_time_correction self undo force w
     = (Raise (ValueError
          ("IRISMapCube dimensions must be 2 or 3. Dimensions=" +:+ pretty (ndim a))),
        w)).
Proof.
  intros Hself Hscaled Hcoord Hvec Hq Hdata.
  pose proof (exposure_time_of_vector w cube axis value xs a Hcoord Hvec Hq Hdata)
    as Hexp.
  split; intros Hrank.
  - rewrite Hexp. destruct (ndim a) as [|[|[|[|n]]]]; try lia; reflexivity.
  - unfold apply_exposure_time_correction, mbind at 1, M_bind at 1, get_cube.
    rewrite Hself, Hscaled. simpl.
    unfold mbind at 1, M_bind at 1. rewrite Hexp.
    destruct (ndim a) as [|[|[|[|n]]]]; try lia; reflexivity.
Qed.

(** ** Code that only adds objects *)

Lemma grows_trans w1 w2 w3 : grows w1 w2 → grows w2 w3 → grows w1 w3.
Proof.
  intros [Hf1 Hh1] [Hf2 Hh2]. split; [congruence|]. by transitivity (heap w2).
Qed.

Lemma framed_ret {A} (a : A) : framed (mret a).
Proof. intros w. split; [apply grows_refl|reflexivity]. Qed.

Lemma framed_raise {A} e : framed (raise (A := A) e).
Proof. intros w. split; [apply grows_refl|reflexivity]. Qed.

Lemma framed_lift {A} (r : result A) : framed (lift r).
Proof. intros w. split; [apply grows_refl|reflexivity]. Qed.

Lemma framed_get_array l : framed (get_array l).
Proof.
  intros w. unfold get_array.
  destruct (heap w !! l) as [[| |]|]; (split; [apply grows_refl|reflexivity]).
Qed.

Lemma framed_get_cube l : framed (get_cube l).
Proof.
  intros w. unfold get_cube.
  destruct (heap w !! l) as [[| |]|]; (split; [apply grows_refl|reflexivity]).
Qed.

Lemma framed_alloc o : framed (alloc o).
Proof.
  intros w. unfold alloc. simpl. split; [|reflexivity].
  split; [reflexivity|]. simpl. apply insert_subseteq. by apply fresh_free.
Qed.

Lemma framed_bind {A B} (m : M A) (f : A → M B) :
  framed m → (∀ a, framed (f a)) → framed (m ≫= f).
Proof.
  intros Hm Hf w. unfold mbind, M_bind.
  specialize (Hm w). destruct (m w) as [[a|e] w1]; simpl in *; [|exact Hm].
  specialize (Hf a w1). destruct Hm as [Hg Ho], Hf as [Hg' Ho'].
  split; [by eapply grows_trans|congruence].
Qed.

Lemma framed_if {A} (b : bool) (m1 m2 : M A) :
  framed m1 → framed m2 → framed (if b then m1 else m2).
Proof. by destruct b. Qed.

Create HintDb framed.
#[local] Hint Resolve framed_ret framed_raise framed_lift framed_get_array
  framed_get_cube framed_alloc framed_if : framed.
#[local] Hint Extern 2 (framed (_ ≫= _)) => apply framed_bind; [|intros ?] : framed.
#[local] Hint Extern 2 (framed (match ?x with _ => _ end)) => destruct x : framed.

Lemma framed_IRISMapCube__init__ data wcs uncertainty unit meta mask extra_coords
    missing_axis scaled :
  framed (IRISMapCube__init__ data wcs uncertainty unit meta mask extra_coords
            missing_axis scaled).
Proof. unfold IRISMapCube__init__. auto with framed. Qed.

Lemma framed_calculate arrays unit e force :
  framed (calculate_exposure_time_correction arrays unit e force).
Proof. unfold calculate_exposure_time_correction. auto 20 with framed. Qed.

Lemma framed_uncalculate arrays unit e force :
  framed (uncalculate_exposure_time_correction arrays unit e force).
Proof. unfold uncalculate_exposure_time_correction. auto 20 with framed. Qed.

Lemma framed_exposure_time_of cube : framed (exposure_time_of cube).
Proof. unfold exposure_time_of. auto 20 with framed. Qed.

#[local] Hint Resolve framed_IRISMapCube__init__ framed_calculate
  framed_uncalculate framed_exposure_time_of : framed.

Lemma framed_apply_exposure_time_correction self undo force :
  framed (apply_exposure_time_correction self undo force).
Proof. unfold apply_exposure_time_correction. auto 20 with framed. Qed.

Lemma framed_run {A} (m : M A) w r w' :
  framed m → m w = (r, w') → grows w w' ∧ open_files w' = open_files w.
Proof. intros Hm Hrun. specialize (Hm w). by rewrite Hrun in Hm. Qed.

Lemma bind_Ok {A B} (m : M A) (f : A → M B) w b w' :
  (m ≫= f) w = (Ok b, w') → ∃ a w1, m w = (Ok a, w1) ∧ f a w1 = (Ok b, w').
Proof.
  unfold mbind, M_bind. destruct (m w) as [[a|e] w1]; [eauto|discriminate].
Qed.

(** ** The corrected cube is a new object *)

(** What a successful correction returns: a location that was free, now
    holding a cube that shares the coordinates, mask and metadata of the
    corrected cube, and whose [scaled] flag is not set. *)
Lemma corrected_cube w self cube undo force new w' :
  heap w !! self = Some (OCube cube) →
  apply_exposure_time_correction self undo force w = (Ok new, w') →
  heap w !! new = None ∧
  ∃ cube', heap w' !! new = Some (OCube cube')
    ∧ IRISMapCube.wcs cube' = IRISMapCube.wcs cube
    ∧ IRISMapCube.mask cube' = IRISMapCube.mask cube
    ∧ IRISMapCube.meta cube' = IRISMapCube.meta cube
    ∧ IRISMapCube.scaled cube' = None.
Proof.
  intros Hself Hrun. unfold apply_exposure_time_correction in Hrun.
  apply bind_Ok in Hrun as (c & w1 & Hget & Hrun).
  unfold get_cube in Hget. rewrite Hself in Hget. injection Hget as <- <-.
  destruct (negb (default false (IRISMapCube.scaled cube))); [discriminate|].
  apply bind_Ok in Hrun as (e & w1 & Hexp & Hrun).
  apply framed_run in Hexp as [Hg1 _]; [|auto with framed].
  apply bind_Ok in Hrun as (u & w2 & Hunc & Hrun).
  apply framed_run in Hunc as [Hg2 _]; [|auto with framed].
  apply bind_Ok in Hrun as ([arrays unit'] & w3 & Hcalc & Hrun).
  apply framed_run in Hcalc as [Hg3 _]; [|auto with framed].
  unfold IRISMapCube__init__ in Hrun.
  apply bind_Ok in Hrun as (a & w4 & Hget & Hrun).
  unfold get_array in Hget.
  destruct (heap w3 !! arrays.1) as [[d| |]|]; try discriminate.
  injection Hget as <- <-.
  apply bind_Ok in Hrun as (missing & w4 & Hcheck & Hrun).
  unfold lift in Hcheck. injection Hcheck as _ <-.
  unfold alloc in Hrun. injection Hrun as <- <-.
  assert (Hg : grows w w3) by eauto using grows_trans.
  split; [apply fresh_free, Hg|].
  eexists. simpl. rewrite lookup_insert_eq. split; [reflexivity|]. simpl. done.
Qed.

(** C6: the correction of a scaled cube, applied or undone, leaves the
    files, the open handles and every object of the world as they were:
    the cube given, and with it its unit, coordinates and metadata, and
    the arrays of its samples, uncertainty and mask.  When it returns, the
    cube returned is a new object, at a location that was free. *)
Theorem C6_correction_leaves_input_returns_new_cube (w : world) (self : loc)
    (cube : IRISMapCube.t) (undo force : bool) :
  heap w !! self = Some (OCube cube) →
  IRISMapCube.scaled cube = Some true →
  let run := apply_exposure_time_correction self undo force w in
  files run.2 = files w ∧ open_files run.2 = open_files w
  ∧ (∀ l o, heap w !! l = Some o → heap run.2 !! l = Some o)
  ∧ heap run.2 !! self = Some (OCube cube)
  ∧ (∀ new, run.1 = Ok new →
       new ≠ self ∧ heap w !! new = None
       ∧ ∃ cube', heap run.2 !! new = Some (OCube cube')
           ∧ IRISMapCube.wcs cube' = IRISMapCube.wcs cube
           ∧ IRISMapCube.mask cube' = IRISMapCube.mask cube
           ∧ IRISMapCube.meta cube' = IRISMapCube.meta cube).
Proof.
  intros Hself Hscaled run.
  destruct (framed_apply_exposure_time_correction self undo force w)
    as [[Hfiles Hheap] Hopen].
  fold run in Hfiles, Hheap, Hopen.
  assert (Hkeep : ∀ l o, heap w !! l = Some o → heap run.2 !! l = Some o).
  { intros l o Hl. by eapply lookup_weaken. }
  split; [done|]. split; [done|]. split; [done|]. split; [by apply Hkeep|].
  intros new Hnew.
  assert (Hrun : apply_exposure_time_correction self undo force w = (Ok new, run.2)).
  { subst run. destruct (apply_exposure_time_correction _ _ _ _) as [r w'].
    simpl in *. by subst r. }
  destruct (corrected_cube w self cube undo force new run.2 Hself Hrun)
    as (Hfree & cube' & Hnew' & Hwcs & Hmask & Hmeta & _).
  split; [intros ->; congruence|]. split; [done|]. eauto.
Qed.

(** A cube that comes out of the correction cannot be corrected again: its
    [scaled] flag was not carried over. *)
Lemma corrected_cube_is_refused w self cube undo force new w' undo' force' :
  heap w !! self = Some (OCube cube) →
  apply_exposure_time_correction self undo force w = (Ok new, w') →
  apply_exposure_time_correction new undo' force' w'
  = (Raise (ValueError "This method is not available as you are using memmap"), w').
Proof.
  intros Hself Hrun.
  destruct (corrected_cube w self cube undo force new w' Hself Hrun)
    as (_ & cube' & Hnew & _ & _ & _ & Hscaled).
  unfold apply_exposure_time_correction, mbind, M_bind, get_cube.
  rewrite Hnew, Hscaled. reflexivity.
Qed.

(** ** Stepping through the reader *)

Lemma wp_bind_lift {A B} (r : result A) (f : A → M B) w Q :
  (∀ e, r = Raise e → Q (Raise e) w) →
  (∀ a, r = Ok a → wp (f a) w Q) →
  wp (lift r ≫= f) w Q.
Proof.
  intros Herr Hok. apply wp_bind, wp_lift. destruct r; [by apply Hok|by apply Herr].
Qed.

Lemma wp_bind_run {A B} (m : M A) (f : A → M B) w a w1 Q :
  m w = (Ok a, w1) → wp (f a) w1 Q → wp (m ≫= f) w Q.
Proof. intros Hm Hf. apply wp_bind. unfold wp at 1. by rewrite Hm. Qed.

Lemma wp_bind_get_array {B} l a (f : ndarray float → M B) w Q :
  heap w !! l = Some (OArray a) → wp (f a) w Q → wp (get_array l ≫= f) w Q.
Proof. intros Hl. apply wp_bind_run. unfold get_array. by rewrite Hl. Qed.

Lemma wp_bind_alloc {B} o (f : loc → M B) w Q :
  wp (f (fresh (dom (heap w))))
     (mkWorld (files w) (open_files w) (<[fresh (dom (heap w)) := o]> (heap w))) Q →
  wp (alloc o ≫= f) w Q.
Proof. by apply wp_bind_run. Qed.

Lemma wp_bind_set_array {B} l a (f : () → M B) w Q :
  wp (f ()) (mkWorld (files w) (open_files w) (<[l := OArray a]> (heap w))) Q →
  wp (set_array l a ≫= f) w Q.
Proof. by apply wp_bind_run. Qed.

Lemma wp_bind_fits_close {B} hdulist (f : () → M B) w Q :
  wp (f ())
     (if mapped hdulist then w
      else mkWorld (files w) (delete (handle hdulist) (open_files w)) (heap w)) Q →
  wp (fits_close hdulist ≫= f) w Q.
Proof.
  intros H. eapply wp_bind_run; [|exact H].
  unfold fits_close. by destruct (mapped hdulist).
Qed.

Lemma wp_bind_fits_open {B} filename memmap (f : HDUList → M B) w Q :
  (files w !! filename = None → Q (Raise (FileNotFoundError filename)) w) →
  (∀ file, files w !! filename = Some file →
     wp (f (mkHDUList (fresh (dom (open_files w))) memmap (primary_header file)
              (fresh (dom (heap w))) (primary_integer file) (extensions file)))
        (mkWorld (files w)
           (<[fresh (dom (open_files w)) := filename]> (open_files w))
           (<[fresh (dom (heap w)) := OArray (primary_data file)]> (heap w))) Q) →
  wp (fits_open filename memmap ≫= f) w Q.
Proof.
  intros Hnone Hsome. apply wp_bind. unfold wp at 1, fits_open.
  destruct (files w !! filename) as [file|]; simpl; [by apply Hsome|by apply Hnone].
Qed.

(** An object survives the allocation of another one. *)
Lemma lookup_fresh_insert (h : gmap loc obj) k x o :
  h !! k = Some x → <[fresh (dom h) := o]> h !! k = Some x.
Proof.
  intros Hk. rewrite lookup_insert_ne; [done|].
  intros <-. by rewrite (fresh_free h h) in Hk.
Qed.

Ltac heap_sub :=
  lazymatch goal with
  | |- ?h ⊆ ?h => reflexivity
  | |- _ !! fresh (dom _) = None => apply fresh_free; heap_sub
  | |- _ ⊆ <[_ := _]> _ => apply insert_subseteq_r; [heap_sub|heap_sub]
  end.

Ltac heap_look :=
  first [apply lookup_insert_eq | apply lookup_fresh_insert; heap_look].

Lemma wp_eq {A} (m : M A) w r w' :
  wp m w (λ r0 w0, r0 = r ∧ w0 = w') → m w = (r, w').
Proof. unfold wp. destruct (m w). simpl. by intros [-> ->]. Qed.


Lemma wp_mono {A} (m : M A) w (Q Q' : result A → world → Prop) :
  wp m w Q → (∀ r w', Q r w' → Q' r w') → wp m w Q'.
Proof. unfold wp. auto. Qed.

Lemma wp_bind_init {B} data a wcs uncertainty unit meta mask coords missing_axis
    scaled (f : loc → M B) w Q :
  heap w !! data = Some (OArray a) →
  (∀ e, NDCube_missing_axis (shape a) wcs missing_axis (default [] coords)
        = Raise e → Q (Raise e) w) →
  (∀ missing,
     NDCube_missing_axis (shape a) wcs missing_axis (default [] coords)
     = Ok missing →
     wp (f (fresh (dom (heap w))))
        (mkWorld (files w) (open_files w)
           (<[fresh (dom (heap w)) :=
                OCube (IRISMapCube.new data wcs uncertainty unit (default ∅ meta)
                         mask (coords_dict (default [] coords)) (Some missing)
                         scaled)]> (heap w))) Q) →
  wp (IRISMapCube__init__ data wcs uncertainty unit meta mask coords missing_axis
        scaled ≫= f) w Q.
Proof.
  intros Hd Herr Hok. unfold IRISMapCube__init__.
  apply wp_bind. eapply wp_bind_get_array; [exact Hd|].
  apply wp_bind_lift; [intros e He; by apply Herr|].
  intros missing Hm. unfold wp, alloc. simpl. by apply Hok.
Qed.

(** The four array operations of the uncertainty, sample by sample: the
    formula of the spec at every sample, in the shape of the samples. *)
Lemma uncertainty_array_flat (a : ndarray float) :
  uncertainty_array a
  = NDArray (shape a) (map (photon_noise READOUT_NOISE_SJI) (flat a)).
Proof.
  unfold uncertainty_array, scalar_times, plus_scalar, sqrt_array.
  cbn [shape flat]. f_equal. rewrite !map_map. apply map_ext. intros v.
  reflexivity.
Qed.

(** The scaled branch, run on one array of floating-point numbers known
    under both names: the array is overwritten, then the mask and the
    uncertainty are computed from the overwritten array and stored as two
    new objects. *)
Lemma mask_and_uncertainty_scaled w l d :
  heap w !! l = Some (OArray d) →
  let h1 := <[l := OArray (cleaned d)]> (heap w) in
  let h2 := <[fresh (dom h1) := OMask (array_eq (cleaned d) BAD_PIXEL_VALUE_SCALED)]> h1 in
  mask_and_uncertainty l l false false w
  = (Ok (Some (fresh (dom h1)), true, DN_UNIT_SJI, Some (fresh (dom h2))),
     mkWorld (files w) (open_files w)
       (<[fresh (dom h2) := OArray (NDArray (shape d)
                                (map (photon_noise READOUT_NOISE_SJI)
                                   (flat (cleaned d))))]> h2)).
Proof.
  intros Hl h1 h2. unfold mask_and_uncertainty.
  replace (NDArray (shape d)
             (map (photon_noise READOUT_NOISE_SJI) (flat (cleaned d))))
    with (uncertainty_array (cleaned d))
    by (rewrite uncertainty_array_flat; reflexivity).
  apply wp_eq.
  eapply wp_bind_get_array; [exact Hl|].
  eapply wp_bind_get_array; [exact Hl|].
  eapply wp_bind_run; [reflexivity|].
  apply wp_bind_set_array.
  eapply wp_bind_get_array; [apply lookup_insert_eq|].
  apply wp_bind_alloc.
  eapply wp_bind_get_array; [simpl; heap_look|].
  apply wp_bind_alloc. apply wp_ret. split; reflexivity.
Qed.

(** The scaled branch on an array of integers: the store of NaN raises,
    and nothing has changed. *)
Lemma mask_and_uncertainty_integer w l d :
  heap w !! l = Some (OArray d) →
  mask_and_uncertainty l l true false w
  = (Raise (ValueError "cannot convert float NaN to integer"), w).
Proof.
  intros Hl. unfold mask_and_uncertainty.
  apply wp_eq.
  eapply wp_bind_get_array; [exact Hl|].
  eapply wp_bind_get_array; [exact Hl|].
  apply wp_bind, wp_raise. split; reflexivity.
Qed.

Lemma mask_and_uncertainty_memmap w l d integer :
  heap w !! l = Some (OArray d) →
  mask_and_uncertainty l l integer true w
  = (Ok (None, false, DN_UNIT_SJI_UNSCALED, None),
     mkWorld (files w) (open_files w)
       (<[l := OArray (setitem d (array_eq d BAD_PIXEL_VALUE_UNSCALED) (float_of_Z 0))]>
          (heap w))).
Proof.
  intros Hl. unfold mask_and_uncertainty.
  apply wp_eq.
  eapply wp_bind_get_array; [exact Hl|].
  eapply wp_bind_get_array; [exact Hl|].
  apply wp_bind_set_array. apply wp_ret. split; reflexivity.
Qed.

(** ** One pass through the loop body *)

Lemma read_extra_coords_any h m l i h' m' l' i' (hdr : header)
    (exts : list (header * table)) :
  read_extra_coords (mkHDUList h m hdr l i exts)
  = read_extra_coords (mkHDUList h' m' hdr l' i' exts).
Proof. reflexivity. Qed.

Lemma fresh_ne (h : gmap loc obj) k x : h !! k = Some x → fresh (dom h) ≠ k.
Proof. intros Hk <-. by rewrite (fresh_free h h) in Hk. Qed.

(** A name that is not on the disk: the open itself raises, and the
    world is as before. *)
Lemma read_file_missing filename memmap w :
  files w !! filename = None →
  read_file filename memmap w = (Raise (FileNotFoundError filename), w).
Proof.
  intros Hnone. unfold read_file, mbind at 1, M_bind at 1, fits_open.
  by rewrite Hnone.
Qed.

Lemma file_outcome_cases (memmap : bool) (file : fits_file) :
  file_outcome memmap file
  = match WCS (primary_header file) with
    | Raise e => Raise e
    | Ok wcs =>
        if negb memmap && primary_integer file
        then Raise (ValueError "cannot convert float NaN to integer")
        else
          match read_extra_coords
                  (mkHDUList 0 memmap (primary_header file) 0
                     (primary_integer file) (extensions file)) with
          | Raise e => Raise e
          | Ok coords =>
              match extract_meta (primary_header file)
                      (shape (primary_data file)) with
              | Raise e => Raise e
              | Ok meta =>
                  match NDCube_missing_axis (shape (primary_data file)) wcs None
                          coords with
                  | Raise e => Raise e
                  | Ok missing => Ok (wcs, coords, meta, missing)
                  end
              end
          end
    end.
Proof.
  unfold file_outcome, mbind, result_bind.
  destruct (WCS _); [|done].
  destruct (negb memmap && primary_integer file); [done|].
  destruct (read_extra_coords _); [|done].
  destruct (extract_meta _ _); [|done].
  by destruct (NDCube_missing_axis _ _ _ _).
Qed.

Lemma kept_open_one memmap filename (t : gmap nat string) :
  kept_open memmap [filename] t
  = if memmap then <[fresh (dom t) := filename]> t else t.
Proof. reflexivity. Qed.

(** The loop body on a file that is on the disk: the outcome of the file
    decides the result.  A file whose outcome is an exception makes the
    body raise that exception with the handle of the file open; otherwise
    the body returns the metadata and a new cube, and the handle is
    released unless the file is memory mapped. *)
Lemma read_file_outcome filename memmap w file :
  files w !! filename = Some file →
  wp (read_file filename memmap) w (λ r w',
    grows w w' ∧
    match file_outcome memmap file with
    | Raise e =>
        r = Raise e
        ∧ open_files w' = <[fresh (dom (open_files w)) := filename]> (open_files w)
    | Ok (wcs, coords, meta, missing) =>
        open_files w' = kept_open memmap [filename] (open_files w)
        ∧ ∃ c, r = Ok (c, meta) ∧ heap w !! c = None
               ∧ cube_as_read memmap w' file c
    end).
Proof.
  intros Hfile. unfold read_file.
  apply wp_bind_fits_open; [congruence|].
  intros file' Hfile'. assert (file' = file) as -> by congruence.
  assert (Hfree : open_files w !! fresh (dom (open_files w)) = None)
    by apply not_elem_of_dom, is_fresh.
  cbn [hdu0_data hdu0_header hdu0_integer handle mapped].
  rewrite file_outcome_cases.
  apply wp_bind_lift.
  { intros e ->. split; [split; [done|simpl; heap_sub]|done]. }
  intros wcs Hwcs. rewrite Hwcs.
  destruct memmap; cbn [negb andb].
  - eapply wp_bind_run.
    { apply mask_and_uncertainty_memmap. simpl. apply lookup_insert_eq. }
    apply wp_bind_lift.
    { intros e He. rewrite (read_extra_coords_any _ _ _ _ 0 true 0 (primary_integer file)) in He.
      rewrite He. split; [split; [done|simpl; heap_sub]|done]. }
    intros coords He.
    rewrite (read_extra_coords_any _ _ _ _ 0 true 0 (primary_integer file)) in He.
    rewrite He.
    eapply wp_bind_get_array; [simpl; apply lookup_insert_eq|].
    cbn [shape setitem].
    apply wp_bind_lift.
    { intros e ->. split; [split; [done|simpl; heap_sub]|done]. }
    intros meta Hmeta. rewrite Hmeta.
    eapply wp_bind_init; [simpl; apply lookup_insert_eq| |]; cbn [shape setitem default from_option id].
    { intros e ->. split; [split; [done|simpl; heap_sub]|done]. }
    intros missing Hmissing. rewrite Hmissing.
    apply wp_bind_fits_close. cbn [mapped]. apply wp_ret.
    split; [split; [done|simpl; heap_sub]|].
    split; [done|].
    eexists. split; [done|]. split; [simpl; heap_sub|].
    eexists wcs, coords, meta, missing, _.
    split; [by rewrite file_outcome_cases, Hwcs, He, Hmeta, Hmissing|]. simpl.
    split; [heap_look|apply lookup_insert_eq].
  - destruct (primary_integer file) eqn:Hint.
    { apply wp_bind. unfold wp at 1.
      rewrite (mask_and_uncertainty_integer _ _ (primary_data file))
        by (simpl; apply lookup_insert_eq).
      simpl. split; [split; [done|simpl; heap_sub]|done]. }
    eapply wp_bind_run.
    { apply mask_and_uncertainty_scaled. simpl. apply lookup_insert_eq. }
    apply wp_bind_lift.
    { intros e He. rewrite (read_extra_coords_any _ _ _ _ 0 false 0 false) in He.
      rewrite He. split; [split; [done|simpl; heap_sub]|done]. }
    intros coords He.
    rewrite (read_extra_coords_any _ _ _ _ 0 false 0 false) in He. rewrite He.
    eapply wp_bind_get_array; [simpl; heap_look|].
    cbn [shape cleaned setitem].
    apply wp_bind_lift.
    { intros e ->. split; [split; [done|simpl; heap_sub]|done]. }
    intros meta Hmeta. rewrite Hmeta.
    eapply wp_bind_init; [simpl; heap_look| |]; cbn [shape cleaned setitem default from_option id].
    { intros e ->. split; [split; [done|simpl; heap_sub]|done]. }
    intros missing Hmissing. rewrite Hmissing.
    apply wp_bind_fits_close. cbn [mapped handle]. apply wp_ret.
    split; [split; [done|simpl; heap_sub]|].
    split; [simpl; by apply delete_insert_id|].
    eexists. split; [done|]. split; [simpl; heap_sub|].
    eexists wcs, coords, meta, missing, _.
    split; [by rewrite file_outcome_cases, Hwcs, Hint, He, Hmeta, Hmissing|]. simpl.
    eexists _, _. split; [heap_look|]. split; [heap_look|]. split; [heap_look|].
    split; [apply lookup_insert_eq|]. eapply fresh_ne. heap_look.
Qed.

Lemma cube_as_read_mono memmap w w' file c :
  heap w ⊆ heap w' → cube_as_read memmap w file c → cube_as_read memmap w' file c.
Proof.
  intros Hsub (wcs & coords & meta & missing & ld & Hout & Hcube).
  exists wcs, coords, meta, missing, ld. split; [done|]. destruct memmap.
  - destruct Hcube as [Hd Hc]. split; by eapply lookup_weaken.
  - destruct Hcube as (lm & lu & Hd & Hm & Hu & Hc & Hne).
    exists lm, lu. repeat split; try done; by eapply lookup_weaken.
Qed.

Lemma cube_as_read_allocated memmap w file c :
  cube_as_read memmap w file c → is_Some (heap w !! c).
Proof.
  intros (wcs & coords & meta & missing & ld & _ & Hcube). destruct memmap.
  - destruct Hcube as [_ Hc]. by rewrite Hc.
  - destruct Hcube as (lm & lu & _ & _ & _ & Hc & _). by rewrite Hc.
Qed.

Lemma file_outcome_Ok memmap file wcs coords meta missing :
  file_outcome memmap file = Ok (wcs, coords, meta, missing) →
  WCS (primary_header file) = Ok wcs
  ∧ negb memmap && primary_integer file = false
  ∧ read_extra_coords
      (mkHDUList 0 memmap (primary_header file) 0 (primary_integer file)
         (extensions file)) = Ok coords
  ∧ extract_meta (primary_header file) (shape (primary_data file)) = Ok meta
  ∧ NDCube_missing_axis (shape (primary_data file)) wcs None coords = Ok missing.
Proof.
  rewrite file_outcome_cases. destruct (WCS _); [|discriminate].
  destruct (negb memmap && primary_integer file); [discriminate|].
  destruct (read_extra_coords _); [|discriminate].
  destruct (extract_meta _ _); [|discriminate].
  destruct (NDCube_missing_axis _ _ _ _) eqn:Hcheck; [|discriminate].
  by intros [= <- <- <- <-].
Qed.

Lemma file_outcome_meta memmap file wcs coords meta missing :
  file_outcome memmap file = Ok (wcs, coords, meta, missing) →
  extract_meta (primary_header file) (shape (primary_data file)) = Ok meta.
Proof.
  rewrite file_outcome_cases. destruct (WCS _); [|discriminate].
  destruct (negb memmap && primary_integer file); [discriminate|].
  destruct (read_extra_coords _); [|discriminate].
  destruct (extract_meta _ _); [|discriminate].
  destruct (NDCube_missing_axis _ _ _ _); [|discriminate]. by intros [= _ _ -> _].
Qed.

(** The cube as read is the cube of its file. *)
Lemma cube_as_read_cube_of_file memmap w file c :
  cube_as_read memmap w file c → cube_of_file memmap w file c.
Proof.
  intros (wcs & coords & meta & missing & ld & Hout & Hcube).
  apply file_outcome_meta in Hout. destruct memmap.
  - destruct Hcube as [Hd Hc]. eexists. split; [exact Hc|]. simpl.
    split; [done|]. split; [done|]. discriminate.
  - destruct Hcube as (lm & lu & Hd & Hm & Hu & Hc & Hne).
    eexists. split; [exact Hc|]. simpl. split; [done|]. split; [done|].
    intros _. split; [done|]. by exists lm, lu.
Qed.

Lemma cube_as_read_meta memmap w file c wcs coords meta missing :
  cube_as_read memmap w file c →
  file_outcome memmap file = Ok (wcs, coords, meta, missing) →
  ∃ cube, heap w !! c = Some (OCube cube) ∧ IRISMapCube.meta cube = meta.
Proof.
  intros (wcs' & coords' & meta' & missing' & ld & Hout & Hcube) Hout'.
  rewrite Hout in Hout'. injection Hout' as -> -> -> ->. destruct memmap.
  - destruct Hcube as [_ Hc]. by eexists.
  - destruct Hcube as (lm & lu & _ & _ & _ & Hc & _). by eexists.
Qed.

(** ** The loop *)

Lemma kept_open_app memmap (l1 l2 : list string) (t : gmap nat string) :
  kept_open memmap (l1 ++ l2) t = kept_open memmap l2 (kept_open memmap l1 t).
Proof. unfold kept_open. destruct memmap; [apply foldl_app|done]. Qed.

Lemma kept_open_cons memmap name (l : list string) (t : gmap nat string) :
  kept_open memmap (name :: l) t = kept_open memmap l (kept_open memmap [name] t).
Proof. by destruct memmap. Qed.

Lemma kept_open_nil memmap (t : gmap nat string) : kept_open memmap [] t = t.
Proof. by destruct memmap. Qed.

(** The loop.  When it returns, every file name has contributed one cube,
    in order, each a new object, the variable [meta] is the metadata of
    the last cube, and the handles are those that the files read leave.
    When it raises, the names split into the files read in full, all
    readable, and the file that stopped the loop: a name that is not on
    the disk, or a file whose outcome is the exception, and whose handle
    is then left open. *)
Lemma read_files_run filenames memmap : ∀ w list_of_cubes meta0,
  wp (read_files filenames memmap list_of_cubes meta0) w (λ r w',
  grows w w' ∧
  match r with
  | Ok (cubes, meta) =>
      open_files w' = kept_open memmap filenames (open_files w) ∧
      ∃ news,
        cubes = (list_of_cubes ++ news)%list
        ∧ Forall2 (λ filename c, ∃ file, files w !! filename = Some file
                                  ∧ heap w !! c = None
                                  ∧ cube_as_read memmap w' file c) filenames news
        ∧ NoDup news
        ∧ match last news with
          | None => meta = meta0
          | Some c => ∃ cube, heap w' !! c = Some (OCube cube)
                              ∧ meta = Some (IRISMapCube.meta cube)
          end
  | Raise e =>
      ∃ pre bad post,
        filenames = (pre ++ bad :: post)%list
        ∧ Forall (λ name, ∃ file, files w !! name = Some file
                            ∧ readable memmap file = true) pre
        ∧ match files w !! bad with
          | None =>
              e = FileNotFoundError bad
              ∧ open_files w' = kept_open memmap pre (open_files w)
          | Some file =>
              file_outcome memmap file = Raise e
              ∧ open_files w'
                = <[fresh (dom (kept_open memmap pre (open_files w))) := bad]>
                    (kept_open memmap pre (open_files w))
          end
  end).
Proof.
  induction filenames as [|filename rest IH]; intros w list_of_cubes meta0.
  - apply wp_ret. split; [apply grows_refl|]. split; [by rewrite kept_open_nil|].
    exists []. split; [by rewrite app_nil_r|]. split; [constructor|].
    split; [constructor|done].
  - simpl. apply wp_bind. unfold wp at 1.
    destruct (files w !! filename) as [file|] eqn:Hfile.
    2: { rewrite (read_file_missing _ _ _ Hfile). simpl. split; [apply grows_refl|].
         exists [], filename, rest. split; [done|]. split; [constructor|].
         rewrite Hfile. split; [done|]. by rewrite kept_open_nil. }
    pose proof (read_file_outcome filename memmap w file Hfile) as Hbody.
    unfold wp in Hbody.
    destruct (read_file filename memmap w) as [r w1]. simpl in Hbody |- *.
    destruct Hbody as (Hg1 & Hout).
    destruct (file_outcome memmap file) as [[[[wcs coords] meta1] missing]|e]
      eqn:Houtcome.
    + destruct Hout as (Hopen1 & c & -> & Hfree & Hcube).
      specialize (IH w1 (list_of_cubes ++ [c])%list (Some meta1)).
      unfold wp in IH |- *.
      destruct (read_files rest memmap (list_of_cubes ++ [c])%list (Some meta1) w1)
        as [[[cubes meta']|e] w2]; simpl in *.
      * destruct IH as (Hg2 & Hopen2 & news & -> & Hall & Hnodup & Hlast).
        split; [by eapply grows_trans|].
        split; [by rewrite kept_open_cons, <- Hopen1|].
        exists (c :: news). split; [by rewrite <- app_assoc|].
        split.
        { constructor.
          - exists file. split; [done|]. split; [done|].
            eapply cube_as_read_mono; [apply Hg2|done].
          - eapply Forall2_impl; [exact Hall|].
            intros name c' (file' & Hfile' & Hfree' & Hcube').
            exists file'. destruct Hg1 as [Hfiles Hsub].
            split; [by rewrite <- Hfiles|]. split; [|done].
            by eapply lookup_weaken_None. }
        split.
        { constructor; [|done]. intros [i Hi]%list_elem_of_lookup.
          destruct (Forall2_lookup_r _ _ _ _ _ Hall Hi)
            as (name & _ & file' & _ & Hnone & _).
          destruct (cube_as_read_allocated _ _ _ _ Hcube) as [o Ho]. congruence. }
        destruct news as [|c' news']; simpl in *.
        { subst meta'.
          destruct (cube_as_read_meta _ _ _ _ _ _ _ _ Hcube Houtcome)
            as (cube & Hc & <-).
          exists cube. split; [|done]. eapply lookup_weaken; [exact Hc|apply Hg2]. }
        destruct (last (c' :: news')) eqn:Hl; [exact Hlast|].
        by apply last_None in Hl.
      * destruct IH as (Hg2 & pre & bad & post & -> & Hpre & Hbad).
        split; [by eapply grows_trans|].
        exists (filename :: pre), bad, post. split; [done|].
        destruct Hg1 as [Hfiles Hsub]. split.
        { constructor.
          - exists file. split; [done|]. unfold readable. by rewrite Houtcome.
          - eapply Forall_impl; [exact Hpre|].
            intros name (file' & Hfile' & Hreadable'). exists file'.
            by rewrite <- Hfiles. }
        rewrite kept_open_cons, <- Hopen1, <- Hfiles. exact Hbad.
    + destruct Hout as (-> & Hopen1). split; [done|].
      exists [], filename, rest. split; [done|]. split; [constructor|].
      rewrite Hfile. split; [done|]. by rewrite kept_open_nil.
Qed.

(** On readable files the loop returns. *)
Lemma read_files_returns filenames memmap : ∀ w list_of_cubes meta0,
  Forall (λ name, ∃ file, files w !! name = Some file
                    ∧ readable memmap file = true) filenames →
  ∃ cubes meta w1,
    read_files filenames memmap list_of_cubes meta0 w = (Ok (cubes, meta), w1).
Proof.
  intros w list_of_cubes meta0 Hall.
  pose proof (read_files_run filenames memmap w list_of_cubes meta0) as Hrun.
  unfold wp in Hrun.
  destruct (read_files filenames memmap list_of_cubes meta0 w)
    as [[[cubes meta]|e] w1]; [by eexists _, _, _|].
  simpl in Hrun. destruct Hrun as (_ & pre & bad & post & -> & _ & Hbad).
  apply Forall_app in Hall as [_ Hall].
  apply Forall_cons in Hall as [(file & Hfile & Hreadable) _].
  rewrite Hfile in Hbad. destruct Hbad as [Hout _].
  unfold readable in Hreadable. by rewrite Hout in Hreadable.
Qed.

(** The loop over readable files returns, with the handles that the
    files read leave. *)
Lemma read_files_readable (filenames : list string) (memmap : bool) w
    list_of_cubes meta0 :
  Forall (λ name, ∃ file, files w !! name = Some file
                    ∧ readable memmap file = true) filenames →
  ∃ cubes meta w1,
    read_files filenames memmap list_of_cubes meta0 w = (Ok (cubes, meta), w1)
    ∧ files w1 = files w
    ∧ open_files w1 = kept_open memmap filenames (open_files w).
Proof.
  intros Hall.
  destruct (read_files_returns filenames memmap w list_of_cubes meta0 Hall)
    as (cubes & meta & w1 & Hrun).
  pose proof (wp_run _ _ _ _ _ (read_files_run filenames memmap w list_of_cubes meta0)
                Hrun) as ([Hfiles _] & Hopen & _).
  by exists cubes, meta, w1.
Qed.

(** The cubes the loop adds: one per name, each built from the file of
    its name, each at a location that was free when the loop started, and
    no two at one location. *)
Lemma read_files_cubes filenames memmap w list_of_cubes meta0 cubes meta w' :
  read_files filenames memmap list_of_cubes meta0 w = (Ok (cubes, meta), w') →
  ∃ news,
    cubes = (list_of_cubes ++ news)%list
    ∧ Forall2 (λ name c, ∃ file, files w !! name = Some file
                            ∧ heap w !! c = None
                            ∧ cube_as_read memmap w' file c) filenames news
    ∧ NoDup news.
Proof.
  intros Hrun.
  pose proof (wp_run _ _ _ _ _ (read_files_run filenames memmap w list_of_cubes meta0)
                Hrun) as (_ & _ & news & Hcubes & Hall & Hnodup & _).
  by exists news.
Qed.
(** ** Code that only reads the world *)

Lemma readonly_ret {A} (a : A) : readonly (mret a).
Proof. done. Qed.

Lemma readonly_raise {A} e : readonly (raise (A := A) e).
Proof. done. Qed.

Lemma readonly_lift {A} (r : result A) : readonly (lift r).
Proof. done. Qed.

Lemma readonly_get_cube l : readonly (get_cube l).
Proof. intros w. unfold get_cube. by destruct (heap w !! l) as [[| |]|]. Qed.

Lemma readonly_bind {A B} (m : M A) (f : A → M B) :
  readonly m → (∀ a, readonly (f a)) → readonly (m ≫= f).
Proof.
  intros Hm Hf w. unfold mbind, M_bind. specialize (Hm w).
  destruct (m w) as [[a|e] w1]; simpl in *; subst w1; [apply Hf|done].
Qed.

Lemma readonly_mapM_M {A B} (f : A → M B) (l : list A) :
  (∀ a, readonly (f a)) → readonly (mapM_M f l).
Proof.
  intros Hf. induction l as [|x l IH]; simpl; [apply readonly_ret|].
  apply readonly_bind; [apply Hf|]. intros y.
  apply readonly_bind; [apply IH|]. intros ys. apply readonly_ret.
Qed.

Lemma readonly_obsid_differs data_list cube : readonly (obsid_differs data_list cube).
Proof.
  unfold obsid_differs.
  repeat (apply readonly_bind; [first [apply readonly_get_cube|apply readonly_lift]|intros ?]).
  apply readonly_ret.
Qed.

Lemma readonly_IRISMapCubeSequence__init__ data_list meta common_axis :
  readonly (IRISMapCubeSequence__init__ data_list meta common_axis).
Proof.
  unfold IRISMapCubeSequence__init__. apply readonly_bind.
  - apply readonly_mapM_M, readonly_obsid_differs.
  - intros differs. destruct (existsb id differs); [apply readonly_raise|apply readonly_ret].
Qed.

(** A sequence that was built holds exactly the cubes and the metadata
    it was given. *)
Lemma IRISMapCubeSequence__init___Ok data_list meta common_axis w s w' :
  IRISMapCubeSequence__init__ data_list meta common_axis w = (Ok s, w') →
  s = IRISMapCubeSequence.new data_list meta common_axis ∧ w' = w.
Proof.
  intros Hrun.
  pose proof (readonly_IRISMapCubeSequence__init__ data_list meta common_axis w) as Hw.
  rewrite Hrun in Hw. simpl in Hw. split; [|done].
  unfold IRISMapCubeSequence__init__ in Hrun.
  apply bind_Ok in Hrun as (differs & w1 & _ & Hrun).
  destruct (existsb id differs); [discriminate|]. by injection Hrun as <- _.
Qed.

(** ** The reader as a whole *)

(** The loop, in the terms of the claims. *)
Lemma read_files_spec filenames memmap w list_of_cubes meta0 :
  wp (read_files filenames memmap list_of_cubes meta0) w (λ r w',
  grows w w' ∧
  match r with
  | Ok (cubes, meta) =>
      open_files w' = kept_open memmap filenames (open_files w) ∧
      ∃ news,
        cubes = (list_of_cubes ++ news)%list
        ∧ Forall2 (λ filename c, ∃ file, files w !! filename = Some file
                                  ∧ cube_of_file memmap w' file c) filenames news
        ∧ match last news with
          | None => meta = meta0
          | Some c => ∃ cube, heap w' !! c = Some (OCube cube)
                              ∧ meta = Some (IRISMapCube.meta cube)
          end
  | Raise e =>
      ∃ read rest,
        filenames = (read ++ rest)%list
        ∧ (open_files w' = kept_open memmap read (open_files w)
           ∨ ∃ filename, head rest = Some filename
               ∧ open_files w'
                 = <[fresh (dom (kept_open memmap read (open_files w))) := filename]>
                     (kept_open memmap read (open_files w)))
  end).
Proof.
  eapply wp_mono; [apply read_files_run|]. intros [[cubes meta]|e] w'.
  - intros (Hg & Hopen & news & -> & Hall & _ & Hlast).
    split; [done|]. split; [done|]. exists news. split; [done|]. split; [|done].
    eapply Forall2_impl; [exact Hall|]. intros name c (file & Hfile & _ & Hcube).
    exists file. split; [done|]. by apply cube_as_read_cube_of_file.
  - intros (Hg & pre & bad & post & -> & _ & Hbad). split; [done|].
    exists pre, (bad :: post). split; [done|].
    destruct (files w !! bad); [|left; by destruct Hbad].
    right. exists bad. split; [done|]. by destruct Hbad.
Qed.

(** The whole call.  When it returns, the handles are those that the
    files read leave, there is one cube per name, in order, and the value
    is that cube for one name, or a sequence of all the cubes whose
    metadata is the metadata of the last cube.  When it raises, some of
    the files named were read in full, and at most the handle of the file
    named next is open besides theirs. *)
Lemma read_iris_sji_level2_fits_spec filenames memmap w :
  wp (read_iris_sji_level2_fits filenames memmap) w (λ r w',
  grows w w' ∧
  match r with
  | Ok v =>
      open_files w' = kept_open memmap (names_of filenames) (open_files w) ∧
      ∃ cubes,
        Forall2 (λ filename c, ∃ file, files w !! filename = Some file
                                  ∧ cube_of_file memmap w' file c)
                (names_of filenames) cubes
        ∧ match v with
          | Cube c => cubes = [c]
          | Sequence s =>
              (2 ≤ length cubes)%nat
              ∧ IRISMapCubeSequence.data s = cubes
              ∧ ∃ c cube, last cubes = Some c
                  ∧ heap w' !! c = Some (OCube cube)
                  ∧ IRISMapCubeSequence.meta s = Some (IRISMapCube.meta cube)
          end
  | Raise e =>
      ∃ read rest,
        names_of filenames = (read ++ rest)%list
        ∧ (open_files w' = kept_open memmap read (open_files w)
           ∨ ∃ filename, head rest = Some filename
               ∧ open_files w'
                 = <[fresh (dom (kept_open memmap read (open_files w))) := filename]>
                     (kept_open memmap read (open_files w)))
  end).
Proof.
  unfold read_iris_sji_level2_fits. fold (names_of filenames).
  apply wp_bind.
  eapply wp_mono; [apply (read_files_spec (names_of filenames) memmap w [] None)|].
  intros [[cubes meta]|e] w1; simpl; [|done].
  intros (Hg & Hopen & news & -> & Hall & Hlast). simpl.
  pose proof (Forall2_length _ _ _ Hall) as Hlen.
  assert (Hafter : ∃ read rest,
            names_of filenames = (read ++ rest)%list
            ∧ (open_files w1 = kept_open memmap read (open_files w)
               ∨ ∃ filename, head rest = Some filename
                   ∧ open_files w1
                     = <[fresh (dom (kept_open memmap read (open_files w))) := filename]>
                         (kept_open memmap read (open_files w)))).
  { exists (names_of filenames), []. split; [by rewrite app_nil_r|by left]. }
  destruct (length (names_of filenames) =? 1)%nat eqn:Hone.
  - apply Nat.eqb_eq in Hone. rewrite Hone in Hlen.
    destruct news as [|c [|c' news']]; try discriminate.
    apply wp_ret. split; [done|]. split; [done|]. by exists [c].
  - apply Nat.eqb_neq in Hone. destruct meta as [m|].
    + apply wp_bind. unfold wp at 1.
      destruct (IRISMapCubeSequence__init__ news (Some m) 0 w1) as [[s|e] w2] eqn:Hinit;
        simpl.
      * apply IRISMapCubeSequence__init___Ok in Hinit as [-> ->].
        apply wp_ret. split; [done|]. split; [done|].
        exists news. split; [done|].
        destruct news as [|c news'] eqn:Hnews; [discriminate|]. rewrite <- Hnews in *.
        split; [rewrite Hnews in Hlen |- *; simpl in *; lia|]. split; [done|].
        destruct (last news) as [c'|]; [|discriminate].
        destruct Hlast as (cube & Hc & [= ->]). by exists c', cube.
      * pose proof (readonly_IRISMapCubeSequence__init__ news (Some m) 0 w1) as Hw.
        rewrite Hinit in Hw. simpl in Hw. subst w2. split; [done|exact Hafter].
    + apply wp_raise. split; [done|exact Hafter].
Qed.

(** The cubes of a call that returns: one per name, in order, each built
    from the file of its name and new to the world, no two the same. *)
Lemma read_cubes (w : world) (filenames : filenames_arg) (memmap : bool)
    (v : ingested) (w' : world) :
  read_iris_sji_level2_fits filenames memmap w = (Ok v, w') →
  Forall2 (λ name c, ∃ file, files w !! name = Some file
                          ∧ heap w !! c = None
                          ∧ cube_as_read memmap w' file c)
          (names_of filenames) (cubes_of v)
  ∧ NoDup (cubes_of v).
Proof.
  unfold read_iris_sji_level2_fits. fold (names_of filenames). intros Hrun.
  apply bind_Ok in Hrun as ([cubes meta] & w1 & Hloop & Hrun).
  apply read_files_cubes in Hloop as (news & -> & Hall & Hnodup). simpl in Hrun.
  destruct (length (names_of filenames) =? 1)%nat eqn:Hone.
  - apply Nat.eqb_eq in Hone. pose proof (Forall2_length _ _ _ Hall) as Hlen.
    rewrite Hone in Hlen. destruct news as [|c [|c' news]]; try discriminate.
    by injection Hrun as <- <-.
  - destruct meta as [m|]; [|discriminate].
    apply bind_Ok in Hrun as (s & w2 & Hinit & Hrun). injection Hrun as <- <-.
    by apply IRISMapCubeSequence__init___Ok in Hinit as [-> ->].
Qed.

Lemma Forall2_last {A B} (P : A → B → Prop) l k y :
  Forall2 P l k → last k = Some y → ∃ x, last l = Some x ∧ P x y.
Proof.
  intros Hall Hlast. rewrite last_lookup in Hlast.
  destruct (Forall2_lookup_r _ _ _ _ _ Hall Hlast) as (x & Hx & HP).
  exists x. split; [|done]. rewrite last_lookup.
  by rewrite (Forall2_length _ _ _ Hall).
Qed.

(** ** File handles *)

(** What [kept_open] adds in memory mapped mode: one new handle per
    name. *)
Lemma kept_open_mapped (names : list string) : ∀ t : gmap nat string,
  t ⊆ kept_open true names t
  ∧ size (kept_open true names t) = (size t + length names)%nat
  ∧ Forall (λ name, ∃ h, t !! h = None ∧ kept_open true names t !! h = Some name)
           names.
Proof.
  induction names as [|name names IH]; intros t.
  - simpl. split; [done|]. split; [lia|constructor].
  - change (kept_open true (name :: names) t)
      with (kept_open true names (<[fresh (dom t) := name]> t)).
    assert (Hfree : t !! fresh (dom t) = None) by apply not_elem_of_dom, is_fresh.
    destruct (IH (<[fresh (dom t) := name]> t)) as (Hsub & Hsize & Hall).
    split; [etrans; [by apply insert_subseteq|exact Hsub]|].
    split; [rewrite Hsize, map_size_insert_None by done; simpl; lia|].
    constructor.
    + exists (fresh (dom t)). split; [done|].
      eapply lookup_weaken; [apply lookup_insert_eq|exact Hsub].
    + eapply Forall_impl; [exact Hall|]. intros name' (h & Hnone & Hsome).
      exists h. split; [|done].
      eapply lookup_weaken_None; [exact Hnone|by apply insert_subseteq].
Qed.

(** C2, amended: in scaled mode a call that returns has closed every
    handle it opened; when a file makes the call raise, the handles of the
    files before it are closed, and at most the handle of one named file
    (the one being read) is still open when the exception leaves the
    call.  In memory mapped mode [close] does not release the descriptor
    of a memory map that a cube still holds: a call that returns leaves
    one new handle per file named, and a call that raises leaves those of
    the files read in full and at most that of the file named next. *)
Theorem C2_handles_left_open_by_the_call (w : world) (filenames : filenames_arg) :
  let names := names_of filenames in
  let scaled := read_iris_sji_level2_fits filenames false w in
  let mapped := read_iris_sji_level2_fits filenames true w in
  match scaled.1 with
  | Ok _ => open_files scaled.2 = open_files w
  | Raise _ =>
      open_files scaled.2 = open_files w
      ∨ ∃ h filename, filename ∈ names
             ∧ open_files w !! h = None
             ∧ open_files scaled.2 = <[h := filename]> (open_files w)
  end
  ∧ match mapped.1 with
    | Ok _ =>
        open_files mapped.2 = kept_open true names (open_files w)
        ∧ size (open_files mapped.2) = (size (open_files w) + length names)%nat
        ∧ Forall (λ name, ∃ h, open_files w !! h = None
                               ∧ open_files mapped.2 !! h = Some name) names
    | Raise _ =>
        ∃ read rest,
          names = (read ++ rest)%list
          ∧ (open_files mapped.2 = kept_open true read (open_files w)
             ∨ ∃ filename, head rest = Some filename
                 ∧ open_files mapped.2
                   = <[fresh (dom (kept_open true read (open_files w))) := filename]>
                       (kept_open true read (open_files w)))
    end.
Proof.
  intros names scaled mapped. split.
  - pose proof (read_iris_sji_level2_fits_spec filenames false w) as H.
    unfold wp in H. fold scaled in H.
    destruct scaled.1; [by destruct H as (_ & ? & _)|].
    destruct H as (_ & read & rest & Hnames & [Hsame|(filename & Hhead & Hopen)]);
      [by left|].
    right. exists (fresh (dom (open_files w))), filename.
    split; [|split; [apply not_elem_of_dom, is_fresh|exact Hopen]].
    subst names. rewrite Hnames. destruct rest as [|name rest]; [discriminate|].
    injection Hhead as ->. apply elem_of_app. right. apply list_elem_of_here.
  - pose proof (read_iris_sji_level2_fits_spec filenames true w) as H.
    unfold wp in H. fold mapped in H.
    destruct mapped.1; [|by destruct H as (_ & ?)].
    destruct H as (_ & Hopen & _). split; [done|]. rewrite Hopen.
    by destruct (kept_open_mapped names (open_files w)) as (_ & ? & ?).
Qed.

(** ** One cube or a sequence *)

(** C8: a call that returns gives a single cube when it was given exactly
    one name, as a bare string or as a list of one string (the two calls
    are the same computation), and a sequence with as many cubes as names
    when it was given two names or more. *)
Theorem C8_one_name_a_cube_more_names_a_sequence (w : world)
    (filenames : filenames_arg) (memmap : bool) (v : ingested) (w' : world) :
  read_iris_sji_level2_fits filenames memmap w = (Ok v, w') →
  (length (names_of filenames) = 1%nat →
     ∃ c cube, v = Cube c ∧ heap w' !! c = Some (OCube cube))
  ∧ ((2 ≤ length (names_of filenames))%nat →
     ∃ s, v = Sequence s
          ∧ length (IRISMapCubeSequence.data s) = length (names_of filenames))
  ∧ (∀ name, read_iris_sji_level2_fits (OneName name) memmap w
             = read_iris_sji_level2_fits (Names [name]) memmap w).
Proof.
  intros Hrun.
  pose proof (read_iris_sji_level2_fits_spec filenames memmap w) as H.
  apply (wp_run _ _ _ _ _ H) in Hrun as (_ & _ & cubes & Hall & Hv).
  pose proof (Forall2_length _ _ _ Hall) as Hlen.
  split; [|split; [|reflexivity]].
  - intros Hone. destruct v as [c|s].
    + subst cubes. inversion Hall as [|name c' names cs (file & _ & cube & Hc & _)]; subst.
      by exists c, cube.
    + destruct Hv as (Hmany & _). lia.
  - intros Hmany. destruct v as [c|s].
    + subst cubes. simpl in Hlen. lia.
    + destruct Hv as (_ & <- & _). by exists s.
Qed.

(** ** The metadata of a sequence *)

(** C10: when a call returns a sequence, the metadata of the sequence are
    the metadata extracted from the last file named, whatever the other
    files hold, and every member cube carries the metadata extracted from
    its own file. *)
Theorem C10_sequence_metadata_is_last_file_metadata (w : world)
    (filenames : filenames_arg) (memmap : bool) (s : IRISMapCubeSequence.t)
    (w' : world) :
  read_iris_sji_level2_fits filenames memmap w = (Ok (Sequence s), w') →
  (2 ≤ length (names_of filenames))%nat
  ∧ (∃ name file m,
       last (names_of filenames) = Some name
       ∧ files w !! name = Some file
       ∧ extract_meta (primary_header file) (shape (primary_data file)) = Ok m
       ∧ IRISMapCubeSequence.meta s = Some m)
  ∧ Forall2 (λ name c, ∃ file cube,
       files w !! name = Some file
       ∧ heap w' !! c = Some (OCube cube)
       ∧ extract_meta (primary_header file) (shape (primary_data file))
         = Ok (IRISMapCube.meta cube))
      (names_of filenames) (IRISMapCubeSequence.data s).
Proof.
  intros Hrun.
  pose proof (read_iris_sji_level2_fits_spec filenames memmap w) as H.
  apply (wp_run _ _ _ _ _ H) in Hrun
    as (_ & _ & cubes & Hall & Hmany & Hs & c & cube & Hlast & Hc & Hmeta).
  split; [by rewrite (Forall2_length _ _ _ Hall)|]. split.
  - destruct (Forall2_last _ _ _ _ Hall Hlast)
      as (name & Hname & file & Hfile & cube' & Hc' & Hextract & _).
    assert (cube' = cube) as -> by congruence.
    exists name, file, (IRISMapCube.meta cube). done.
  - rewrite Hs. eapply Forall2_impl; [exact Hall|].
    intros name c' (file & Hfile & cube' & Hc' & Hextract & _). by exists file, cube'.
Qed.

(** ** Bad pixels and uncertainty *)

Lemma zip_with_map_r {A B C} (f : A → B → C) (g : A → B) (l : list A) :
  zip_with f l (map g l) = map (λ x, f x (g x)) l.
Proof. induction l as [|x l IH]; simpl; [done|by rewrite IH]. Qed.

(** The cleaned samples: NaN where the sample equalled the bad pixel
    value, the sample itself elsewhere. *)
Lemma cleaned_flat (a : ndarray float) :
  flat (cleaned a)
  = map (λ x, if SFeqb x BAD_PIXEL_VALUE_SCALED then nan else x) (flat a).
Proof. unfold cleaned, setitem, array_eq. simpl. apply zip_with_map_r. Qed.

Lemma SFeqb_nan_l (y : float) : SFeqb nan y = false.
Proof. by destruct y. Qed.

(** The mask is computed from the cleaned samples, where no sample equals
    the bad pixel value any more: it is false everywhere. *)
Lemma mask_of_cleaned_is_all_false (a : ndarray float) :
  flat (array_eq (cleaned a) BAD_PIXEL_VALUE_SCALED) = map (λ _, false) (flat a).
Proof.
  unfold array_eq. cbn [flat]. rewrite cleaned_flat, map_map. apply map_ext.
  intros x. destruct (SFeqb x BAD_PIXEL_VALUE_SCALED) eqn:Hx; [apply SFeqb_nan_l|exact Hx].
Qed.

(** In scaled mode the mask of every cube read marks no pixel at all. *)
Lemma scaled_reader_mask_marks_nothing (w : world) (filenames : filenames_arg)
    (v : ingested) (w' : world) :
  read_iris_sji_level2_fits filenames false w = (Ok v, w') →
  Forall (λ c, ∃ cube lm m,
            heap w' !! c = Some (OCube cube)
            ∧ IRISMapCube.mask cube = Some lm
            ∧ heap w' !! lm = Some (OMask m)
            ∧ Forall (λ b, b = false) (flat m)) (cubes_of v).
Proof.
  intros Hrun.
  pose proof (read_iris_sji_level2_fits_spec filenames false w) as H.
  apply (wp_run _ _ _ _ _ H) in Hrun as (_ & _ & cubes & Hall & Hv).
  assert (cubes_of v = cubes) as ->.
  { destruct v as [c|s]; simpl; [done|by destruct Hv as (_ & ? & _)]. }
  apply Forall_forall. intros c [i Hi]%list_elem_of_lookup.
  destruct (Forall2_lookup_r _ _ _ _ _ Hall Hi)
    as (name & _ & file & _ & cube & Hc & _ & _ & Hprod).
  destruct (Hprod eq_refl) as (_ & lm & lu & Hm & Hlm & _).
  eexists cube, lm, _. split; [done|]. split; [done|]. split; [exact Hlm|].
  rewrite mask_of_cleaned_is_all_false. apply Forall_forall.
  intros b Hb. apply list_elem_of_In, in_map_iff in Hb as (? & ? & _). done.
Qed.

Lemma photon_noise_nan (r : float) : photon_noise r nan = nan.
Proof.
  unfold photon_noise, from_photon, to_photon.
  assert (Hmul : ∀ x, SFmul prec emax x nan = nan) by (by intros []).
  rewrite Hmul. simpl. apply Hmul.
Qed.

(** C9: in scaled mode, for every file named, the uncertainty array of
    the cube read from it has the shape of the samples of the file; at
    every pixel, with [x] the cleaned sample there (NaN for a bad pixel,
    the sample of the file otherwise), it holds the square root of [x]
    in photons plus the square of the readout noise in photons,
    converted back to data numbers; where the cleaned sample is NaN the
    uncertainty is NaN. *)
Theorem C9_uncertainty_is_photon_noise (w : world) (filenames : filenames_arg)
    (v : ingested) (w' : world) :
  read_iris_sji_level2_fits filenames false w = (Ok v, w') →
  Forall2 (λ name c, ∃ file cube d lu u,
             files w !! name = Some file
             ∧ heap w' !! c = Some (OCube cube)
             ∧ heap w' !! IRISMapCube.data cube = Some (OArray d)
             ∧ IRISMapCube.uncertainty cube = Some lu
             ∧ heap w' !! lu = Some (OArray u)
             ∧ shape u = shape (primary_data file)
             ∧ length (flat u) = length (flat (primary_data file))
             ∧ ∀ i sample, flat (primary_data file) !! i = Some sample →
                 let x := if SFeqb sample BAD_PIXEL_VALUE_SCALED
                          then nan else sample in
                 flat d !! i = Some x
                 ∧ flat u !! i = Some (photon_noise READOUT_NOISE_SJI x)
                 ∧ (isnan x = true → flat u !! i = Some nan))
          (names_of filenames) (cubes_of v).
Proof.
  intros Hrun. apply read_cubes in Hrun as [Hall _].
  eapply Forall2_impl; [exact Hall|].
  intros name c (file & Hfile & _ & wcs & coords & meta & missing & ld & _
                 & lm & lu & Hd & _ & Hu & Hc & _).
  eexists file, _, _, lu, _. split; [done|]. split; [exact Hc|].
  cbn [IRISMapCube.data IRISMapCube.uncertainty].
  split; [exact Hd|]. split; [done|]. split; [exact Hu|]. cbn [shape flat].
  split; [done|]. split; [by rewrite length_map, cleaned_flat, length_map|].
  intros i sample Hsample.
  set (x := if SFeqb sample BAD_PIXEL_VALUE_SCALED then nan else sample).
  assert (Hx : flat (cleaned (primary_data file)) !! i = Some x).
  { rewrite cleaned_flat.
    change (map ?f ?l) with (f <$> l). by rewrite list_lookup_fmap, Hsample. }
  assert (Hk : map (photon_noise READOUT_NOISE_SJI)
                  (flat (cleaned (primary_data file))) !! i
               = Some (photon_noise READOUT_NOISE_SJI x)).
  { change (map ?f ?l) with (f <$> l).
    by rewrite list_lookup_fmap, Hx. }
  split; [exact Hx|]. split; [exact Hk|]. intros Hnan.
  destruct x; try discriminate. by rewrite Hk, photon_noise_nan.
Qed.

(** ** The correction does return *)

Lemma is_ok_Ok {A} (r : result A) : is_ok r = true → ∃ a, r = Ok a.
Proof. destruct r; [eauto|discriminate]. Qed.

Lemma broadcast_frames (op : float → float → float) (a : ndarray float)
    (xs : list float) (rest : list nat) :
  shape a = length xs :: rest →
  broadcast op a (ExpArray (NDArray (length xs :: repeat 1 (length rest)) xs))
  = Ok (NDArray (length xs :: rest)
          (imap (λ k v, op v (nth (k / list_prod rest) xs nan)) (flat a))).
Proof.
  intros Hshape. unfold broadcast. rewrite Hshape. cbn [shape flat].
  rewrite bool_decide_eq_true_2 by done. by rewrite Nat.eqb_refl.
Qed.

(** Either helper of [iris_tools], run on two arrays of the shape of the
    samples, returns. *)
Lemma wp_correction (undo force : bool) w ld lu a s u xs rest Q :
  heap w !! ld = Some (OArray a) →
  heap w !! lu = Some (OArray s) →
  shape a = length xs :: rest →
  shape s = shape a →
  (∀ arrays unit' w' d, grows w w' → open_files w' = open_files w →
     heap w' !! arrays.1 = Some (OArray d) → shape d = (length xs :: rest)%list →
     Q (Ok (arrays, unit')) w') →
  wp (if undo then
        uncalculate_exposure_time_correction (ld, lu) (Some u)
          (ExpArray (NDArray (length xs :: repeat 1 (length rest)) xs)) force
      else
        calculate_exposure_time_correction (ld, lu) (Some u)
          (ExpArray (NDArray (length xs :: repeat 1 (length rest)) xs)) force)
     w Q.
Proof.
  intros Hd Hu Ha Hs HQ.
  assert (Hstep : ∀ op unit',
    wp (d ← get_array ld;
        d' ← lift (broadcast op d
                     (ExpArray (NDArray (length xs :: repeat 1 (length rest)) xs)));
        new_data ← alloc (OArray d');
        s0 ← get_array lu;
        s' ← lift (broadcast op s0
                     (ExpArray (NDArray (length xs :: repeat 1 (length rest)) xs)));
        new_uncertainty ← alloc (OArray s');
        mret ((new_data, new_uncertainty), unit')) w Q).
  { intros op unit'.
    eapply wp_bind_get_array; [exact Hd|].
    eapply wp_bind_run; [unfold lift; by rewrite (broadcast_frames op a xs rest Ha)|].
    apply wp_bind_alloc.
    eapply wp_bind_get_array; [by apply lookup_fresh_insert|].
    eapply wp_bind_run.
    { unfold lift. rewrite (broadcast_frames op s xs rest) by congruence. done. }
    apply wp_bind_alloc. apply wp_ret. eapply HQ; [|done| |].
    - split; [done|]. simpl. heap_sub.
    - simpl. heap_look.
    - reflexivity. }
  destruct undo; simpl;
    [unfold uncalculate_exposure_time_correction
    |unfold calculate_exposure_time_correction];
    (match goal with |- wp (if ?b then _ else _) _ _ => destruct b end;
     [eapply wp_ret, HQ; [apply grows_refl|done|exact Hd|exact Ha] | apply Hstep]).
Qed.

(** A scaled cube as the reader builds it (a vector of exposure times,
    one per frame, samples of 1, 2 or 3 dimensions, an uncertainty of the
    shape of the samples, a unit) is corrected when its coordinates pass
    the check of the constructor once more: the call returns a cube. *)
Lemma correction_returns (w : world) (self : loc) (cube : IRISMapCube.t)
    (axis : option nat) (xs : list float) (a s : ndarray float) (lu : loc)
    (u : Unit) (rest : list nat) (undo force : bool) :
  heap w !! self = Some (OCube cube) →
  IRISMapCube.scaled cube = Some true →
  IRISMapCube.extra_coords cube !! "EXPOSURE TIME" = Some (axis, CArray xs) →
  heap w !! IRISMapCube.data cube = Some (OArray a) →
  shape a = length xs :: rest →
  (length rest ≤ 2)%nat →
  IRISMapCube.uncertainty cube = Some lu →
  heap w !! lu = Some (OArray s) →
  shape s = shape a →
  IRISMapCube.unit cube = Some u →
  is_ok (NDCube_missing_axis (length xs :: rest) (IRISMapCube.wcs cube)
           (IRISMapCube.missing_axis cube)
           (convert_extra_coords_dict_to_input_format
              (IRISMapCube.extra_coords cube))) = true →
  ∃ new, (apply_exposure_time_correction self undo force w).1 = Ok new.
Proof.
  intros Hself Hscaled Hcoord Hd Ha Hrank Hlu Hs Hss Hunit Hcheck.
  change (wp (apply_exposure_time_correction self undo force) w
            (λ r _, ∃ new, r = Ok new)).
  unfold apply_exposure_time_correction.
  apply wp_bind. apply (wp_get_cube self w cube); [done|]. rewrite Hscaled. simpl.
  apply (wp_bind_run _ _ _
           (ExpArray (NDArray (length xs :: repeat 1 (length rest)) xs)) w).
  { rewrite (exposure_time_of_vector w cube axis (CArray xs) xs a) by done.
    unfold ndim. rewrite Ha. simpl.
    destruct rest as [|? [|? [|? ?]]]; simpl in *; try reflexivity; lia. }
  rewrite Hlu, Hunit.
  eapply wp_bind_run; [reflexivity|].
  apply wp_bind. apply (wp_correction undo force w _ lu a s u xs rest); try done.
  intros arrays unit' w' d _ _ Hnew Hshape.
  apply is_ok_Ok in Hcheck as [missing Hcheck].
  change (wp (IRISMapCube__init__ arrays.1 (IRISMapCube.wcs cube) (Some arrays.2)
                (Some unit') (Some (IRISMapCube.meta cube)) (IRISMapCube.mask cube)
                (Some (convert_extra_coords_dict_to_input_format
                         (IRISMapCube.extra_coords cube)))
                (IRISMapCube.missing_axis cube) None)
             w' (λ r _, ∃ new, r = Ok new)).
  unfold IRISMapCube__init__.
  eapply wp_bind_get_array; [exact Hnew|]. rewrite Hshape.
  eapply wp_bind_run; [unfold lift; cbn [default from_option id]; by rewrite Hcheck|].
  unfold wp, alloc. simpl. eauto.
Qed.

(** ** The reader does return *)

(** The metadata extracted from a header hold its observation id. *)
Lemma extract_meta_obsid (h : header) (data_shape : list nat) (m : dict) :
  extract_meta h data_shape = Ok m → m !! "OBSID" = Some (header_get h "OBSID").
Proof.
  unfold extract_meta, mbind, result_bind.
  destruct (optional_time h "STARTOBS"); [|discriminate].
  destruct (optional_time h "ENDOBS"); [|discriminate].
  destruct data_shape; [discriminate|]. intros [= <-].
  rewrite lookup_insert_ne by done. apply lookup_insert_eq.
Qed.

Lemma cube_of_file_obsid memmap w file c cube :
  cube_of_file memmap w file c →
  heap w !! c = Some (OCube cube) →
  IRISMapCube.meta cube !! "OBSID" = Some (file_obsid file).
Proof.
  intros (cube' & Hc' & Hmeta & _) Hc. assert (cube' = cube) as -> by congruence.
  by apply extract_meta_obsid in Hmeta.
Qed.

(** The cubes read from files of one observation id. *)
Lemma cubes_of_one_observation memmap w w1 names news first :
  Forall2 (λ name c, ∃ file, files w !! name = Some file
                             ∧ cube_of_file memmap w1 file c) names news →
  Forall (λ name, ∀ file, files w !! name = Some file →
            py_ne (file_obsid file) (file_obsid first) = false) names →
  ∃ cs, Forall2 (λ l c, heap w1 !! l = Some (OCube c)) news cs
        ∧ Forall (λ c, is_Some (IRISMapCube.meta c !! "OBSID")) cs
        ∧ Forall (λ c, py_ne (OBSID_of c) (file_obsid first) = false) cs.
Proof.
  intros Hall. induction Hall as [|name c names news (file & Hfile & Hcube) _ IH];
    intros Hobsid.
  - exists []. by repeat constructor.
  - apply Forall_cons in Hobsid as [Hname Hobsid].
    destruct (IH Hobsid) as (cs & Hcs & Hids & Hsame).
    pose proof Hcube as (cube & Hc & _).
    pose proof (cube_of_file_obsid _ _ _ _ _ Hcube Hc) as Hid.
    exists (cube :: cs). split; [by constructor|]. split.
    + constructor; [by rewrite Hid|done].
    + constructor; [|done]. unfold OBSID_of. rewrite Hid. simpl. by apply Hname.
Qed.

(** The call returns when every file named is readable and, for two
    names or more, no observation id differs from the first. *)
Lemma read_iris_sji_level2_fits_returns (w : world) (filenames : filenames_arg)
    (memmap : bool) (first : fits_file) :
  Forall (λ name, ∃ file, files w !! name = Some file
                    ∧ readable memmap file = true)
         (names_of filenames) →
  (∃ name, names_of filenames !! 0 = Some name ∧ files w !! name = Some first) →
  (length (names_of filenames) = 1%nat
   ∨ Forall (λ name, ∀ file, files w !! name = Some file →
               py_ne (file_obsid file) (file_obsid first) = false)
            (names_of filenames)) →
  ∃ v, (read_iris_sji_level2_fits filenames memmap w).1 = Ok v.
Proof.
  intros Hreadable (name0 & Hname0 & Hfirst) Hobsid.
  destruct (read_files_returns (names_of filenames) memmap w [] None Hreadable)
    as (cubes & meta & w1 & Hloop).
  pose proof (wp_run _ _ _ _ _
                (read_files_spec (names_of filenames) memmap w [] None) Hloop)
    as (_ & _ & news & -> & Hall & Hlast).
  unfold read_iris_sji_level2_fits. fold (names_of filenames).
  unfold mbind at 1, M_bind at 1. rewrite Hloop. simpl.
  pose proof (Forall2_length _ _ _ Hall) as Hlen.
  destruct (length (names_of filenames) =? 1)%nat eqn:Hone.
  - apply Nat.eqb_eq in Hone. rewrite Hone in Hlen.
    destruct news as [|c [|c' news']]; try discriminate. simpl. eauto.
  - apply Nat.eqb_neq in Hone. destruct Hobsid as [?|Hobsid]; [done|].
    destruct (cubes_of_one_observation _ _ _ _ _ _ Hall Hobsid)
      as (cs & Hcs & Hids & Hsame).
    destruct Hall as [|name c0 names news' (file0 & Hfile0 & Hcube0) Hall];
      [discriminate|].
    simpl in Hname0. injection Hname0 as ->.
    assert (file0 = first) as -> by congruence.
    inversion Hcs as [|? cube0 ? cs' Hc0 Hcs']; subst.
    pose proof (cube_of_file_obsid _ _ _ _ _ Hcube0 Hc0) as Hid0.
    destruct meta as [m|].
    2: { destruct (last (c0 :: news')) eqn:Hl;
           [by destruct Hlast as (? & _ & ?)|by apply last_None in Hl]. }
    unfold mbind at 1, M_bind at 1, IRISMapCubeSequence__init__ at 1.
    unfold mbind at 1, M_bind at 1.
    assert (Hrun : mapM_M (obsid_differs (c0 :: news')) (c0 :: news') w1
                   = (Ok (map (λ c, py_ne (OBSID_of c) (OBSID_of cube0))
                            (cube0 :: cs')), w1)).
    { apply (obsid_checks_run w1 (c0 :: news') c0 cube0);
        [done|done|by rewrite Hid0|done|done]. }
    rewrite Hrun.
    replace (OBSID_of cube0) with (file_obsid first)
      by (unfold OBSID_of; by rewrite Hid0).
    apply existsb_id_map_false in Hsame. rewrite Hsame. simpl. eauto.
Qed.

(** * Further properties of the reader *)

(** ** What a cube read from a file holds *)

Lemma zeroed_flat (a : ndarray float) :
  flat (zeroed a)
  = map (λ x, if SFeqb x BAD_PIXEL_VALUE_UNSCALED then float_of_Z 0 else x) (flat a).
Proof. unfold zeroed, setitem, array_eq. simpl. apply zip_with_map_r. Qed.

Ltac cube_fields :=
  cbn [IRISMapCube.data IRISMapCube.wcs IRISMapCube.uncertainty IRISMapCube.unit
       IRISMapCube.meta IRISMapCube.mask IRISMapCube.extra_coords
       IRISMapCube.missing_axis IRISMapCube.scaled].

(** X1: in memory mapped mode every cube read has no mask and no
    uncertainty, its [scaled] flag is false and its unit is the unscaled
    one; its samples are those of the file, in the same shape, with 0 in
    the place of every sample equal to -32768 and every other sample
    as it was. *)
Theorem X1_memmap_read_zeroes_bad_pixels (w : world) (filenames : filenames_arg)
    (v : ingested) (w' : world) :
  read_iris_sji_level2_fits filenames true w = (Ok v, w') →
  Forall2 (λ name c, ∃ file cube d,
             files w !! name = Some file
             ∧ heap w' !! c = Some (OCube cube)
             ∧ IRISMapCube.scaled cube = Some false
             ∧ IRISMapCube.mask cube = None
             ∧ IRISMapCube.uncertainty cube = None
             ∧ IRISMapCube.unit cube = Some DN_UNIT_SJI_UNSCALED
             ∧ heap w' !! IRISMapCube.data cube = Some (OArray d)
             ∧ shape d = shape (primary_data file)
             ∧ flat d = map (λ x, if SFeqb x BAD_PIXEL_VALUE_UNSCALED
                                  then float_of_Z 0 else x)
                            (flat (primary_data file)))
          (names_of filenames) (cubes_of v).
Proof.
  intros Hrun. apply read_cubes in Hrun as [Hall _].
  eapply Forall2_impl; [exact Hall|].
  intros name c (file & Hfile & _ & wcs & coords & meta & missing & ld & _ & Hd & Hc).
  eexists file, _, _. split; [done|]. split; [exact Hc|]. cube_fields.
  repeat (split; [done|]). apply zeroed_flat.
Qed.

(** X2: in scaled mode every cube read has its [scaled] flag true and the
    unit of scaled data; its samples are those of the file, in the same
    shape, with NaN in the place of every sample equal to -200 and every
    other sample as it was. *)
Theorem X2_scaled_read_replaces_bad_pixels_by_nan (w : world)
    (filenames : filenames_arg) (v : ingested) (w' : world) :
  read_iris_sji_level2_fits filenames false w = (Ok v, w') →
  Forall2 (λ name c, ∃ file cube d,
             files w !! name = Some file
             ∧ heap w' !! c = Some (OCube cube)
             ∧ IRISMapCube.scaled cube = Some true
             ∧ IRISMapCube.unit cube = Some DN_UNIT_SJI
             ∧ heap w' !! IRISMapCube.data cube = Some (OArray d)
             ∧ shape d = shape (primary_data file)
             ∧ flat d = map (λ x, if SFeqb x BAD_PIXEL_VALUE_SCALED
                                  then nan else x)
                            (flat (primary_data file)))
          (names_of filenames) (cubes_of v).
Proof.
  intros Hrun. apply read_cubes in Hrun as [Hall _].
  eapply Forall2_impl; [exact Hall|].
  intros name c (file & Hfile & _ & wcs & coords & meta & missing & ld & _ & lm & lu
                 & Hd & _ & _ & Hc & _).
  eexists file, _, _. split; [done|]. split; [exact Hc|]. cube_fields.
  repeat (split; [done|]). apply cleaned_flat.
Qed.

(** X3: in scaled mode the mask and the uncertainty of every cube read
    are arrays of their own (three different objects with the samples),
    of the shape of the samples and with as many elements. *)
Theorem X3_scaled_read_arrays_are_co_shaped (w : world)
    (filenames : filenames_arg) (v : ingested) (w' : world) :
  read_iris_sji_level2_fits filenames false w = (Ok v, w') →
  Forall (λ c, ∃ cube d lm m lu u,
            heap w' !! c = Some (OCube cube)
            ∧ heap w' !! IRISMapCube.data cube = Some (OArray d)
            ∧ IRISMapCube.mask cube = Some lm
            ∧ heap w' !! lm = Some (OMask m)
            ∧ IRISMapCube.uncertainty cube = Some lu
            ∧ heap w' !! lu = Some (OArray u)
            ∧ shape m = shape d ∧ shape u = shape d
            ∧ length (flat m) = length (flat d)
            ∧ length (flat u) = length (flat d)
            ∧ lm ≠ IRISMapCube.data cube ∧ lu ≠ IRISMapCube.data cube ∧ lm ≠ lu)
         (cubes_of v).
Proof.
  intros Hrun. apply read_cubes in Hrun as [Hall _].
  apply Forall_forall. intros c [i Hi]%list_elem_of_lookup.
  destruct (Forall2_lookup_r _ _ _ _ _ Hall Hi)
    as (name & _ & file & _ & _ & wcs & coords & meta & missing & ld & _ & lm & lu
        & Hd & Hm & Hu & Hc & Hne).
  eexists _, _, lm, _, lu, _. split; [exact Hc|]. cube_fields.
  split; [exact Hd|]. split; [done|]. split; [exact Hm|]. split; [done|].
  split; [exact Hu|]. split; [done|]. split; [done|].
  split; [cbn [flat array_eq]; apply length_map|].
  split; [cbn [flat]; apply length_map|].
  split; [intros ->; congruence|]. split; [done|]. intros ->; congruence.
Qed.

(** X11: the cubes of a call that returns are new objects: their
    locations were free before the call, hold cubes after it, and no two
    of them are the same, also when a name is given twice. *)
Theorem X11_cubes_read_are_new_and_distinct (w : world)
    (filenames : filenames_arg) (memmap : bool) (v : ingested) (w' : world) :
  read_iris_sji_level2_fits filenames memmap w = (Ok v, w') →
  NoDup (cubes_of v)
  ∧ Forall (λ c, heap w !! c = None ∧ ∃ cube, heap w' !! c = Some (OCube cube))
           (cubes_of v).
Proof.
  intros Hrun. apply read_cubes in Hrun as [Hall Hnodup]. split; [done|].
  apply Forall_forall. intros c [i Hi]%list_elem_of_lookup.
  destruct (Forall2_lookup_r _ _ _ _ _ Hall Hi)
    as (name & _ & file & _ & Hfree & wcs & coords & meta & missing & ld & _ & Hcube).
  split; [done|]. destruct memmap.
  - destruct Hcube as [_ Hc]. eauto.
  - destruct Hcube as (lm & lu & _ & _ & _ & Hc & _). eauto.
Qed.

(** X12: a call, whether it returns or raises, leaves the files as they
    are and every object that was in the world untouched. *)
Theorem X12_reader_leaves_the_world_it_found (w : world)
    (filenames : filenames_arg) (memmap : bool) :
  let run := read_iris_sji_level2_fits filenames memmap w in
  files run.2 = files w
  ∧ ∀ l o, heap w !! l = Some o → heap run.2 !! l = Some o.
Proof.
  intros run.
  pose proof (read_iris_sji_level2_fits_spec filenames memmap w) as H.
  unfold wp in H. fold run in H. destruct H as ([Hfiles Hheap] & _).
  split; [done|]. intros l o Hl. by eapply lookup_weaken.
Qed.

(** ** Coordinates and metadata of a cube read from a file *)

Lemma mapR_length {A B} (f : A → result B) (l : list A) (l' : list B) :
  mapR f l = Ok l' → length l' = length l.
Proof.
  revert l'. induction l as [|x l IH]; intros l'; simpl.
  - by intros [= <-].
  - unfold mbind, result_bind. destruct (f x); [|discriminate].
    destruct (mapR f l) as [ys|]; [|discriminate]. intros [= <-].
    simpl. by rewrite (IH ys).
Qed.

Lemma column_length (t : table) (k : hval) (col : list float) :
  column t k = Ok col → length col = length (rows t).
Proof.
  unfold column. destruct k as [|z|]; try discriminate.
  repeat case_match; intros [= <-]; apply length_map.
Qed.

Lemma aux_column_Ok (hdulist : HDUList) (key : string) (col : list float) :
  aux_column hdulist key = Ok col →
  ∃ ext k, hdu1 hdulist = Ok ext ∧ ext.1 !! key = Some k
           ∧ column ext.2 k = Ok col ∧ length col = length (rows ext.2).
Proof.
  unfold aux_column, mbind, result_bind, getitem.
  destruct (hdu1 hdulist) as [ext|]; [|discriminate].
  destruct (ext.1 !! key) as [k|] eqn:Hk; [|discriminate]. intros Hcol.
  exists ext, k. split; [done|]. split; [done|]. split; [done|].
  by eapply column_length.
Qed.

(** The extra coordinates read from a file: eight of them, all along
    axis 0, each with one value per row of the auxiliary table. *)
Lemma read_extra_coords_Ok (hdulist : HDUList) (coords : list coord_input) :
  read_extra_coords hdulist = Ok coords →
  ∃ ext exposure_times times pztx pzty xcenix ycenix obs_vrix ophaseix,
    hdu1 hdulist = Ok ext
    ∧ aux_column hdulist "EXPTIMES" = Ok exposure_times
    ∧ coords = [("TIME", Some 0%nat, CTimes times);
                ("PZTX", Some 0%nat, CQuantity pztx arcsec);
                ("PZTY", Some 0%nat, CQuantity pzty arcsec);
                ("XCENIX", Some 0%nat, CQuantity xcenix arcsec);
                ("YCENIX", Some 0%nat, CQuantity ycenix arcsec);
                ("OBS_VRIX", Some 0%nat, CQuantity obs_vrix m_per_s);
                ("OPHASEIX", Some 0%nat, CArray ophaseix);
                ("EXPOSURE TIME", Some 0%nat, CArray exposure_times)]
    ∧ Forall (λ c : coord_input, coord_size c.2 = length (rows ext.2)) coords.
Proof.
  unfold read_extra_coords. unfold mbind at 1, result_bind at 1.
  destruct (aux_column hdulist "EXPTIMES") as [exposure_times|] eqn:H1; [|discriminate].
  unfold mbind at 1, result_bind at 1.
  destruct (aux_column hdulist "TIME") as [seconds|] eqn:H2; [|discriminate].
  unfold mbind at 1, result_bind at 1.
  destruct (mapR _ seconds) as [times|] eqn:H3; [|discriminate].
  unfold mbind at 1, result_bind at 1.
  destruct (aux_column hdulist "PZTX") as [pztx|] eqn:H4; [|discriminate].
  unfold mbind at 1, result_bind at 1.
  destruct (aux_column hdulist "PZTY") as [pzty|] eqn:H5; [|discriminate].
  unfold mbind at 1, result_bind at 1.
  destruct (aux_column hdulist "XCENIX") as [xcenix|] eqn:H6; [|discriminate].
  unfold mbind at 1, result_bind at 1.
  destruct (aux_column hdulist "YCENIX") as [ycenix|] eqn:H7; [|discriminate].
  unfold mbind at 1, result_bind at 1.
  destruct (aux_column hdulist "OBS_VRIX") as [obs_vrix|] eqn:H8; [|discriminate].
  unfold mbind at 1, result_bind at 1.
  destruct (aux_column hdulist "OPHASEIX") as [ophaseix|] eqn:H9; [|discriminate].
  intros [= <-].
  apply mapR_length in H3.
  apply aux_column_Ok in H2 as (ext & k2 & Hext & _ & _ & L2).
  pose proof H1 as H1'.
  apply aux_column_Ok in H1' as (ext1 & ? & Hext1 & _ & _ & L1).
  apply aux_column_Ok in H4 as (ext4 & ? & Hext4 & _ & _ & L4).
  apply aux_column_Ok in H5 as (ext5 & ? & Hext5 & _ & _ & L5).
  apply aux_column_Ok in H6 as (ext6 & ? & Hext6 & _ & _ & L6).
  apply aux_column_Ok in H7 as (ext7 & ? & Hext7 & _ & _ & L7).
  apply aux_column_Ok in H8 as (ext8 & ? & Hext8 & _ & _ & L8).
  apply aux_column_Ok in H9 as (ext9 & ? & Hext9 & _ & _ & L9).
  assert (ext1 = ext) as -> by congruence. assert (ext4 = ext) as -> by congruence.
  assert (ext5 = ext) as -> by congruence. assert (ext6 = ext) as -> by congruence.
  assert (ext7 = ext) as -> by congruence. assert (ext8 = ext) as -> by congruence.
  assert (ext9 = ext) as -> by congruence.
  exists ext, exposure_times, times, pztx, pzty, xcenix, ycenix, obs_vrix, ophaseix.
  split; [done|]. split; [done|]. split; [done|].
  repeat (apply Forall_cons_2; [cbn [snd coord_size]; unfold datetime in *; lia|]).
  apply Forall_nil_2.
Qed.

(** X4: every cube read from a file has exactly the eight extra
    coordinates [TIME], [PZTX], [PZTY], [XCENIX], [YCENIX], [OBS_VRIX],
    [OPHASEIX] and [EXPOSURE TIME]; each lies along axis 0 and has one
    value per row of the auxiliary table; the exposure times are the bare
    numbers of the column that the card [EXPTIMES] names. *)
Theorem X4_cube_read_has_eight_frame_coordinates (w : world)
    (filenames : filenames_arg) (memmap : bool) (v : ingested) (w' : world) :
  read_iris_sji_level2_fits filenames memmap w = (Ok v, w') →
  Forall2 (λ name c, ∃ file cube hdr t k exposure_times,
             files w !! name = Some file
             ∧ heap w' !! c = Some (OCube cube)
             ∧ head (extensions file) = Some (hdr, t)
             ∧ hdr !! "EXPTIMES" = Some k
             ∧ column t k = Ok exposure_times
             ∧ IRISMapCube.extra_coords cube !! "EXPOSURE TIME"
               = Some (Some 0%nat, CArray exposure_times)
             ∧ dom (IRISMapCube.extra_coords cube) = list_to_set coordinate_names
             ∧ ∀ coord axis value,
                 IRISMapCube.extra_coords cube !! coord = Some (axis, value) →
                 axis = Some 0%nat ∧ coord_size value = length (rows t))
          (names_of filenames) (cubes_of v).
Proof.
  intros Hrun. apply read_cubes in Hrun as [Hall _].
  eapply Forall2_impl; [exact Hall|].
  intros name c (file & Hfile & _ & wcs & coords & meta & missing & ld & Hout & Hcube).
  apply file_outcome_Ok in Hout as (_ & _ & Hcoords & _ & _).
  apply read_extra_coords_Ok in Hcoords
    as (ext & exposure_times & times & pztx & pzty & xcenix & ycenix & obs_vrix
        & ophaseix & Hext & Hexp & -> & Hsizes).
  apply aux_column_Ok in Hexp as (ext' & k & Hext' & Hk & Hcol & _).
  assert (ext' = ext) as -> by congruence.
  unfold hdu1 in Hext. cbn [hdus] in Hext.
  destruct (extensions file) as [|[hdr t] exts] eqn:Hexts; [discriminate|].
  injection Hext as <-. cbn [fst snd] in *.
  assert (Hc : ∃ cube, heap w' !! c = Some (OCube cube)
            ∧ IRISMapCube.extra_coords cube = coords_dict
                [("TIME", Some 0%nat, CTimes times);
                 ("PZTX", Some 0%nat, CQuantity pztx arcsec);
                 ("PZTY", Some 0%nat, CQuantity pzty arcsec);
                 ("XCENIX", Some 0%nat, CQuantity xcenix arcsec);
                 ("YCENIX", Some 0%nat, CQuantity ycenix arcsec);
                 ("OBS_VRIX", Some 0%nat, CQuantity obs_vrix m_per_s);
                 ("OPHASEIX", Some 0%nat, CArray ophaseix);
                 ("EXPOSURE TIME", Some 0%nat, CArray exposure_times)]).
  { destruct memmap.
    - destruct Hcube as [_ Hc]. eauto.
    - destruct Hcube as (lm & lu & _ & _ & _ & Hc & _). eauto. }
  destruct Hc as (cube & Hc & Hdict).
  exists file, cube, hdr, t, k, exposure_times.
  split; [done|]. split; [done|]. split; [by rewrite Hexts|]. split; [done|].
  split; [done|]. rewrite Hdict. unfold coords_dict. cbn [foldl fst snd].
  split; [apply lookup_insert_eq|]. split.
  - rewrite !dom_insert_L, dom_empty_L. unfold coordinate_names. simpl. set_solver.
  - intros coord axis value Hlook.
    repeat (apply lookup_insert_Some in Hlook as [[_ [= <- <-]]|[_ Hlook]];
            [split; [done|];
             repeat (apply Forall_cons in Hsizes as [? Hsizes]); simpl in *; done|]).
    by rewrite lookup_empty in Hlook.
Qed.

Lemma extract_meta_Ok (h : header) (data_shape : list nat) (m : dict) :
  extract_meta h data_shape = Ok m →
  ∃ startobs endobs n rest,
    optional_time h "STARTOBS" = Ok startobs
    ∧ optional_time h "ENDOBS" = Ok endobs
    ∧ data_shape = n :: rest
    ∧ m = <["OBS_DESC" := header_get h "OBS_DESC"]>
         (<["OBSID" := header_get h "OBSID"]>
         (<["NBFRAMES" := PVal (HInt (Z.of_nat n))]>
         (<["ENDOBS" := endobs]>
         (<["STARTOBS" := startobs]>
         (<["TWAVE1" := header_get h "TWAVE1"]>
         (<["INSTRUME" := header_get h "INSTRUME"]>
         (<["TELESCOP" := header_get h "TELESCOP"]> ∅))))))).
Proof.
  unfold extract_meta, mbind, result_bind.
  destruct (optional_time h "STARTOBS") as [startobs|]; [|discriminate].
  destruct (optional_time h "ENDOBS") as [endobs|]; [|discriminate].
  destruct data_shape as [|n rest]; [discriminate|]. intros [= <-].
  by exists startobs, endobs, n, rest.
Qed.

(** X5: the metadata of every cube read from a file have exactly the
    eight keys [TELESCOP], [INSTRUME], [TWAVE1], [STARTOBS], [ENDOBS],
    [NBFRAMES], [OBSID] and [OBS_DESC]; [NBFRAMES] is the first dimension
    of the primary array, and [TELESCOP], [INSTRUME], [TWAVE1], [OBSID]
    and [OBS_DESC] are the cards of the primary header, [None] for a card
    that the header does not have. *)
Theorem X5_cube_read_has_eight_metadata (w : world) (filenames : filenames_arg)
    (memmap : bool) (v : ingested) (w' : world) :
  read_iris_sji_level2_fits filenames memmap w = (Ok v, w') →
  Forall2 (λ name c, ∃ file cube n rest,
             files w !! name = Some file
             ∧ heap w' !! c = Some (OCube cube)
             ∧ dom (IRISMapCube.meta cube) = list_to_set meta_keys
             ∧ shape (primary_data file) = n :: rest
             ∧ IRISMapCube.meta cube !! "NBFRAMES" = Some (PVal (HInt (Z.of_nat n)))
             ∧ Forall (λ key, IRISMapCube.meta cube !! key
                              = Some (match primary_header file !! key with
                                      | Some card => PVal card
                                      | None => PNone
                                      end))
                      ["TELESCOP"; "INSTRUME"; "TWAVE1"; "OBSID"; "OBS_DESC"])
          (names_of filenames) (cubes_of v).
Proof.
  intros Hrun. apply read_cubes in Hrun as [Hall _].
  eapply Forall2_impl; [exact Hall|].
  intros name c (file & Hfile & _ & wcs & coords & meta & missing & ld & Hout & Hcube).
  apply file_outcome_Ok in Hout as (_ & _ & _ & Hmeta & _).
  apply extract_meta_Ok in Hmeta as (startobs & endobs & n & rest & _ & _ & Hshape & ->).
  assert (Hc : ∃ cube, heap w' !! c = Some (OCube cube)
            ∧ IRISMapCube.meta cube
              = <["OBS_DESC" := header_get (primary_header file) "OBS_DESC"]>
                (<["OBSID" := header_get (primary_header file) "OBSID"]>
                (<["NBFRAMES" := PVal (HInt (Z.of_nat n))]>
                (<["ENDOBS" := endobs]>
                (<["STARTOBS" := startobs]>
                (<["TWAVE1" := header_get (primary_header file) "TWAVE1"]>
                (<["INSTRUME" := header_get (primary_header file) "INSTRUME"]>
                (<["TELESCOP" := header_get (primary_header file) "TELESCOP"]> ∅)))))))).
  { destruct memmap.
    - destruct Hcube as [_ Hc]. eauto.
    - destruct Hcube as (lm & lu & _ & _ & _ & Hc & _). eauto. }
  destruct Hc as (cube & Hc & Hdict).
  exists file, cube, n, rest. split; [done|]. split; [done|]. rewrite Hdict. split.
  { rewrite !dom_insert_L, dom_empty_L. unfold meta_keys. simpl. set_solver. }
  split; [done|]. split.
  { by rewrite !lookup_insert_ne, lookup_insert_eq by done. }
  unfold header_get.
  repeat (apply Forall_cons_2;
    [by rewrite ?lookup_insert_ne, lookup_insert_eq by done|]).
  apply Forall_nil_2.
Qed.

(** X6: a primary header without the cards [STARTOBS] and [ENDOBS], or
    with cards that count as false (an empty string), still gives
    metadata: both entries are [None], and the time parser is not asked,
    so it cannot make the extraction fail. *)
Theorem X6_absent_time_cards_give_none (h : header) (n : nat) (rest : list nat) :
  Forall (λ key, match h !! key with
                 | Some card => truthy card = false
                 | None => True
                 end) ["STARTOBS"; "ENDOBS"] →
  ∃ m, extract_meta h (n :: rest) = Ok m
       ∧ m !! "STARTOBS" = Some PNone ∧ m !! "ENDOBS" = Some PNone.
Proof.
  intros Hcards. apply Forall_cons in Hcards as [Hstart Hcards].
  apply Forall_cons in Hcards as [Hend _].
  assert (Hopt : ∀ key, match h !! key with
                        | Some card => truthy card = false
                        | None => True
                        end → optional_time h key = Ok PNone).
  { intros key Hkey. unfold optional_time.
    destruct (h !! key); [by rewrite Hkey|done]. }
  unfold extract_meta, mbind, result_bind.
  rewrite (Hopt _ Hstart), (Hopt _ Hend). eexists. split; [done|].
  split; by rewrite ?lookup_insert_ne, lookup_insert_eq by done.
Qed.

(** ** Failures of the reader *)

Lemma read_files_app (l1 l2 : list string) (memmap : bool) :
  ∀ list_of_cubes meta w,
  read_files (l1 ++ l2) memmap list_of_cubes meta w
  = match read_files l1 memmap list_of_cubes meta w with
    | (Ok (cubes, meta'), w1) => read_files l2 memmap cubes meta' w1
    | (Raise e, w1) => (Raise e, w1)
    end.
Proof.
  induction l1 as [|name l1 IH]; intros list_of_cubes meta w; [done|].
  simpl. unfold mbind, M_bind.
  destruct (read_file name memmap w) as [[[c m]|e] w1]; [apply IH|done].
Qed.

Lemma readable_outcome (memmap : bool) (file : fits_file) :
  readable memmap file = true ↔ ∃ x, file_outcome memmap file = Ok x.
Proof.
  unfold readable. destruct (file_outcome memmap file); simpl.
  - split; eauto.
  - split; [discriminate|by intros [? ?]].
Qed.

(** The call when the files named first are readable and the next one is
    not: the loop stops there, with what the body did on that file. *)
Lemma read_stops_at (w : world) (pre post : list string) (bad : string)
    (memmap : bool) :
  Forall (λ name, ∃ file, files w !! name = Some file
                    ∧ readable memmap file = true) pre →
  ∃ w1,
    files w1 = files w
    ∧ open_files w1 = kept_open memmap pre (open_files w)
    ∧ ∀ e w2, read_file bad memmap w1 = (Raise e, w2) →
        read_iris_sji_level2_fits (Names (pre ++ bad :: post)) memmap w
        = (Raise e, w2).
Proof.
  intros Hpre.
  destruct (read_files_readable pre memmap w [] None Hpre)
    as (cubes & meta & w1 & Hrun & Hfiles & Hopen).
  exists w1. split; [done|]. split; [done|]. intros e w2 Hbad.
  unfold read_iris_sji_level2_fits. cbn [names_of].
  unfold mbind at 1, M_bind at 1. rewrite read_files_app, Hrun. simpl.
  unfold mbind at 1, M_bind at 1. by rewrite Hbad.
Qed.

(** X9: when the files named first are readable and the next file is on
    the disk but cannot be read (its WCS, the store of NaN, its auxiliary
    columns, its times, its metadata or the check of the constructor
    raise), the call raises the exception of that file, whatever names
    follow.  The handle of that file is left open, beside those that the
    files read before it leave: none in scaled mode, one each in memory
    mapped mode. *)
Theorem X9_first_unreadable_file_stops_the_call (w : world)
    (pre post : list string) (bad : string) (memmap : bool) (file : fits_file)
    (e : exn) :
  Forall (λ name, ∃ file, files w !! name = Some file
                    ∧ readable memmap file = true) pre →
  files w !! bad = Some file →
  file_outcome memmap file = Raise e →
  let run := read_iris_sji_level2_fits (Names (pre ++ bad :: post)) memmap w in
  let read := kept_open memmap pre (open_files w) in
  run.1 = Raise e
  ∧ open_files run.2 = <[fresh (dom read) := bad]> read.
Proof.
  intros Hpre Hfile Hout run read.
  destruct (read_stops_at w pre post bad memmap Hpre)
    as (w1 & Hfiles & Hopen & Hstop).
  rewrite <- Hfiles in Hfile.
  pose proof (read_file_outcome bad memmap w1 file Hfile) as Hbody.
  unfold wp in Hbody. rewrite Hout in Hbody.
  destruct (read_file bad memmap w1) as [r w2] eqn:Hbad. simpl in Hbody.
  destruct Hbody as (_ & -> & Hleak).
  subst run read. rewrite (Hstop e w2 eq_refl). simpl. by rewrite Hleak, Hopen.
Qed.

(** X10: when the files named first are readable and the next name is
    not on the disk, the call raises [FileNotFoundError] for that name,
    whatever names follow, and no handle of that name is opened: the
    handles are those that the files read before it leave, none in scaled
    mode, one each in memory mapped mode. *)
Theorem X10_missing_file_stops_the_call (w : world) (pre post : list string)
    (bad : string) (memmap : bool) :
  Forall (λ name, ∃ file, files w !! name = Some file
                    ∧ readable memmap file = true) pre →
  files w !! bad = None →
  let run := read_iris_sji_level2_fits (Names (pre ++ bad :: post)) memmap w in
  run.1 = Raise (FileNotFoundError bad)
  ∧ open_files run.2 = kept_open memmap pre (open_files w).
Proof.
  intros Hpre Hfile run.
  destruct (read_stops_at w pre post bad memmap Hpre)
    as (w1 & Hfiles & Hopen & Hstop).
  rewrite <- Hfiles in Hfile. subst run.
  by rewrite (Hstop _ _ (read_file_missing bad memmap w1 Hfile)).
Qed.

Lemma aux_column_eq h m (ph : header) l i (hdr : header) (t : table)
    (exts : list (header * table)) (key : string) (k : hval) :
  hdr !! key = Some k →
  aux_column (mkHDUList h m ph l i ((hdr, t) :: exts)) key = column t k.
Proof.
  intros Hk. unfold aux_column, hdu1, getitem. cbn [hdus mbind result_bind fst snd].
  by rewrite Hk.
Qed.

(** X7: the card [STARTOBS] is optional for the metadata but not for the
    frame times.  A file whose header has no [STARTOBS] and whose
    auxiliary table has at least one row makes the call raise
    [KeyError('STARTOBS')], unless the store of NaN has raised before it:
    in scaled mode, on a primary array of integers. *)
Theorem X7_startobs_is_needed_when_there_are_frames (w : world) (name : string)
    (memmap : bool) (file : fits_file) (wcs : wcs_t) (hdr : header) (t : table)
    (exts : list (header * table)) (k1 k2 : hval) (exposure_times : list float)
    (s : float) (seconds : list float) :
  files w !! name = Some file →
  WCS (primary_header file) = Ok wcs →
  extensions file = (hdr, t) :: exts →
  hdr !! "EXPTIMES" = Some k1 →
  column t k1 = Ok exposure_times →
  hdr !! "TIME" = Some k2 →
  column t k2 = Ok (s :: seconds) →
  primary_header file !! "STARTOBS" = None →
  (read_iris_sji_level2_fits (OneName name) memmap w).1
  = if negb memmap && primary_integer file
    then Raise (ValueError "cannot convert float NaN to integer")
    else Raise (KeyError "STARTOBS").
Proof.
  intros Hfile Hwcs Hexts Hk1 Hc1 Hk2 Hc2 Hstart.
  assert (Hout : file_outcome memmap file
                 = if negb memmap && primary_integer file
                   then Raise (ValueError "cannot convert float NaN to integer")
                   else Raise (KeyError "STARTOBS")).
  { rewrite file_outcome_cases, Hwcs, Hexts.
    destruct (negb memmap && primary_integer file); [done|].
    unfold read_extra_coords.
    rewrite (aux_column_eq _ _ _ _ _ _ _ _ _ _ Hk1), Hc1.
    rewrite (aux_column_eq _ _ _ _ _ _ _ _ _ _ Hk2), Hc2.
    cbn [mbind result_bind mapR hdu0_header]. unfold getitem.
    by rewrite Hstart. }
  destruct (read_stops_at w [] [] name memmap (Forall_nil_2 _))
    as (w1 & Hfiles & Hopen & Hstop).
  rewrite <- Hfiles in Hfile.
  pose proof (read_file_outcome name memmap w1 file Hfile) as Hbody.
  unfold wp in Hbody.
  change (read_iris_sji_level2_fits (OneName name) memmap w)
    with (read_iris_sji_level2_fits (Names ([] ++ name :: [])) memmap w).
  destruct (read_file name memmap w1) as [r w2] eqn:Hbad. simpl in Hbody.
  destruct (negb memmap && primary_integer file); rewrite Hout in Hbody;
    destruct Hbody as (_ & -> & _); by rewrite (Hstop _ _ eq_refl).
Qed.

(** X8: a call with an empty list of names raises [UnboundLocalError]:
    the loop never assigns [meta], which the sequence is then built
    from.  The world is as before. *)
Theorem X8_no_name_raises_unbound_meta (w : world) (memmap : bool) :
  read_iris_sji_level2_fits (Names []) memmap w
  = (Raise (UnboundLocalError "meta"), w).
Proof. reflexivity. Qed.

(** ** Observation ids at the end of the call *)

Lemma cubes_with_obsid memmap w w1 names news :
  Forall2 (λ name c, ∃ file, files w !! name = Some file
                             ∧ cube_of_file memmap w1 file c) names news →
  ∃ cs, Forall2 (λ l c, heap w1 !! l = Some (OCube c)) news cs
        ∧ Forall2 (λ name c, ∃ file, files w !! name = Some file
                     ∧ IRISMapCube.meta c !! "OBSID" = Some (file_obsid file))
                  names cs.
Proof.
  intros Hall. induction Hall as [|name c names news (file & Hfile & Hcube) _ IH].
  - exists []. split; constructor.
  - destruct IH as (cs & Hcs & Hids). pose proof Hcube as (cube & Hc & _).
    exists (cube :: cs). split; [by constructor|]. constructor; [|done].
    exists file. split; [done|]. by eapply cube_of_file_obsid.
Qed.

(** Readable files of two observations: the loop reads them all, and the
    sequence is then refused. *)
Lemma read_refuses_two_observations (w : world) (filenames : filenames_arg)
    (memmap : bool) (name0 : string) (first : fits_file) :
  Forall (λ name, ∃ file, files w !! name = Some file
                    ∧ readable memmap file = true)
         (names_of filenames) →
  names_of filenames !! 0 = Some name0 →
  files w !! name0 = Some first →
  (2 ≤ length (names_of filenames))%nat →
  Exists (λ name, ∃ file, files w !! name = Some file
                    ∧ py_ne (file_obsid file) (file_obsid first) = true)
         (names_of filenames) →
  let run := read_iris_sji_level2_fits filenames memmap w in
  run.1 = Raise (ValueError
            "Constituent IRISMapCube objects must have same value of 'OBSID' in its meta.")
  ∧ open_files run.2 = kept_open memmap (names_of filenames) (open_files w).
Proof.
  intros Hreadable Hname0 Hfirst Hmany Hdiff run. subst run.
  destruct (read_files_readable _ memmap w [] None Hreadable)
    as (cubes & meta & w1 & Hrun & Hfiles & Hopen).
  cut (read_iris_sji_level2_fits filenames memmap w
       = (Raise (ValueError
            "Constituent IRISMapCube objects must have same value of 'OBSID' in its meta."),
          w1)).
  { intros ->. split; [reflexivity|exact Hopen]. }
  pose proof Hrun as Hspec.
  apply (wp_run _ _ _ _ _ (read_files_spec _ memmap w [] None)) in Hspec
    as (_ & _ & news & -> & Hall & Hlast).
  unfold read_iris_sji_level2_fits. fold (names_of filenames).
  unfold mbind at 1, M_bind at 1. rewrite Hrun. simpl.
  pose proof (Forall2_length _ _ _ Hall) as Hlen.
  destruct (length (names_of filenames) =? 1)%nat eqn:Hone;
    [apply Nat.eqb_eq in Hone; lia|].
  destruct (cubes_with_obsid _ _ _ _ _ Hall) as (cs & Hcs & Hids).
  destruct Hall as [|name c0 names news' (file0 & Hfile0 & Hcube0) Hall];
    [simpl in Hmany; lia|].
  simpl in Hname0. injection Hname0 as ->.
  assert (file0 = first) as -> by congruence.
  inversion Hcs as [|? cube0 ? cs' Hc0 Hcs']; subst.
  pose proof (cube_of_file_obsid _ _ _ _ _ Hcube0 Hc0) as Hid0.
  destruct meta as [m|].
  2: { destruct (last (c0 :: news')) eqn:Hl;
         [by destruct Hlast as (? & _ & ?)|by apply last_None in Hl]. }
  unfold mbind at 1, M_bind at 1, IRISMapCubeSequence__init__ at 1.
  unfold mbind at 1, M_bind at 1.
  assert (Hchecks : mapM_M (obsid_differs (c0 :: news')) (c0 :: news') w1
                    = (Ok (map (λ c, py_ne (OBSID_of c) (OBSID_of cube0))
                             (cube0 :: cs')), w1)).
  { apply (obsid_checks_run w1 (c0 :: news') c0 cube0); [done|done|by rewrite Hid0|done|].
    apply Forall_forall. intros c [i Hi]%list_elem_of_lookup.
    destruct (Forall2_lookup_r _ _ _ _ _ Hids Hi) as (? & _ & ? & _ & ->). done. }
  rewrite Hchecks.
  assert (Hany : existsb id (map (λ c, py_ne (OBSID_of c) (OBSID_of cube0))
                               (cube0 :: cs')) = true).
  { apply existsb_id_map. apply Exists_exists in Hdiff
      as (name' & [i Hi]%list_elem_of_lookup & file' & Hfile' & Hne).
    destruct (Forall2_lookup_l _ _ _ _ _ Hids Hi) as (c & Hc & file'' & Hfile'' & Hid).
    assert (file'' = file') as -> by congruence.
    apply Exists_exists. exists c. split; [by eapply list_elem_of_lookup_2|].
    unfold OBSID_of. by rewrite Hid, Hid0. }
  rewrite Hany. reflexivity.
Qed.

(** X13: when every file named is readable, there are two names or more
    and the observation id of some file differs from that of the first,
    the call reads every file and then raises the error of the sequence.
    The handles are those that the files read leave: none in scaled mode,
    one each in memory mapped mode. *)
Theorem X13_two_observations_are_refused_after_reading (w : world)
    (filenames : filenames_arg) (memmap : bool) (name0 : string)
    (first : fits_file) :
  Forall (λ name, ∃ file, files w !! name = Some file
                    ∧ readable memmap file = true)
         (names_of filenames) →
  names_of filenames !! 0 = Some name0 →
  files w !! name0 = Some first →
  (2 ≤ length (names_of filenames))%nat →
  Exists (λ name, ∃ file, files w !! name = Some file
                    ∧ py_ne (file_obsid file) (file_obsid first) = true)
         (names_of filenames) →
  let run := read_iris_sji_level2_fits filenames memmap w in
  run.1 = Raise (ValueError
            "Constituent IRISMapCube objects must have same value of 'OBSID' in its meta.")
  ∧ open_files run.2 = kept_open memmap (names_of filenames) (open_files w).
Proof. apply read_refuses_two_observations. Qed.

Lemma one_observation_or_two (w : world) (first : fits_file) (names : list string) :
  Forall (λ name, ∀ file, files w !! name = Some file →
            py_ne (file_obsid file) (file_obsid first) = false) names
  ∨ Exists (λ name, ∃ file, files w !! name = Some file
                      ∧ py_ne (file_obsid file) (file_obsid first) = true) names.
Proof.
  induction names as [|name names [IH|IH]]; [left; constructor| |].
  - destruct (files w !! name) as [file|] eqn:Hfile.
    + destruct (py_ne (file_obsid file) (file_obsid first)) eqn:Hne.
      * right. apply Exists_cons_hd. eauto.
      * left. constructor; [|done]. intros file' Hfile'.
        rewrite Hfile in Hfile'. by injection Hfile' as <-.
    + left. constructor; [|done]. intros file' Hfile'. by rewrite Hfile in Hfile'.
  - right. by apply Exists_cons_tl.
Qed.

(** X14: when the first name is on the disk, the call returns exactly
    when every file named is readable in the mode of the call (its WCS,
    the store of NaN, its auxiliary columns, its times, its metadata and
    the check of the constructor go through) and either there is one name
    or no observation id differs from that of the first file. *)
Theorem X14_the_call_returns_exactly_when (w : world) (filenames : filenames_arg)
    (memmap : bool) (name0 : string) (first : fits_file) :
  names_of filenames !! 0 = Some name0 →
  files w !! name0 = Some first →
  (∃ v, (read_iris_sji_level2_fits filenames memmap w).1 = Ok v)
  ↔ Forall (λ name, ∃ file, files w !! name = Some file
                      ∧ readable memmap file = true)
           (names_of filenames)
    ∧ (length (names_of filenames) = 1%nat
       ∨ Forall (λ name, ∀ file, files w !! name = Some file →
                   py_ne (file_obsid file) (file_obsid first) = false)
                (names_of filenames)).
Proof.
  intros Hname0 Hfirst. split.
  - intros [v Hv].
    destruct (read_iris_sji_level2_fits filenames memmap w) as [r w'] eqn:Hrun.
    simpl in Hv. subst r.
    assert (Hreadable : Forall (λ name, ∃ file, files w !! name = Some file
                                  ∧ readable memmap file = true)
                               (names_of filenames)).
    { apply read_cubes in Hrun as [Hall _]. apply Forall_forall.
      intros name [i Hi]%list_elem_of_lookup.
      destruct (Forall2_lookup_l _ _ _ _ _ Hall Hi)
        as (c & _ & file & Hfile & _ & wcs & coords & meta & missing & ld & Hout & _).
      exists file. split; [done|]. apply readable_outcome. eauto. }
    split; [done|].
    destruct (decide (length (names_of filenames) = 1%nat)) as [?|Hlen]; [by left|].
    right. destruct (one_observation_or_two w first (names_of filenames))
      as [?|Hdiff]; [done|].
    assert (Hmany : (2 ≤ length (names_of filenames))%nat).
    { destruct (names_of filenames) as [|? [|? ?]]; simpl in *; try done; lia. }
    destruct (read_refuses_two_observations w filenames memmap name0 first
                Hreadable Hname0 Hfirst Hmany Hdiff) as [Hraise _].
    by rewrite Hrun in Hraise.
  - intros [Hreadable Hobsid].
    apply (read_iris_sji_level2_fits_returns w filenames memmap first); eauto.
Qed.

(** ** The sequence constructor, whatever the list holds *)

(** X15: the constructor of a sequence only reads the world: it ends in
    the world it started from, whether it returns or raises; the sequence
    it returns holds the very list, metadata and common axis it was
    given. *)
Theorem X15_sequence_constructor_only_reads (w : world) (data_list : list loc)
    (meta : option dict) (common_axis : nat) :
  let run := IRISMapCubeSequence__init__ data_list meta common_axis w in
  run.2 = w
  ∧ ∀ s, run.1 = Ok s →
      IRISMapCubeSequence.data s = data_list
      ∧ IRISMapCubeSequence.meta s = meta
      ∧ IRISMapCubeSequence.common_axis s = common_axis.
Proof.
  intros run. split; [apply readonly_IRISMapCubeSequence__init__|].
  intros s Hs.
  destruct (IRISMapCubeSequence__init___Ok data_list meta common_axis w s run.2)
    as [-> _]; [|done].
  subst run. destruct (IRISMapCubeSequence__init__ _ _ _ _) as [r w'].
  simpl in *. by subst r.
Qed.

Lemma obsid_differs_KeyError w data_list l0 first l c :
  data_list !! 0 = Some l0 →
  heap w !! l0 = Some (OCube first) →
  heap w !! l = Some (OCube c) →
  IRISMapCube.meta c !! "OBSID" = None ∨ IRISMapCube.meta first !! "OBSID" = None →
  obsid_differs data_list l w = (Raise (KeyError "OBSID"), w).
Proof.
  intros Hhead Hfirst Hl Hnone.
  destruct data_list as [|l0' rest]; [discriminate|].
  simpl in Hhead. injection Hhead as ->.
  unfold obsid_differs, mbind, M_bind, get_cube, lift, meta_getitem.
  rewrite Hl. destruct (IRISMapCube.meta c !! "OBSID") eqn:Hc; [|reflexivity].
  destruct Hnone as [?|Hf]; [done|]. rewrite Hfirst, Hf. reflexivity.
Qed.

Lemma obsid_checks_KeyError w data_list l0 first ls cs :
  data_list !! 0 = Some l0 →
  heap w !! l0 = Some (OCube first) →
  Forall2 (λ l c, heap w !! l = Some (OCube c)) ls cs →
  Exists (λ c, IRISMapCube.meta c !! "OBSID" = None) cs →
  mapM_M (obsid_differs data_list) ls w = (Raise (KeyError "OBSID"), w).
Proof.
  intros Hhead Hfirst Hall. induction Hall as [|l c ls cs Hl Hall IH];
    intros Hex; [by apply Exists_nil in Hex|].
  simpl. unfold mbind at 1, M_bind at 1.
  destruct (IRISMapCube.meta first !! "OBSID") as [b|] eqn:Hb.
  - destruct (IRISMapCube.meta c !! "OBSID") as [a|] eqn:Ha.
    + rewrite (obsid_differs_run w data_list l0 first l c) by eauto.
      apply Exists_cons in Hex as [Hc|Hex]; [congruence|].
      unfold mbind at 1, M_bind at 1. by rewrite (IH Hex).
    + rewrite (obsid_differs_KeyError w data_list l0 first l c) by eauto. done.
  - rewrite (obsid_differs_KeyError w data_list l0 first l c) by eauto. done.
Qed.

(** X16: the observation id of every member is looked up before any
    comparison is judged: when every location of the list holds a cube and
    the metadata of some cube has no observation id, the constructor raises
    the key error, also when the ids that are there differ. *)
Theorem X16_member_without_obsid_is_a_key_error (w : world)
    (data_list : list loc) (cubes : list IRISMapCube.t) (meta : option dict)
    (common_axis : nat) :
  Forall2 (λ l c, heap w !! l = Some (OCube c)) data_list cubes →
  Exists (λ c, IRISMapCube.meta c !! "OBSID" = None) cubes →
  IRISMapCubeSequence__init__ data_list meta common_axis w
  = (Raise (KeyError "OBSID"), w).
Proof.
  intros Hall Hex.
  destruct Hall as [|l0 c0 ls cs Hl0 Hall]; [by apply Exists_nil in Hex|].
  unfold IRISMapCubeSequence__init__, mbind at 1, M_bind at 1.
  rewrite (obsid_checks_KeyError w (l0 :: ls) l0 c0 (l0 :: ls) (c0 :: cs));
    try done. by constructor.
Qed.

(** ** The correction before it reaches the helpers *)

Lemma readonly_get_array l : readonly (get_array l).
Proof. intros w. unfold get_array. by destruct (heap w !! l) as [[| |]|]. Qed.

Lemma readonly_exposure_time_of cube : readonly (exposure_time_of cube).
Proof.
  unfold exposure_time_of.
  repeat (apply readonly_bind;
          [first [apply readonly_get_array|apply readonly_lift]|intros ?]).
  apply readonly_lift.
Qed.

(** X17: the correction of a scaled cube that has no coordinate named
    [EXPOSURE TIME] raises and leaves the world as it is, whatever [undo]
    and [force]: the key error of that name when the cube has other extra
    coordinates, and a type error when it has none, its [extra_coords]
    being [None] then. *)
Theorem X17_correction_needs_the_exposure_time (w : world) (self : loc)
    (cube : IRISMapCube.t) (undo force : bool) :
  heap w !! self = Some (OCube cube) →
  IRISMapCube.scaled cube = Some true →
  IRISMapCube.extra_coords cube !! "EXPOSURE TIME" = None →
  apply_exposure_time_correction self undo force w
  = (Raise (if decide (IRISMapCube.extra_coords cube = ∅) then TypeError
            else KeyError "EXPOSURE TIME"), w).
Proof.
  intros Hself Hscaled Hcoord.
  unfold apply_exposure_time_correction, mbind at 1, M_bind at 1, get_cube.
  rewrite Hself, Hscaled. simpl.
  unfold mbind at 1, M_bind at 1, exposure_time_of, mbind at 1, M_bind at 1, lift.
  rewrite Hcoord. by destruct (decide (IRISMapCube.extra_coords cube = ∅)).
Qed.

(** X18: an exposure time that is one bare number is passed on as it is,
    whatever the number of dimensions of the samples: the test on the
    dimensions is not reached. *)
Theorem X18_bare_exposure_time_fits_any_rank (w : world) (cube : IRISMapCube.t)
    (axis : option nat) (x : float) (a : ndarray float) :
  IRISMapCube.extra_coords cube !! "EXPOSURE TIME" = Some (axis, CScalar x) →
  heap w !! IRISMapCube.data cube = Some (OArray a) →
  exposure_time_of cube w = (Ok (ExpScalar x), w).
Proof.
  intros Hcoord Hdata.
  unfold exposure_time_of, mbind, M_bind, lift, get_array.
  rewrite Hcoord. simpl. rewrite Hdata. reflexivity.
Qed.

(** X19: a scaled cube without uncertainty is never corrected: the call
    leaves the world as it is and raises, the exception of the exposure
    time when there is one and the attribute error otherwise. *)
Theorem X19_correction_needs_an_uncertainty (w : world) (self : loc)
    (cube : IRISMapCube.t) (undo force : bool) :
  heap w !! self = Some (OCube cube) →
  IRISMapCube.scaled cube = Some true →
  IRISMapCube.uncertainty cube = None →
  let run := apply_exposure_time_correction self undo force w in
  run.2 = w
  ∧ match (exposure_time_of cube w).1 with
    | Ok _ => run.1 = Raise AttributeError
    | Raise e => run.1 = Raise e
    end.
Proof.
  intros Hself Hscaled Hunc run. subst run.
  cut (apply_exposure_time_correction self undo force w
       = (match (exposure_time_of cube w).1 with
          | Ok _ => Raise AttributeError
          | Raise e => Raise e
          end, w)).
  { intros ->. simpl. by destruct (exposure_time_of cube w).1. }
  unfold apply_exposure_time_correction, mbind at 1, M_bind at 1, get_cube.
  rewrite Hself, Hscaled. simpl.
  unfold mbind at 1, M_bind at 1.
  pose proof (readonly_exposure_time_of cube w) as Hw.
  destruct (exposure_time_of cube w) as [[e|err] w1]; simpl in *; subst w1;
    [|reflexivity].
  rewrite Hunc. reflexivity.
Qed.

(** ** The reader and the correction together *)

(** X20: in scaled mode the mask of every cube read marks no pixel at
    all: it is computed after the bad pixels were replaced by NaN, and no
    sample equals the bad pixel value any more. *)
Theorem X20_scaled_read_mask_is_all_false (w : world) (filenames : filenames_arg)
    (v : ingested) (w' : world) :
  read_iris_sji_level2_fits filenames false w = (Ok v, w') →
  Forall (λ c, ∃ cube lm m,
            heap w' !! c = Some (OCube cube)
            ∧ IRISMapCube.mask cube = Some lm
            ∧ heap w' !! lm = Some (OMask m)
            ∧ Forall (λ b, b = false) (flat m)) (cubes_of v).
Proof. apply scaled_reader_mask_marks_nothing. Qed.

(** X21: whatever cube the correction returns, a further correction of
    it, applied or undone, forced or not, raises the error of memory
    mapped data and leaves the world as it is: the [scaled] flag is not
    passed to the new cube. *)
Theorem X21_corrected_cube_is_never_corrected_again (w : world) (self : loc)
    (cube : IRISMapCube.t) (undo force : bool) (new : loc) (w' : world)
    (undo' force' : bool) :
  heap w !! self = Some (OCube cube) →
  apply_exposure_time_correction self undo force w = (Ok new, w') →
  apply_exposure_time_correction new undo' force' w'
  = (Raise (ValueError "This method is not available as you are using memmap"), w').
Proof. apply corrected_cube_is_refused. Qed.

(** X22: no cube read in memory mapped mode can be corrected: for each,
    the correction raises the error of memory mapped data and leaves the
    world as it is. *)
Theorem X22_memmap_cubes_are_not_corrected (w : world)
    (filenames : filenames_arg) (v : ingested) (w' : world) (undo force : bool) :
  read_iris_sji_level2_fits filenames true w = (Ok v, w') →
  Forall (λ c, apply_exposure_time_correction c undo force w'
               = (Raise (ValueError
                    "This method is not available as you are using memmap"), w'))
         (cubes_of v).
Proof.
  intros Hrun. apply read_cubes in Hrun as [Hall _].
  apply Forall_forall. intros c [i Hi]%list_elem_of_lookup.
  destruct (Forall2_lookup_r _ _ _ _ _ Hall Hi)
    as (name & _ & file & _ & _ & wcs & coords & meta & missing & ld & _ & _ & Hc).
  unfold apply_exposure_time_correction, mbind, M_bind, get_cube.
  rewrite Hc. reflexivity.
Qed.
End Properties.

(** * The properties on the concrete setting *)

(** The cube read memory mapped from [a.fits] is refused, also with
    [force]. *)
Lemma C3_unscaled_cube_is_refused_demo :
  heap Demo.raw_world !! 1 = Some (OCube Demo.raw_cube) ∧
  IRISMapCube.scaled Demo.raw_cube = Some false ∧
  apply_exposure_time_correction (E := Demo.binary64) 1 false true Demo.raw_world
  = (Raise (ValueError "This method is not available as you are using memmap"),
     Demo.raw_world).
Proof.
  split; [vm_compute; reflexivity|].
  split; [vm_compute; reflexivity|].
  apply (C3_unscaled_cube_is_refused (E := Demo.binary64)
           Demo.raw_world 1 Demo.raw_cube false true);
    vm_compute; reflexivity.
Defined.

(** C1 fails on the code.  The first sample of [a.fits] equals the bad
    pixel value; after the scaled read the sample is NaN, and the mask of
    the cube is false there, as everywhere. *)
Theorem C1_mask_misses_the_bad_pixel :
  flat (primary_data Demo.file_a) !! 0 = Some (Demo.num (-200))
  ∧ SFeqb (Demo.num (-200)) (BAD_PIXEL_VALUE_SCALED (E := Demo.binary64)) = true
  ∧ (read_iris_sji_level2_fits (E := Demo.binary64) (OneName "a.fits") false Demo.disk).1
    = Ok (Cube 3)
  ∧ heap Demo.scaled_world !! 3 = Some (OCube Demo.scaled_cube)
  ∧ IRISMapCube.data Demo.scaled_cube = 0
  ∧ IRISMapCube.mask Demo.scaled_cube = Some 1
  ∧ heap Demo.scaled_world !! 0
    = Some (OArray (NDArray [2; 1; 2] [nan; Demo.num 6; Demo.num 8; Demo.num 12]))
  ∧ heap Demo.scaled_world !! 1
    = Some (OMask (NDArray [2; 1; 2] [false; false; false; false])).
Proof. repeat split; vm_compute; reflexivity. Qed.

(** C2, as the spec words it, fails: [truncated.fits] has no auxiliary
    extension, the call raises, and the handle of that file is still open
    afterwards. *)
Lemma C2_failing_file_stays_open :
  let run := read_iris_sji_level2_fits (E := Demo.binary64)
               (Names ["a.fits"; "truncated.fits"]) false Demo.disk in
  open_files Demo.disk = ∅
  ∧ run.1 = Raise IndexError
  ∧ open_files run.2 !! 0 = Some "truncated.fits".
Proof. repeat split; vm_compute; reflexivity. Qed.

(** In memory mapped mode the call returns with the descriptors of the
    two files it read still open. *)
Lemma memmap_read_keeps_the_descriptors :
  let run := read_iris_sji_level2_fits (E := Demo.binary64)
               (Names ["a.fits"; "b.fits"]) true Demo.disk in
  open_files Demo.disk = ∅
  ∧ is_ok run.1 = true
  ∧ open_files run.2 !! 0 = Some "a.fits"
  ∧ open_files run.2 !! 1 = Some "b.fits".
Proof. repeat split; vm_compute; reflexivity. Qed.

(** C4, as the spec words it, fails: a scaled cube of four dimensions whose
    exposure time is a bare number is corrected, not refused. *)
Lemma C4_rank4_with_scalar_exposure_is_corrected :
  heap Demo.world4 !! 2 = Some (OCube Demo.cube4) ∧
  IRISMapCube.scaled Demo.cube4 = Some true ∧
  (∃ a, heap Demo.world4 !! IRISMapCube.data Demo.cube4 = Some (OArray a)
        ∧ ndim a = 4%nat) ∧
  (apply_exposure_time_correction (E := Demo.binary64) 2 false false Demo.world4).1
  = Ok 5 ∧
  ¬ ∃ msg,
    (apply_exposure_time_correction (E := Demo.binary64) 2 false false Demo.world4).1
    = Raise (ValueError msg).
Proof.
  split; [vm_compute; reflexivity|].
  split; [reflexivity|].
  split; [eexists; split; [vm_compute; reflexivity|reflexivity]|].
  assert (Hrun :
    (apply_exposure_time_correction (E := Demo.binary64) 2 false false Demo.world4).1
    = Ok 5) by (vm_compute; reflexivity).
  split; [exact Hrun|].
  intros [msg Hmsg]. rewrite Hrun in Hmsg. discriminate.
Qed.

(** The cube read from [a.fits] has three dimensions and two exposure
    times: they are handed on with shape [2, 1, 1]. *)
Lemma C4_exposure_vector_reshaped_by_rank_demo :
  exposure_time_of Demo.scaled_cube Demo.scaled_world
  = (Ok (ExpArray (NDArray [2; 1; 1] [Demo.num 2; Demo.num 4])), Demo.scaled_world).
Proof.
  refine (proj1 (C4_exposure_vector_reshaped_by_rank (E := Demo.binary64)
           Demo.scaled_world 3 Demo.scaled_cube (Some 0)
           (CArray [Demo.num 2; Demo.num 4]) [Demo.num 2; Demo.num 4]
           (NDArray [2; 1; 2] [nan; Demo.num 6; Demo.num 8; Demo.num 12])
           false false _ _ _ _ _ _) _);
    try (vm_compute; reflexivity).
  vm_compute. lia.
Defined.

(** C5 fails on the code.  The cube read from [a.fits] is corrected once
    (a new cube at location 6, unit per second); correcting that cube
    again, or undoing its correction, raises the usage error. *)
Theorem C5_second_correction_is_refused :
  let first := apply_exposure_time_correction (E := Demo.binary64) 3 false false
                 Demo.scaled_world in
  IRISMapCube.scaled Demo.scaled_cube = Some true
  ∧ first.1 = Ok 6
  ∧ IRISMapCube.unit (Demo.cube_at first.2 6) = Some (mkUnit "DN_IRIS_SJI" (-1))
  ∧ IRISMapCube.scaled (Demo.cube_at first.2 6) = None
  ∧ (apply_exposure_time_correction (E := Demo.binary64) 6 false false first.2).1
    = Raise (ValueError "This method is not available as you are using memmap")
  ∧ (apply_exposure_time_correction (E := Demo.binary64) 6 true false first.2).1
    = Raise (ValueError "This method is not available as you are using memmap").
Proof. repeat split; vm_compute; reflexivity. Qed.

(** The correction of the cube read from [a.fits] leaves that cube and its
    arrays in place and returns the new cube at location 6. *)
Lemma C6_correction_leaves_input_returns_new_cube_demo :
  let run := apply_exposure_time_correction (E := Demo.binary64) 3 false false
               Demo.scaled_world in
  run.1 = Ok 6
  ∧ heap run.2 !! 3 = Some (OCube Demo.scaled_cube)
  ∧ heap run.2 !! 0 = heap Demo.scaled_world !! 0
  ∧ heap Demo.scaled_world !! 6 = None.
Proof.
  intros run.
  assert (Hrun : run.1 = Ok 6) by (vm_compute; reflexivity).
  destruct (C6_correction_leaves_input_returns_new_cube (E := Demo.binary64)
              Demo.scaled_world 3 Demo.scaled_cube false false)
    as (_ & _ & Hkeep & Hself & Hnew); try (vm_compute; reflexivity).
  split; [exact Hrun|]. split; [exact Hself|].
  split; [|exact (proj1 (proj2 (Hnew 6 Hrun)))].
  exact (Hkeep 0 (OArray (NDArray [2; 1; 2] [nan; Demo.num 6; Demo.num 8; Demo.num 12]))
           ltac:(vm_compute; reflexivity)).
Defined.

(** The two cubes read from [a.fits] and [b.fits] carry one observation
    id, and the sequence of them is built. *)
Lemma C7_sequence_needs_one_obsid_demo :
  IRISMapCubeSequence__init__ [3; 7] None 0 Demo.pair_world
  = (Ok (IRISMapCubeSequence.new [3; 7] None 0), Demo.pair_world).
Proof.
  refine (proj1 (proj2 (C7_sequence_needs_one_obsid Demo.pair_world [3; 7]
            [Demo.cube_at Demo.pair_world 3; Demo.cube_at Demo.pair_world 7]
            (Demo.cube_at Demo.pair_world 3) None 0 _ _ _)) _).
  - repeat constructor; vm_compute; reflexivity.
  - reflexivity.
  - repeat constructor; vm_compute; eexists; reflexivity.
  - repeat constructor; vm_compute; reflexivity.
Defined.

(** A cube of another observation makes the constructor raise. *)
Lemma sequence_of_two_observations_is_refused :
  (read_iris_sji_level2_fits (E := Demo.binary64)
     (Names ["a.fits"; "other.fits"]) false Demo.disk).1
  = Raise (ValueError
      "Constituent IRISMapCube objects must have same value of 'OBSID' in its meta.").
Proof. vm_compute. reflexivity. Qed.

(** Two names give a sequence of two cubes. *)
Lemma C8_one_name_a_cube_more_names_a_sequence_demo :
  ∃ s, Demo.pair_value = Sequence s ∧ length (IRISMapCubeSequence.data s) = 2%nat.
Proof.
  refine (proj1 (proj2 (C8_one_name_a_cube_more_names_a_sequence (E := Demo.binary64)
            Demo.disk (Names ["a.fits"; "b.fits"]) false Demo.pair_value
            Demo.pair_world _)) _).
  - vm_compute. reflexivity.
  - simpl. lia.
Defined.

(** One name gives the cube at location 3. *)
Lemma one_name_gives_a_cube :
  Demo.scaled_value = Cube 3.
Proof. vm_compute. reflexivity. Qed.

(** The uncertainty of the cube read from a file whose image is decoded
    in single precision. *)
Lemma C9_uncertainty_is_photon_noise_demo :
  Forall2 (λ name c, ∃ file cube d lu u,
             files Demo.disk_single !! name = Some file
             ∧ heap Demo.single_world !! c = Some (OCube cube)
             ∧ heap Demo.single_world !! IRISMapCube.data cube = Some (OArray d)
             ∧ IRISMapCube.uncertainty cube = Some lu
             ∧ heap Demo.single_world !! lu = Some (OArray u)
             ∧ shape u = shape (primary_data file)
             ∧ length (flat u) = length (flat (primary_data file))
             ∧ ∀ i sample, flat (primary_data file) !! i = Some sample →
                 let x := if SFeqb sample (BAD_PIXEL_VALUE_SCALED (E := Demo.binary32))
                          then nan else sample in
                 flat d !! i = Some x
                 ∧ flat u !! i
                   = Some (photon_noise (E := Demo.binary32)
                             (READOUT_NOISE_SJI (Collaborators := Demo.binary32)) x)
                 ∧ (isnan x = true → flat u !! i = Some nan))
          (names_of (OneName "a.fits")) (cubes_of Demo.single_value).
Proof.
  apply (C9_uncertainty_is_photon_noise (E := Demo.binary32)
           Demo.disk_single (OneName "a.fits") Demo.single_value Demo.single_world).
  vm_compute. reflexivity.
Defined.

(** The numbers of that uncertainty: NaN for the bad pixel, and for the
    samples 6, 8 and 12 the binary32 numbers next to 1.3928388, 1.4514360
    and 1.5620499. *)
Lemma uncertainty_in_single_precision :
  Demo.single_value = Cube 3
  ∧ IRISMapCube.uncertainty (Demo.cube_at Demo.single_world 3) = Some 2
  ∧ heap Demo.single_world !! 2
    = Some (OArray (NDArray [2; 1; 2]
              [nan; S754_finite false 11683979 (-23);
               S754_finite false 12175528 (-23);
               S754_finite false 13103424 (-23)])).
Proof. repeat split; vm_compute; reflexivity. Qed.

(** The sequence read from [a.fits] and [b.fits] carries the metadata of
    [b.fits]. *)
Lemma C10_sequence_metadata_is_last_file_metadata_demo :
  ∃ s, Demo.pair_value = Sequence s
       ∧ ∃ m, extract_meta (E := Demo.binary64) (primary_header Demo.file_b)
                (shape (primary_data Demo.file_b)) = Ok m
              ∧ IRISMapCubeSequence.meta s = Some m.
Proof.
  destruct Demo.pair_value as [c|s] eqn:Hv; [vm_compute in Hv; discriminate|].
  exists s. split; [reflexivity|].
  destruct (C10_sequence_metadata_is_last_file_metadata (E := Demo.binary64)
              Demo.disk (Names ["a.fits"; "b.fits"]) false s Demo.pair_world)
    as (_ & (name & file & m & Hlast & Hfile & Hmeta & Hs) & _).
  - rewrite <- Hv. vm_compute. reflexivity.
  - simpl in Hlast. injection Hlast as <-.
    assert (Hb : files Demo.disk !! "b.fits" = Some Demo.file_b)
      by (vm_compute; reflexivity).
    rewrite Hb in Hfile. injection Hfile as <-.
    exists m. split; [exact Hmeta|exact Hs].
Defined.

(** * The further properties on the concrete setting *)

(** The memory mapped read of [a.fits]. *)
Lemma X1_memmap_read_zeroes_bad_pixels_demo :
  Forall2 (λ name c, ∃ file cube d,
             files Demo.disk !! name = Some file
             ∧ heap Demo.raw_world !! c = Some (OCube cube)
             ∧ IRISMapCube.scaled cube = Some false
             ∧ IRISMapCube.mask cube = None
             ∧ IRISMapCube.uncertainty cube = None
             ∧ IRISMapCube.unit cube
               = Some (DN_UNIT_SJI_UNSCALED (Collaborators := Demo.binary64))
             ∧ heap Demo.raw_world !! IRISMapCube.data cube = Some (OArray d)
             ∧ shape d = shape (primary_data file)
             ∧ flat d = map (λ x, if SFeqb x (BAD_PIXEL_VALUE_UNSCALED (E := Demo.binary64))
                                  then float_of_Z (E := Demo.binary64) 0 else x)
                            (flat (primary_data file)))
          (names_of (OneName "a.fits")) (cubes_of Demo.raw_value).
Proof.
  apply (X1_memmap_read_zeroes_bad_pixels (E := Demo.binary64)
           Demo.disk (OneName "a.fits") Demo.raw_value Demo.raw_world).
  vm_compute. reflexivity.
Defined.

(** The scaled read of [a.fits]. *)
Lemma X2_scaled_read_replaces_bad_pixels_by_nan_demo :
  Forall2 (λ name c, ∃ file cube d,
             files Demo.disk !! name = Some file
             ∧ heap Demo.scaled_world !! c = Some (OCube cube)
             ∧ IRISMapCube.scaled cube = Some true
             ∧ IRISMapCube.unit cube
               = Some (DN_UNIT_SJI (Collaborators := Demo.binary64))
             ∧ heap Demo.scaled_world !! IRISMapCube.data cube = Some (OArray d)
             ∧ shape d = shape (primary_data file)
             ∧ flat d = map (λ x, if SFeqb x (BAD_PIXEL_VALUE_SCALED (E := Demo.binary64))
                                  then nan else x)
                            (flat (primary_data file)))
          (names_of (OneName "a.fits")) (cubes_of Demo.scaled_value).
Proof.
  apply (X2_scaled_read_replaces_bad_pixels_by_nan (E := Demo.binary64)
           Demo.disk (OneName "a.fits") Demo.scaled_value Demo.scaled_world).
  vm_compute. reflexivity.
Defined.

(** The two cubes read from [a.fits] and [b.fits]. *)
Lemma X3_scaled_read_arrays_are_co_shaped_demo :
  Forall (λ c, ∃ cube d lm m lu u,
            heap Demo.pair_world !! c = Some (OCube cube)
            ∧ heap Demo.pair_world !! IRISMapCube.data cube = Some (OArray d)
            ∧ IRISMapCube.mask cube = Some lm
            ∧ heap Demo.pair_world !! lm = Some (OMask m)
            ∧ IRISMapCube.uncertainty cube = Some lu
            ∧ heap Demo.pair_world !! lu = Some (OArray u)
            ∧ shape m = shape d ∧ shape u = shape d
            ∧ length (flat m) = length (flat d)
            ∧ length (flat u) = length (flat d)
            ∧ lm ≠ IRISMapCube.data cube ∧ lu ≠ IRISMapCube.data cube ∧ lm ≠ lu)
         (cubes_of Demo.pair_value).
Proof.
  apply (X3_scaled_read_arrays_are_co_shaped (E := Demo.binary64)
           Demo.disk (Names ["a.fits"; "b.fits"]) Demo.pair_value Demo.pair_world).
  vm_compute. reflexivity.
Defined.

(** The coordinates of the cube read from [a.fits]. *)
Lemma X4_cube_read_has_eight_frame_coordinates_demo :
  Forall2 (λ name c, ∃ file cube hdr t k exposure_times,
             files Demo.disk !! name = Some file
             ∧ heap Demo.scaled_world !! c = Some (OCube cube)
             ∧ head (extensions file) = Some (hdr, t)
             ∧ hdr !! "EXPTIMES" = Some k
             ∧ column t k = Ok exposure_times
             ∧ IRISMapCube.extra_coords cube !! "EXPOSURE TIME"
               = Some (Some 0%nat, CArray exposure_times)
             ∧ dom (IRISMapCube.extra_coords cube) = list_to_set coordinate_names
             ∧ ∀ coord axis value,
                 IRISMapCube.extra_coords cube !! coord = Some (axis, value) →
                 axis = Some 0%nat ∧ coord_size value = length (rows t))
          (names_of (OneName "a.fits")) (cubes_of Demo.scaled_value).
Proof.
  apply (X4_cube_read_has_eight_frame_coordinates (E := Demo.binary64)
           Demo.disk (OneName "a.fits") false Demo.scaled_value Demo.scaled_world).
  vm_compute. reflexivity.
Defined.

(** The metadata of the two cubes read from [a.fits] and [b.fits]. *)
Lemma X5_cube_read_has_eight_metadata_demo :
  Forall2 (λ name c, ∃ file cube n rest,
             files Demo.disk !! name = Some file
             ∧ heap Demo.pair_world !! c = Some (OCube cube)
             ∧ dom (IRISMapCube.meta cube) = list_to_set meta_keys
             ∧ shape (primary_data file) = n :: rest
             ∧ IRISMapCube.meta cube !! "NBFRAMES" = Some (PVal (HInt (Z.of_nat n)))
             ∧ Forall (λ key, IRISMapCube.meta cube !! key
                              = Some (match primary_header file !! key with
                                      | Some card => PVal card
                                      | None => PNone
                                      end))
                      ["TELESCOP"; "INSTRUME"; "TWAVE1"; "OBSID"; "OBS_DESC"])
          (names_of (Names ["a.fits"; "b.fits"])) (cubes_of Demo.pair_value).
Proof.
  apply (X5_cube_read_has_eight_metadata (E := Demo.binary64)
           Demo.disk (Names ["a.fits"; "b.fits"]) false Demo.pair_value
           Demo.pair_world).
  vm_compute. reflexivity.
Defined.

(** A header without [STARTOBS] and with an empty [ENDOBS]. *)
Lemma X6_absent_time_cards_give_none_demo :
  ∃ m, extract_meta (E := Demo.binary64) Demo.primary_undated [2; 1; 2] = Ok m
       ∧ m !! "STARTOBS" = Some PNone ∧ m !! "ENDOBS" = Some PNone.
Proof.
  apply (X6_absent_time_cards_give_none (E := Demo.binary64)
           Demo.primary_undated 2 [1; 2]).
  apply Forall_cons_2; [vm_compute; exact I|].
  apply Forall_cons_2; [vm_compute; reflexivity|]. apply Forall_nil_2.
Defined.

(** The same header in a file of two frames. *)
Lemma X7_startobs_is_needed_when_there_are_frames_demo :
  (read_iris_sji_level2_fits (E := Demo.binary64) (OneName "undated.fits") false
     Demo.disk_undated).1
  = Raise (KeyError "STARTOBS").
Proof.
  apply (X7_startobs_is_needed_when_there_are_frames (E := Demo.binary64)
           Demo.disk_undated "undated.fits" false Demo.file_undated
           (mkWCS Demo.primary_undated) Demo.aux_header Demo.aux_table []
           (HInt 0) (HInt 1) [Demo.num 2; Demo.num 4] (Demo.num 0) [Demo.num 8]);
    vm_compute; reflexivity.
Defined.

(** [truncated.fits] between two readable files, in memory mapped mode:
    the descriptors of [a.fits] and of [truncated.fits] are left open. *)
Lemma X9_first_unreadable_file_stops_the_call_demo :
  let run := read_iris_sji_level2_fits (E := Demo.binary64)
               (Names (["a.fits"] ++ "truncated.fits" :: ["b.fits"])) true
               Demo.disk in
  let read := kept_open true ["a.fits"] (open_files Demo.disk) in
  run.1 = Raise IndexError
  ∧ open_files run.2 = <[fresh (dom read) := "truncated.fits"]> read.
Proof.
  apply (X9_first_unreadable_file_stops_the_call (E := Demo.binary64)
           Demo.disk ["a.fits"] ["b.fits"] "truncated.fits" true
           Demo.file_truncated IndexError).
  - apply Forall_cons_2; [|apply Forall_nil_2].
    exists Demo.file_a. split; vm_compute; reflexivity.
  - vm_compute. reflexivity.
  - vm_compute. reflexivity.
Defined.

(** The handles of that call, by number. *)
Lemma handles_left_by_a_failing_memmap_read :
  let run := read_iris_sji_level2_fits (E := Demo.binary64)
               (Names ["a.fits"; "truncated.fits"; "b.fits"]) true Demo.disk in
  map_to_list (open_files run.2) = [(1%nat, "truncated.fits"); (0%nat, "a.fits")].
Proof. vm_compute. reflexivity. Qed.

(** [rows3.fits] has a row more in its table than it has frames, and the
    constructor refuses its coordinates; [counts.fits] holds integers, and
    the scaled read of it stops at the store of NaN, while the memory
    mapped read returns. *)
Lemma files_that_are_not_readable :
  (∃ msg, (read_iris_sji_level2_fits (E := Demo.binary64) (OneName "rows3.fits")
             false Demo.disk_odd).1 = Raise (ValueError msg))
  ∧ readable (E := Demo.binary64) false Demo.file_rows3 = false
  ∧ (read_iris_sji_level2_fits (E := Demo.binary64) (OneName "counts.fits")
       false Demo.disk_odd).1
    = Raise (ValueError "cannot convert float NaN to integer")
  ∧ readable (E := Demo.binary64) false Demo.file_counts = false
  ∧ readable (E := Demo.binary64) true Demo.file_counts = true
  ∧ (read_iris_sji_level2_fits (E := Demo.binary64) (OneName "counts.fits")
       true Demo.disk_odd).1 = Ok (Cube 1).
Proof.
  split; [eexists; vm_compute; reflexivity|]. repeat split; vm_compute; reflexivity.
Qed.

(** A name that is not on the disk, between two readable files, in
    memory mapped mode: the descriptor of [a.fits] is left open. *)
Lemma X10_missing_file_stops_the_call_demo :
  let run := read_iris_sji_level2_fits (E := Demo.binary64)
               (Names (["a.fits"] ++ "nowhere.fits" :: ["b.fits"])) true
               Demo.disk in
  run.1 = Raise (FileNotFoundError "nowhere.fits")
  ∧ open_files run.2 = kept_open true ["a.fits"] (open_files Demo.disk).
Proof.
  apply (X10_missing_file_stops_the_call (E := Demo.binary64)
           Demo.disk ["a.fits"] ["b.fits"] "nowhere.fits" true).
  - apply Forall_cons_2; [|apply Forall_nil_2].
    exists Demo.file_a. split; vm_compute; reflexivity.
  - vm_compute. reflexivity.
Defined.

(** The two cubes read from [a.fits] and [b.fits] are new and distinct. *)
Lemma X11_cubes_read_are_new_and_distinct_demo :
  NoDup (cubes_of Demo.pair_value)
  ∧ Forall (λ c, heap Demo.disk !! c = None
                 ∧ ∃ cube, heap Demo.pair_world !! c = Some (OCube cube))
           (cubes_of Demo.pair_value).
Proof.
  apply (X11_cubes_read_are_new_and_distinct (E := Demo.binary64)
           Demo.disk (Names ["a.fits"; "b.fits"]) false Demo.pair_value
           Demo.pair_world).
  vm_compute. reflexivity.
Defined.

(** [a.fits] and [other.fits] are of two observations. *)
Lemma X13_two_observations_are_refused_after_reading_demo :
  let run := read_iris_sji_level2_fits (E := Demo.binary64)
               (Names ["a.fits"; "other.fits"]) false Demo.disk in
  run.1 = Raise (ValueError
            "Constituent IRISMapCube objects must have same value of 'OBSID' in its meta.")
  ∧ open_files run.2
    = kept_open false (names_of (Names ["a.fits"; "other.fits"]))
        (open_files Demo.disk).
Proof.
  apply (X13_two_observations_are_refused_after_reading (E := Demo.binary64)
           Demo.disk (Names ["a.fits"; "other.fits"]) false "a.fits" Demo.file_a).
  - apply Forall_cons_2; [exists Demo.file_a; split; vm_compute; reflexivity|].
    apply Forall_cons_2; [|apply Forall_nil_2].
    exists Demo.file_other_obs. split; vm_compute; reflexivity.
  - reflexivity.
  - vm_compute. reflexivity.
  - simpl. lia.
  - apply Exists_cons_tl, Exists_cons_hd.
    exists Demo.file_other_obs. split; vm_compute; reflexivity.
Defined.

(** The condition under which the read of [a.fits] and [b.fits] returns. *)
Lemma X14_the_call_returns_exactly_when_demo :
  (∃ v, (read_iris_sji_level2_fits (E := Demo.binary64)
           (Names ["a.fits"; "b.fits"]) false Demo.disk).1 = Ok v)
  ↔ Forall (λ name, ∃ file, files Demo.disk !! name = Some file
                            ∧ readable (E := Demo.binary64) false file = true)
           (names_of (Names ["a.fits"; "b.fits"]))
    ∧ (length (names_of (Names ["a.fits"; "b.fits"])) = 1%nat
       ∨ Forall (λ name, ∀ file, files Demo.disk !! name = Some file →
                   py_ne (file_obsid file) (file_obsid Demo.file_a) = false)
                (names_of (Names ["a.fits"; "b.fits"]))).
Proof.
  apply (X14_the_call_returns_exactly_when (E := Demo.binary64)
           Demo.disk (Names ["a.fits"; "b.fits"]) false "a.fits" Demo.file_a).
  - reflexivity.
  - vm_compute. reflexivity.
Defined.

(** Two cubes without observation id. *)
Lemma X16_member_without_obsid_is_a_key_error_demo :
  IRISMapCubeSequence__init__ [1; 2] None 0 Demo.world_no_noise
  = (Raise (KeyError "OBSID"), Demo.world_no_noise).
Proof.
  apply (X16_member_without_obsid_is_a_key_error Demo.world_no_noise [1; 2]
           [Demo.cube_no_coords; Demo.cube_no_noise] None 0).
  - repeat (apply Forall2_cons_2; [vm_compute; reflexivity|]). constructor.
  - apply Exists_cons_hd. vm_compute. reflexivity.
Defined.

(** A scaled cube with a coordinate, but not the exposure time. *)
Lemma X17_correction_needs_the_exposure_time_demo :
  apply_exposure_time_correction (E := Demo.binary64) 1 false false
    Demo.world_no_exposure
  = (Raise (KeyError "EXPOSURE TIME"), Demo.world_no_exposure).
Proof.
  rewrite (X17_correction_needs_the_exposure_time (E := Demo.binary64)
             Demo.world_no_exposure 1 Demo.cube_no_exposure false false);
    vm_compute; reflexivity.
Defined.

(** A scaled cube without any extra coordinate. *)
Lemma correction_without_coordinates_is_a_type_error :
  apply_exposure_time_correction (E := Demo.binary64) 1 false false
    Demo.world_no_noise
  = (Raise TypeError, Demo.world_no_noise).
Proof. vm_compute. reflexivity. Qed.

(** The cube of four dimensions and its exposure time of 2 s. *)
Lemma X18_bare_exposure_time_fits_any_rank_demo :
  exposure_time_of Demo.cube4 Demo.world4
  = (Ok (ExpScalar (Demo.num 2)), Demo.world4).
Proof.
  apply (X18_bare_exposure_time_fits_any_rank Demo.world4 Demo.cube4 None
           (Demo.num 2) (NDArray [1; 1; 1; 2] [Demo.num 6; Demo.num 8]));
    vm_compute; reflexivity.
Defined.

(** A scaled cube with an exposure time and no uncertainty. *)
Lemma X19_correction_needs_an_uncertainty_demo :
  let run := apply_exposure_time_correction (E := Demo.binary64) 2 true false
               Demo.world_no_noise in
  (exposure_time_of Demo.cube_no_noise Demo.world_no_noise).1
  = Ok (ExpScalar (Demo.num 2))
  ∧ run.2 = Demo.world_no_noise
  ∧ run.1 = Raise AttributeError.
Proof.
  intros run.
  assert (Hexp : (exposure_time_of Demo.cube_no_noise Demo.world_no_noise).1
                 = Ok (ExpScalar (Demo.num 2))) by (vm_compute; reflexivity).
  destruct (X19_correction_needs_an_uncertainty (E := Demo.binary64)
              Demo.world_no_noise 2 Demo.cube_no_noise true false)
    as [Hworld Hraise]; try (vm_compute; reflexivity).
  rewrite Hexp in Hraise.
  split; [exact Hexp|]. split; [exact Hworld|exact Hraise].
Defined.

(** The masks of the two cubes read from [a.fits] and [b.fits]. *)
Lemma X20_scaled_read_mask_is_all_false_demo :
  Forall (λ c, ∃ cube lm m,
            heap Demo.pair_world !! c = Some (OCube cube)
            ∧ IRISMapCube.mask cube = Some lm
            ∧ heap Demo.pair_world !! lm = Some (OMask m)
            ∧ Forall (λ b, b = false) (flat m)) (cubes_of Demo.pair_value).
Proof.
  apply (X20_scaled_read_mask_is_all_false (E := Demo.binary64)
           Demo.disk (Names ["a.fits"; "b.fits"]) Demo.pair_value Demo.pair_world).
  vm_compute. reflexivity.
Defined.

(** The corrected cube of [a.fits], at location 6, and the undoing of its
    correction. *)
Lemma X21_corrected_cube_is_never_corrected_again_demo :
  apply_exposure_time_correction (E := Demo.binary64) 6 true true
    Demo.corrected_world
  = (Raise (ValueError "This method is not available as you are using memmap"),
     Demo.corrected_world).
Proof.
  apply (X21_corrected_cube_is_never_corrected_again (E := Demo.binary64)
           Demo.scaled_world 3 Demo.scaled_cube false false 6
           Demo.corrected_world true true);
    vm_compute; reflexivity.
Defined.

(** The cube read memory mapped from [a.fits]. *)
Lemma X22_memmap_cubes_are_not_corrected_demo :
  Forall (λ c, apply_exposure_time_correction (E := Demo.binary64) c false true
                 Demo.raw_world
               = (Raise (ValueError
                    "This method is not available as you are using memmap"),
                  Demo.raw_world))
         (cubes_of Demo.raw_value).
Proof.
  apply (X22_memmap_cubes_are_not_corrected (E := Demo.binary64)
           Demo.disk (OneName "a.fits") Demo.raw_value Demo.raw_world false true).
  vm_compute. reflexivity.
Defined.
